(** * BudgetTracker: a shallow embedding of [src/models/budget_tracker.py]

    The model layer of the budget tracker (transaction ledger, currency
    conversion, summary, category registry, budget alerts, CSV and JSON
    import) is translated function by function.  Conventions:

    - a Python [float] is an exact rational ([Q]), without rounding,
      overflow, infinities or NaN, in the translation of the whole layer;
      the functions that compute with amounts are translated once more
      in [Double], with binary64 numbers, and what depends on rounding or
      on NaN is stated there;
    - a Python [str] is a [string] read as a sequence of code points below
      256;
    - a transaction dict is a record whose text fields are strings;
    - a raised exception is the [Raise] case of the result type [res];
    - [datetime.now()] and the files read are arguments of the functions
      that use them. *)

Set Warnings "-inexact-float".

From Stdlib Require Import PrimFloat FloatOps SpecFloat.
From Stdlib Require FloatAxioms.
From Stdlib Require Import ZArith QArith Qabs Qround Lqa Lia.
From Stdlib Require Import Bool List String Ascii DecimalString.
From Stdlib Require Import Permutation.
From Stdlib Require DecimalPos DecimalN.
Import ListNotations.

Local Open Scope string_scope.
Local Open Scope Z_scope.

(** ** Exceptions *)

Inductive exn : Type :=
| ZeroDivisionError
| ValueError
| TypeError
| CsvError.

Inductive res (A : Type) : Type :=
| Ok (a : A)
| Raise (e : exn).

Arguments Ok {A} a.
Arguments Raise {A} e.

Definition bind {A B : Type} (c : res A) (k : A -> res B) : res B :=
  match c with
  | Ok a => k a
  | Raise e => Raise e
  end.

Notation "x <- c ;; k" := (bind c (fun x => k))
  (at level 61, c at next level, right associativity).

(** ** Python strings *)

Module PyStr.

(** [str.isspace] on the code points below 256. *)
Definition is_space (c : ascii) : bool :=
  let n := N_of_ascii c in
  (((9 <=? n) && (n <=? 13)) || ((28 <=? n) && (n <=? 32))
   || (n =? 133) || (n =? 160))%N.

Fixpoint lstrip (s : string) : string :=
  match s with
  | EmptyString => EmptyString
  | String c r => if is_space c then lstrip r else s
  end.

Fixpoint rstrip (s : string) : string :=
  match s with
  | EmptyString => EmptyString
  | String c r =>
      match rstrip r with
      | EmptyString => if is_space c then EmptyString else String c EmptyString
      | r' => String c r'
      end
  end.

(** [s.strip()] *)
Definition strip (s : string) : string := rstrip (lstrip s).

(** [s.replace(old, new)] for a one-character [old]. *)
Fixpoint replace_char (old : ascii) (new : string) (s : string) : string :=
  match s with
  | EmptyString => EmptyString
  | String c r =>
      if Ascii.eqb c old then new ++ replace_char old new r
      else String c (replace_char old new r)
  end.

(** [sub in s] *)
Fixpoint contains (sub s : string) : bool :=
  prefix sub s
  || match s with
     | EmptyString => false
     | String _ r => contains sub r
     end.

(** Right-justified decimal rendering of a natural number, as the format
    specs [%02d], [%04d] and [%06d] give it. *)
Definition of_N (n : N) : string := NilZero.string_of_uint (N.to_uint n).

Fixpoint zeros (k : nat) : string :=
  match k with
  | O => EmptyString
  | S k' => String "0" (zeros k')
  end.

Definition zfill (width : nat) (s : string) : string :=
  zeros (width - String.length s) ++ s.

Definition is_digit (c : ascii) : bool :=
  let n := N_of_ascii c in ((48 <=? n) && (n <=? 57))%N.

Definition digit_val (c : ascii) : Z := Z.of_N (N_of_ascii c) - 48.

Definition quote : ascii := ascii_of_nat 34.
Definition CR : ascii := ascii_of_nat 13.
Definition LF : ascii := ascii_of_nat 10.

End PyStr.

(** ** Python floats as rationals *)

Module PyFloat.

Local Open Scope Q_scope.

Definition Qlt_bool (x y : Q) : bool := negb (Qle_bool y x).

(** [a / b] *)
Definition div (a b : Q) : res Q :=
  if Qeq_bool b 0 then Raise ZeroDivisionError else Ok (a / b).

(** Nearest integer, ties to the even one. *)
Definition round_half_even (x : Q) : Z :=
  let f := Qfloor x in
  let d := x - inject_Z f in
  if Qlt_bool d (1 # 2) then f
  else if Qlt_bool (1 # 2) d then (f + 1)%Z
  else if Z.even f then f else (f + 1)%Z.

Definition pow10 (k : nat) : Z := (10 ^ Z.of_nat k)%Z.

(** [round(x, k)] *)
Definition round_to (k : nat) (x : Q) : Q :=
  let r := round_half_even (Qabs x * inject_Z (pow10 k)) in
  let m := inject_Z r / inject_Z (pow10 k) in
  if Qlt_bool x 0 then - m else m.

(** [format(x, '.kf')] for [k >= 1]: sign, integer part, point and exactly
    [k] decimals. *)
Definition format_f (k : nat) (x : Q) : string :=
  let r := round_half_even (Qabs x * inject_Z (pow10 k)) in
  let ip := (r / pow10 k)%Z in
  let fp := (r mod pow10 k)%Z in
  ((if Qlt_bool x 0 then "-" else "")
     ++ PyStr.of_N (Z.to_N ip) ++ "."
     ++ PyStr.zfill k (PyStr.of_N (Z.to_N fp)))%string.

(** Decimals of [num / den] below the point: long division, at most
    [fuel] digits, stopping when the remainder vanishes. *)
Fixpoint frac_digits (fuel : nat) (num den : Z) : string :=
  match fuel with
  | O => EmptyString
  | S fuel' =>
      if (num =? 0)%Z then EmptyString
      else
        let d := (num * 10 / den)%Z in
        let r := (num * 10 mod den)%Z in
        (PyStr.of_N (Z.to_N d) ++ frac_digits fuel' r den)%string
  end.

(** [str(x)] / [repr(x)] in positional notation: the integer part, a
    point, and the decimals ([".0"] for a whole number). *)
Definition repr (x : Q) : string :=
  let a := Qabs x in
  let ip := Qfloor a in
  let num := (Qnum a - ip * Z.pos (Qden a))%Z in
  let fr := frac_digits 17 num (Z.pos (Qden a)) in
  ((if Qlt_bool x 0 then "-" else "")
     ++ PyStr.of_N (Z.to_N ip) ++ "."
     ++ (if String.eqb fr "" then "0" else fr))%string.

(** *** [float(s)]

    Grammar: optional blanks, optional sign, then [inf], [infinity] or
    [nan] in any letter case, or a decimal literal
    [digits [. [digits]] | . digits] with an optional exponent
    [(e|E) [sign] digits]; single underscores may separate digits. *)

Inductive parsed : Type :=
| Finite (q : Q)
| NonFinite
| Invalid.

Definition lower_char (c : ascii) : ascii :=
  let n := N_of_ascii c in
  if ((65 <=? n) && (n <=? 90))%N then ascii_of_N (n + 32) else c.

Fixpoint lower (s : string) : string :=
  match s with
  | EmptyString => EmptyString
  | String c r => String (lower_char c) (lower r)
  end.

(** The digits after a first one: value so far, number of digits read,
    and the rest of the text. *)
Fixpoint more_digits (acc : Z) (n : nat) (s : string) : Z * nat * string :=
  match s with
  | EmptyString => (acc, n, s)
  | String c r =>
      if PyStr.is_digit c
      then more_digits (acc * 10 + PyStr.digit_val c)%Z (S n) r
      else if Ascii.eqb c "_"
      then match r with
           | String d r' =>
               if PyStr.is_digit d
               then more_digits (acc * 10 + PyStr.digit_val d)%Z (S n) r'
               else (acc, n, s)
           | EmptyString => (acc, n, s)
           end
      else (acc, n, s)
  end.

Definition digitpart (acc : Z) (s : string) : option (Z * nat * string) :=
  match s with
  | String c r =>
      if PyStr.is_digit c
      then Some (more_digits (acc * 10 + PyStr.digit_val c)%Z 1 r)
      else None
  | EmptyString => None
  end.

Definition sign (s : string) : bool * string :=
  match s with
  | String "-" r => (true, r)
  | String "+" r => (false, r)
  | _ => (false, s)
  end.

(** Mantissa [m] with [n] decimals and decimal exponent [e]. *)
Definition scale (m : Z) (n : nat) (e : Z) : Q :=
  let k := (e - Z.of_nat n)%Z in
  if (0 <=? k)%Z then inject_Z (m * 10 ^ k)
  else inject_Z m / inject_Z (10 ^ (- k)).

Definition exponent (m : Z) (n : nat) (s : string) : option Q :=
  match s with
  | EmptyString => Some (scale m n 0)
  | String c r =>
      if Ascii.eqb c "e" || Ascii.eqb c "E"
      then let (neg, r') := sign r in
           match digitpart 0 r' with
           | Some (e, _, EmptyString) =>
               Some (scale m n (if neg then - e else e))
           | _ => None
           end
      else None
  end.

Definition literal (s : string) : option Q :=
  match s with
  | String "." r =>
      match digitpart 0 r with
      | Some (m, n, rest) => exponent m n rest
      | None => None
      end
  | _ =>
      match digitpart 0 s with
      | Some (i, _, String "." r) =>
          match digitpart i r with
          | Some (m, n, rest) => exponent m n rest
          | None => exponent i 0 r
          end
      | Some (i, _, rest) => exponent i 0 rest
      | None => None
      end
  end.

Definition of_string (s : string) : parsed :=
  let (neg, body) := sign (PyStr.strip s) in
  let l := lower body in
  if String.eqb l "inf" || String.eqb l "infinity" || String.eqb l "nan"
  then NonFinite
  else match literal body with
       | Some q => Finite (Qred (if neg then - q else q))
       | None => Invalid
       end.

End PyFloat.

(** ** Naive datetimes *)

Module PyDate.

Record datetime : Type := mkdt {
  year : Z; month : Z; day : Z;
  hour : Z; minute : Z; second : Z; microsecond : Z
}.

Definition is_leap (y : Z) : bool :=
  (y mod 4 =? 0) && (negb (y mod 100 =? 0) || (y mod 400 =? 0)).

Definition days_in_month (y m : Z) : Z :=
  if (m =? 2) && is_leap y then 29
  else nth (Z.to_nat m) [0; 31; 28; 31; 30; 31; 30; 31; 31; 30; 31; 30; 31] 0.

Definition days_before_year (y : Z) : Z :=
  let p := y - 1 in p * 365 + p / 4 - p / 100 + p / 400.

Definition days_before_month_tbl (m : Z) : Z :=
  nth (Z.to_nat m) [0; 0; 31; 59; 90; 120; 151; 181; 212; 243; 273; 304; 334] 0.

Definition days_before_month (y m : Z) : Z :=
  days_before_month_tbl m + (if (2 <? m) && is_leap y then 1 else 0).

(** [date.toordinal()]: 1 is 0001-01-01. *)
Definition ymd2ord (y m d : Z) : Z :=
  days_before_year y + days_before_month y m + d.

(** [date.fromordinal(n)] *)
Definition ord2ymd (n0 : Z) : Z * Z * Z :=
  let n := n0 - 1 in
  let n400 := n / 146097 in
  let n := n mod 146097 in
  let n100 := n / 36524 in
  let n := n mod 36524 in
  let n4 := n / 1461 in
  let n := n mod 1461 in
  let n1 := n / 365 in
  let n := n mod 365 in
  let y := n400 * 400 + 1 + n100 * 100 + n4 * 4 + n1 in
  if (n1 =? 4) || (n100 =? 4) then (y - 1, 12, 31)
  else
    let leapyear := (n1 =? 3) && (negb (n4 =? 24) || (n100 =? 3)) in
    let m := Z.shiftr (n + 50) 5 in
    let preceding :=
      days_before_month_tbl m + (if (2 <? m) && leapyear then 1 else 0) in
    if n <? preceding
    then
      let m' := m - 1 in
      let preceding' :=
        preceding
        - (nth (Z.to_nat m') [0; 31; 28; 31; 30; 31; 30; 31; 31; 30; 31; 30; 31] 0
           + (if (m' =? 2) && leapyear then 1 else 0)) in
      (y, m', n - preceding' + 1)
    else (y, m, n - preceding + 1).

(** [d.weekday()]: Monday is 0. *)
Definition weekday (d : datetime) : Z :=
  (ymd2ord (year d) (month d) (day d) + 6) mod 7.

(** [d - timedelta(days=k)] *)
Definition minus_days (d : datetime) (k : Z) : datetime :=
  let '(y, m, dd) := ord2ymd (ymd2ord (year d) (month d) (day d) - k) in
  mkdt y m dd (hour d) (minute d) (second d) (microsecond d).

(** [d.replace(hour=0, minute=0, second=0, microsecond=0)] *)
Definition at_midnight (d : datetime) : datetime :=
  mkdt (year d) (month d) (day d) 0 0 0 0.

(** [d.replace(day=1, hour=0, minute=0, second=0, microsecond=0)] *)
Definition month_start (d : datetime) : datetime :=
  mkdt (year d) (month d) 1 0 0 0 0.

Definition fields (d : datetime) : list Z :=
  [year d; month d; day d; hour d; minute d; second d; microsecond d].

Fixpoint lex_leb (a b : list Z) : bool :=
  match a, b with
  | x :: a', y :: b' => (x <? y) || ((x =? y) && lex_leb a' b')
  | [], _ => true
  | _ :: _, [] => false
  end.

(** [a <= b] on naive datetimes. *)
Definition leb (a b : datetime) : bool := lex_leb (fields a) (fields b).

Definition pad (w : nat) (z : Z) : string :=
  PyStr.zfill w (PyStr.of_N (Z.to_N z)).

(** [d.isoformat()] *)
Definition isoformat (d : datetime) : string :=
  pad 4 (year d) ++ "-" ++ pad 2 (month d) ++ "-" ++ pad 2 (day d) ++ "T"
    ++ pad 2 (hour d) ++ ":" ++ pad 2 (minute d) ++ ":" ++ pad 2 (second d)
    ++ (if microsecond d =? 0 then "" else "." ++ pad 6 (microsecond d)).

(** *** [datetime.fromisoformat]

    The layouts that [isoformat] writes:
    [YYYY-MM-DD], then optionally any one separator character and
    [HH], [HH:MM], [HH:MM:SS], [HH:MM:SS.fff] or [HH:MM:SS.ffffff], then
    optionally a UTC offset [+HH:MM] or [-HH:MM].  Any other text is a
    [ValueError], as it is up to Python 3.10 (later versions read further
    ISO 8601 layouts). *)

Inductive parsed : Type :=
| Naive (d : datetime)
| Aware
| BadFormat.

(** Exactly [k] digits. *)
Fixpoint digits (k : nat) (acc : Z) (s : string) : option (Z * string) :=
  match k with
  | O => Some (acc, s)
  | S k' =>
      match s with
      | String c r =>
          if PyStr.is_digit c
          then digits k' (acc * 10 + PyStr.digit_val c) r
          else None
      | EmptyString => None
      end
  end.

Definition expect (c : ascii) (s : string) : option string :=
  match s with
  | String c' r => if Ascii.eqb c c' then Some r else None
  | EmptyString => None
  end.

Definition parse_date (s : string) : option (Z * Z * Z * string) :=
  match digits 4 0 s with
  | Some (y, s1) =>
      match expect "-" s1 with
      | Some s2 =>
          match digits 2 0 s2 with
          | Some (m, s3) =>
              match expect "-" s3 with
              | Some s4 =>
                  match digits 2 0 s4 with
                  | Some (d, s5) => Some (y, m, d, s5)
                  | None => None
                  end
              | None => None
              end
          | None => None
          end
      | None => None
      end
  | None => None
  end.

Definition is_offset_sign (c : ascii) : bool :=
  Ascii.eqb c "+" || Ascii.eqb c "-".

(** The UTC offset, if the text ends with one: [Some true] when it is well
    formed, [Some false] when anything else follows. *)
Definition parse_offset (s : string) : option bool :=
  match s with
  | EmptyString => None
  | String c r =>
      if is_offset_sign c
      then match digits 2 0 r with
           | Some (h, r1) =>
               match expect ":" r1 with
               | Some r2 =>
                   match digits 2 0 r2 with
                   | Some (m, EmptyString) => Some ((h <? 24) && (m <? 60))
                   | _ => Some false
                   end
               | None => Some false
               end
           | None => Some false
           end
      else Some false
  end.

(** Microseconds after the point: three or six digits. *)
Definition parse_fraction (s : string) : option (Z * string) :=
  match digits 6 0 s with
  | Some r => Some r
  | None =>
      match digits 3 0 s with
      | Some (ms, r) => Some (ms * 1000, r)
      | None => None
      end
  end.

(** [HH[:MM[:SS[.fff[fff]]]]]: the four components and the rest. *)
Definition parse_time (s : string) : option (Z * Z * Z * Z * string) :=
  match digits 2 0 s with
  | None => None
  | Some (h, s1) =>
      match expect ":" s1 with
      | None => Some (h, 0, 0, 0, s1)
      | Some s2 =>
          match digits 2 0 s2 with
          | None => None
          | Some (mi, s3) =>
              match expect ":" s3 with
              | None => Some (h, mi, 0, 0, s3)
              | Some s4 =>
                  match digits 2 0 s4 with
                  | None => None
                  | Some (sec, s5) =>
                      match expect "." s5 with
                      | None => Some (h, mi, sec, 0, s5)
                      | Some s6 =>
                          match parse_fraction s6 with
                          | Some (us, s7) => Some (h, mi, sec, us, s7)
                          | None => None
                          end
                      end
                  end
              end
          end
      end
  end.

Definition valid (d : datetime) : bool :=
  (1 <=? year d) && (1 <=? month d) && (month d <=? 12)
  && (1 <=? day d) && (day d <=? days_in_month (year d) (month d))
  && (hour d <? 24) && (minute d <? 60) && (second d <? 60).

Definition fromisoformat (s : string) : parsed :=
  match parse_date s with
  | None => BadFormat
  | Some (y, m, d, EmptyString) =>
      let dt := mkdt y m d 0 0 0 0 in
      if valid dt then Naive dt else BadFormat
  | Some (y, m, d, String _ t) =>
      match parse_time t with
      | None => BadFormat
      | Some (h, mi, sec, us, rest) =>
          let dt := mkdt y m d h mi sec us in
          if valid dt
          then match parse_offset rest with
               | None => Naive dt
               | Some true => Aware
               | Some false => BadFormat
               end
          else BadFormat
      end
  end.

End PyDate.

(** ** The [csv] module, default dialect

    Delimiter [,], quote character, doubled quotes inside quoted fields,
    minimal quoting, line terminator CR LF. *)

Module Csv.

Import PyStr.

Fixpoint any_char (p : ascii -> bool) (s : string) : bool :=
  match s with
  | EmptyString => false
  | String c r => p c || any_char p r
  end.

Definition special (c : ascii) : bool :=
  Ascii.eqb c "," || Ascii.eqb c quote || Ascii.eqb c CR || Ascii.eqb c LF.

Fixpoint double_quotes (s : string) : string :=
  match s with
  | EmptyString => EmptyString
  | String c r =>
      if Ascii.eqb c quote
      then String quote (String quote (double_quotes r))
      else String c (double_quotes r)
  end.

Definition write_field (s : string) : string :=
  if any_char special s
  then String quote (double_quotes s ++ String quote EmptyString)
  else s.

Definition CRLF : string := String CR (String LF EmptyString).

(** [writer.writerow(fields)]: the text appended to the file. *)
Definition writerow (fields : list string) : string :=
  match fields with
  | [EmptyString] => String quote (String quote CRLF)
  | _ => String.concat "," (map write_field fields) ++ CRLF
  end.

(** *** Reading a text file

    A file opened for reading without [newline=''] has every CR LF and
    every lone CR turned into LF before the reader sees it. *)
Fixpoint universal_newlines (s : string) : string :=
  match s with
  | EmptyString => EmptyString
  | String c r =>
      if Ascii.eqb c CR
      then match r with
           | String c' r' =>
               if Ascii.eqb c' LF
               then String LF (universal_newlines r')
               else String LF (universal_newlines r)
           | EmptyString => String LF EmptyString
           end
      else String c (universal_newlines r)
  end.

(** Iterating over the file: the lines, each with its terminating LF. *)
Fixpoint lines_from (cur : string) (s : string) : list string :=
  match s with
  | EmptyString =>
      match cur with
      | EmptyString => []
      | _ => [cur]
      end
  | String c r =>
      if Ascii.eqb c LF
      then (cur ++ String c EmptyString) :: lines_from EmptyString r
      else lines_from (cur ++ String c EmptyString) r
  end.

Definition file_lines (s : string) : list string :=
  lines_from EmptyString s.

(** *** The reader's state machine *)

Inductive state : Type :=
| START_RECORD
| START_FIELD
| IN_FIELD
| IN_QUOTED_FIELD
| QUOTE_IN_QUOTED_FIELD
| EAT_CRNL.

Definition state_eqb (a b : state) : bool :=
  match a, b with
  | START_RECORD, START_RECORD
  | START_FIELD, START_FIELD
  | IN_FIELD, IN_FIELD
  | IN_QUOTED_FIELD, IN_QUOTED_FIELD
  | QUOTE_IN_QUOTED_FIELD, QUOTE_IN_QUOTED_FIELD
  | EAT_CRNL, EAT_CRNL => true
  | _, _ => false
  end.

(** The field being read and the fields already read are kept newest
    first. *)
Record parser : Type := mkparser {
  st : state;
  field : list ascii;
  field_len : N;
  fields : list string
}.

Definition parse_reset : parser := mkparser START_RECORD [] 0 [].

Definition field_limit : N := 131072.

Definition string_of_rev (l : list ascii) : string :=
  fold_left (fun s c => String c s) l EmptyString.

Definition parse_save_field (p : parser) (s : state) : parser :=
  mkparser s [] 0 (string_of_rev (field p) :: fields p).

Definition parse_add_char (p : parser) (s : state) (c : ascii) : res parser :=
  if (field_limit <=? field_len p)%N then Raise CsvError
  else Ok (mkparser s (c :: field p) (field_len p + 1) (fields p)).

Definition set_state (p : parser) (s : state) : parser :=
  mkparser s (field p) (field_len p) (fields p).

Definition is_newline (c : ascii) : bool := Ascii.eqb c LF || Ascii.eqb c CR.

Definition start_field (p : parser) (c : ascii) : res parser :=
  if is_newline c then Ok (parse_save_field p EAT_CRNL)
  else if Ascii.eqb c quote then Ok (set_state p IN_QUOTED_FIELD)
  else if Ascii.eqb c "," then Ok (parse_save_field p START_FIELD)
  else parse_add_char p IN_FIELD c.

(** One character of a line. *)
Definition process_char (p : parser) (c : ascii) : res parser :=
  match st p with
  | START_RECORD =>
      if is_newline c then Ok (set_state p EAT_CRNL)
      else start_field p c
  | START_FIELD => start_field p c
  | IN_FIELD =>
      if is_newline c then Ok (parse_save_field p EAT_CRNL)
      else if Ascii.eqb c "," then Ok (parse_save_field p START_FIELD)
      else parse_add_char p IN_FIELD c
  | IN_QUOTED_FIELD =>
      if Ascii.eqb c quote then Ok (set_state p QUOTE_IN_QUOTED_FIELD)
      else parse_add_char p IN_QUOTED_FIELD c
  | QUOTE_IN_QUOTED_FIELD =>
      if Ascii.eqb c quote then parse_add_char p IN_QUOTED_FIELD c
      else if Ascii.eqb c "," then Ok (parse_save_field p START_FIELD)
      else if is_newline c then Ok (parse_save_field p EAT_CRNL)
      else parse_add_char p IN_FIELD c
  | EAT_CRNL =>
      if is_newline c then Ok p else Raise CsvError
  end.

(** The end of a line. *)
Definition process_eol (p : parser) : parser :=
  match st p with
  | START_RECORD => p
  | START_FIELD | IN_FIELD | QUOTE_IN_QUOTED_FIELD =>
      parse_save_field p START_RECORD
  | IN_QUOTED_FIELD => p
  | EAT_CRNL => set_state p START_RECORD
  end.

Fixpoint process_chars (p : parser) (line : string) : res parser :=
  match line with
  | EmptyString => Ok p
  | String c r => p' <- process_char p c ;; process_chars p' r
  end.

Definition process_line (p : parser) (line : string) : res parser :=
  p' <- process_chars p line ;; Ok (process_eol p').

(** All the records of [reader(lines)], by repeated [next]. *)
Fixpoint records (p : parser) (lines : list string) : res (list (list string)) :=
  match lines with
  | [] =>
      if negb (field_len p =? 0)%N || state_eqb (st p) IN_QUOTED_FIELD
      then Ok [rev (fields (parse_save_field p (st p)))]
      else Ok []
  | line :: rest =>
      p' <- process_line p line ;;
      if state_eqb (st p') START_RECORD
      then rs <- records parse_reset rest ;; Ok (rev (fields p') :: rs)
      else records p' rest
  end.

Definition reader (lines : list string) : res (list (list string)) :=
  records parse_reset lines.

(** *** [DictReader]

    A row maps each name of the header to its cell, to [None] where the
    record is shorter than the header.  A later binding of a repeated
    name replaces the earlier one. *)

Definition row : Type := list (string * option string).

Fixpoint zip_row (names : list string) (cells : list string) : row :=
  match names, cells with
  | [], _ => []
  | n :: names', [] => (n, None) :: zip_row names' []
  | n :: names', c :: cells' => (n, Some c) :: zip_row names' cells'
  end.

Definition is_empty_record (r : list string) : bool :=
  match r with
  | [] => true
  | _ => false
  end.

Definition dict_reader (lines : list string) : res (list row) :=
  rs <- reader lines ;;
  match rs with
  | [] => Ok []
  | fieldnames :: rest =>
      Ok (map (zip_row fieldnames)
              (filter (fun r => negb (is_empty_record r)) rest))
  end.

(** [key in row] *)
Definition has_key (key : string) (r : row) : bool :=
  existsb (fun kv => String.eqb (fst kv) key) r.

(** [row[key]] for a key that is present. *)
Fixpoint get (key : string) (r : row) : option (option string) :=
  match r with
  | [] => None
  | (k, v) :: r' =>
      match get key r' with
      | Some v' => Some v'
      | None => if String.eqb k key then Some v else None
      end
  end.

End Csv.

(** ** Decoded JSON documents and files *)

(** What [json.load] returns.  An object keeps its members in document
    order, with distinct names. *)
#[local] Unset Elimination Schemes.

Inductive json : Type :=
| JNull
| JBool (b : bool)
| JNum (q : Q)
| JStr (s : string)
| JArr (l : list json)
| JObj (m : list (string * json)).

#[local] Set Elimination Schemes.

(** What a path holds: nothing, something that cannot be opened or decoded,
    or a content. *)
Inductive file (A : Type) : Type :=
| NoSuchFile
| Unreadable
| Content (a : A).

Arguments NoSuchFile {A}.
Arguments Unreadable {A}.
Arguments Content {A} a.

(** ** Dictionaries keyed by strings, in insertion order *)

Fixpoint dict_get {V : Type} (k : string) (d : list (string * V)) : option V :=
  match d with
  | [] => None
  | (k', v) :: d' => if String.eqb k' k then Some v else dict_get k d'
  end.

Fixpoint dict_set {V : Type} (k : string) (v : V) (d : list (string * V))
  : list (string * V) :=
  match d with
  | [] => [(k, v)]
  | (k', v') :: d' =>
      if String.eqb k' k then (k, v) :: d' else (k', v') :: dict_set k v d'
  end.

(** [x in l] for a list of strings. *)
Definition str_in (x : string) (l : list string) : bool :=
  existsb (String.eqb x) l.

(** [l.remove(x)]: the first occurrence goes. *)
Fixpoint list_remove (x : string) (l : list string) : list string :=
  match l with
  | [] => []
  | y :: l' => if String.eqb y x then l' else y :: list_remove x l'
  end.

(** ** The tracker *)

Record Transaction : Type := mkTransaction {
  tx_amount : Q;
  tx_category : string;
  tx_type : string;
  tx_currency : string;
  tx_date : string;
  tx_id : Z
}.

Record BudgetTracker : Type := mkTracker {
  transactions : list Transaction;
  income_categories : list string;
  expense_categories : list string;
  budget_limits : list (string * Q);
  monthly_budget_limit : option Q;
  weekly_budget_limit : option Q
}.

Definition set_transactions (self : BudgetTracker) (l : list Transaction)
  : BudgetTracker :=
  mkTracker l (income_categories self) (expense_categories self)
            (budget_limits self) (monthly_budget_limit self)
            (weekly_budget_limit self).

Definition set_income_categories (self : BudgetTracker) (l : list string)
  : BudgetTracker :=
  mkTracker (transactions self) l (expense_categories self)
            (budget_limits self) (monthly_budget_limit self)
            (weekly_budget_limit self).

Definition set_expense_categories (self : BudgetTracker) (l : list string)
  : BudgetTracker :=
  mkTracker (transactions self) (income_categories self) l
            (budget_limits self) (monthly_budget_limit self)
            (weekly_budget_limit self).

(** [__init__], when neither [categories.json] nor [budget_settings.json]
    exists. *)
Definition init : BudgetTracker :=
  mkTracker []
    ["Salary"; "Freelance"; "Business"; "Investment"; "Gift"; "Other Income"]
    ["Food"; "Transportation"; "Entertainment"; "Bills"; "Shopping";
     "Healthcare"; "Education"; "Other Expense"]
    [] None None.

(** [self.exchange_rates]: units of the currency for one USD. *)
Definition exchange_rates : list (string * Q) :=
  [("USD", 1%Q); ("EUR", 0.91%Q); ("GBP", 0.79%Q); ("JPY", 149.50%Q);
   ("CAD", 1.36%Q); ("AUD", 1.52%Q); ("CHF", 0.87%Q); ("CNY", 7.24%Q);
   ("INR", 83.12%Q); ("BRL", 5.03%Q); ("PKR", 278%Q)].

Definition add_transaction (now : PyDate.datetime) (self : BudgetTracker)
  (amount : Q) (category transaction_type currency : string)
  (transaction_date : option string) : bool * BudgetTracker :=
  if Qle_bool amount 0 then (false, self)
  else if String.eqb category "" || String.eqb (PyStr.strip category) ""
  then (false, self)
  else if negb (str_in transaction_type ["Income"; "Expense"])
  then (false, self)
  else
    let transaction_date :=
      match transaction_date with
      | None => PyDate.isoformat now
      | Some d => d
      end in
    let transaction :=
      {| tx_amount := amount;
         tx_category := PyStr.strip category;
         tx_type := transaction_type;
         tx_currency := currency;
         tx_date := transaction_date;
         tx_id := Z.of_nat (List.length (transactions self)) + 1 |} in
    (true, set_transactions self (transactions self ++ [transaction])).

Definition convert_to_usd (amount : Q) (currency : string) : Q :=
  match dict_get currency exchange_rates with
  | None => amount
  | Some rate => (Qabs amount / rate)%Q
  end.

Definition get_transactions (self : BudgetTracker) : list Transaction :=
  transactions self.

Record Summary : Type := mkSummary {
  total_income : Q;
  total_expenses : Q;
  net_balance : Q
}.

(** One turn of the loop of [get_summary] on the two running totals. *)
Definition summary_step (acc : Q * Q) (transaction : Transaction) : Q * Q :=
  let (total_income_usd, total_expenses_usd) := acc in
  let amount_usd :=
    convert_to_usd (tx_amount transaction) (tx_currency transaction) in
  if String.eqb (tx_type transaction) "Income"
  then ((total_income_usd + amount_usd)%Q, total_expenses_usd)
  else if String.eqb (tx_type transaction) "Expense"
  then (total_income_usd, (total_expenses_usd + amount_usd)%Q)
  else (total_income_usd, total_expenses_usd).

Definition get_summary (self : BudgetTracker) : Summary :=
  let (total_income_usd, total_expenses_usd) :=
    fold_left summary_step (transactions self) (0%Q, 0%Q) in
  {| total_income := total_income_usd;
     total_expenses := total_expenses_usd;
     net_balance := (total_income_usd - total_expenses_usd)%Q |}.

Fixpoint remove_first_id (transaction_id : Z) (l : list Transaction)
  : option (list Transaction) :=
  match l with
  | [] => None
  | t :: l' =>
      if tx_id t =? transaction_id then Some l'
      else match remove_first_id transaction_id l' with
           | Some r => Some (t :: r)
           | None => None
           end
  end.

Definition remove_transaction (self : BudgetTracker) (transaction_id : Z)
  : bool * BudgetTracker :=
  match remove_first_id transaction_id (transactions self) with
  | Some l => (true, set_transactions self l)
  | None => (false, self)
  end.

Definition clear_all_transactions (self : BudgetTracker) : BudgetTracker :=
  set_transactions self [].

Definition get_transaction_count (self : BudgetTracker) : Z :=
  Z.of_nat (List.length (transactions self)).

(** *** Categories *)

Definition get_categories (self : BudgetTracker)
  (transaction_type : option string) : list string :=
  match transaction_type with
  | Some "Income" => income_categories self
  | Some "Expense" => expense_categories self
  | _ => income_categories self ++ expense_categories self
  end.

Definition add_category (self : BudgetTracker)
  (category_name transaction_type : string) : bool * BudgetTracker :=
  let category_name := PyStr.strip category_name in
  if String.eqb category_name "" then (false, self)
  else if String.eqb transaction_type "Income"
  then if negb (str_in category_name (income_categories self))
       then (true, set_income_categories self
                     (income_categories self ++ [category_name]))
       else (false, self)
  else if String.eqb transaction_type "Expense"
  then if negb (str_in category_name (expense_categories self))
       then (true, set_expense_categories self
                     (expense_categories self ++ [category_name]))
       else (false, self)
  else (false, self).

Definition is_category_in_use (self : BudgetTracker) (category_name : string)
  : bool :=
  existsb (fun transaction => String.eqb (tx_category transaction) category_name)
          (transactions self).

Definition remove_category (self : BudgetTracker)
  (category_name transaction_type : string) : bool * BudgetTracker :=
  if is_category_in_use self category_name then (false, self)
  else if String.eqb transaction_type "Income"
          && str_in category_name (income_categories self)
  then (true, set_income_categories self
                (list_remove category_name (income_categories self)))
  else if String.eqb transaction_type "Expense"
          && str_in category_name (expense_categories self)
  then (true, set_expense_categories self
                (list_remove category_name (expense_categories self)))
  else (false, self).

(** *** CSV and JSON persistence *)

Definition csv_fieldnames : list string :=
  ["date"; "amount"; "currency"; "category"; "type"; "usd_value"].

Definition csv_row_of (transaction : Transaction) : list string :=
  let usd_value :=
    convert_to_usd (tx_amount transaction) (tx_currency transaction) in
  [tx_date transaction;
   PyFloat.repr (tx_amount transaction);
   tx_currency transaction;
   tx_category transaction;
   tx_type transaction;
   PyFloat.repr (PyFloat.round_to 2 usd_value)].

(** [save_to_csv]: the text written to the file (opened with [newline=''],
    so written as it is) when the file can be opened; the call then returns
    [True]. *)
Definition save_to_csv (self : BudgetTracker) : string :=
  Csv.writerow csv_fieldnames
    ++ String.concat "" (map (fun t => Csv.writerow (csv_row_of t))
                             (transactions self)).

Definition required_fields : list string :=
  ["date"; "amount"; "category"; "type"].

(** The list being loaded; [None] once it holds an entry that the record
    [Transaction] cannot represent (a field that is not a string, an amount
    that is not finite).  Python stores such entries like any other. *)
Definition loading : Type := option (list Transaction).

Definition loaded_len (l : loading) : Z :=
  match l with
  | Some txs => Z.of_nat (List.length txs)
  | None => 0
  end.

Definition loaded_append (l : loading) (t : option Transaction) : loading :=
  match l, t with
  | Some txs, Some tx => Some (txs ++ [tx])%list
  | _, _ => None
  end.

(** [float(cell)] *)
Definition float_of_text (s : string) : res (option Q) :=
  match PyFloat.of_string s with
  | PyFloat.Finite q => Ok (Some q)
  | PyFloat.NonFinite => Ok None
  | PyFloat.Invalid => Raise ValueError
  end.

Definition float_of_cell (c : option string) : res (option Q) :=
  match c with
  | Some s => float_of_text s
  | None => Raise TypeError
  end.

Definition mk_loaded (date : option string) (amount : option Q)
  (currency category type : option string) (n : Z) : option Transaction :=
  match date, amount, currency, category, type with
  | Some d, Some a, Some cur, Some cat, Some ty =>
      Some {| tx_amount := a; tx_category := cat; tx_type := ty;
              tx_currency := cur; tx_date := d; tx_id := n |}
  | _, _, _, _, _ => None
  end.

Definition cell (key : string) (row : Csv.row) : option string :=
  match Csv.get key row with
  | Some v => v
  | None => None
  end.

Definition csv_transaction (row : Csv.row) (n : Z) : res (option Transaction) :=
  amount <- float_of_cell (cell "amount" row) ;;
  let currency :=
    match Csv.get "currency" row with
    | Some v => v
    | None => Some "USD"
    end in
  Ok (mk_loaded (cell "date" row) amount currency
                (cell "category" row) (cell "type" row) n).

Fixpoint csv_rows (rows : list Csv.row) (loaded_transactions : loading)
  : res loading :=
  match rows with
  | [] => Ok loaded_transactions
  | row :: rest =>
      if negb (forallb (fun field => Csv.has_key field row) required_fields)
      then csv_rows rest loaded_transactions
      else
        transaction <-
          csv_transaction row (loaded_len loaded_transactions + 1) ;;
        csv_rows rest (loaded_append loaded_transactions transaction)
  end.

(** What a load returns and leaves behind; [None] when the ledger it
    installs is outside the model (see [loading]). *)
Definition finish_load (self : BudgetTracker) (r : res loading)
  : option (bool * BudgetTracker) :=
  match r with
  | Raise _ => Some (false, self)
  | Ok (Some loaded_transactions) =>
      Some (true, set_transactions self loaded_transactions)
  | Ok None => None
  end.

Definition load_from_csv (self : BudgetTracker) (f : file string)
  : option (bool * BudgetTracker) :=
  match f with
  | NoSuchFile => Some (false, self)
  | Unreadable => Some (false, self)
  | Content text =>
      finish_load self
        (rows <- Csv.dict_reader (Csv.file_lines (Csv.universal_newlines text)) ;;
         csv_rows rows (Some []))
  end.

(** [for transaction_data in transactions_data] *)
Definition json_iter (v : json) : res (list json) :=
  match v with
  | JArr l => Ok l
  | JObj m => Ok (map (fun kv => JStr (fst kv)) m)
  | JStr s =>
      Ok (map (fun c => JStr (String c EmptyString)) (list_ascii_of_string s))
  | _ => Raise TypeError
  end.

(** [field in transaction_data] *)
Definition json_in (field : string) (v : json) : bool :=
  match v with
  | JObj m => existsb (fun kv => String.eqb (fst kv) field) m
  | JArr l =>
      existsb (fun x => match x with
                        | JStr s => String.eqb s field
                        | _ => false
                        end) l
  | JStr s => PyStr.contains field s
  | _ => false
  end.

Definition json_iterable (v : json) : bool :=
  match v with
  | JObj _ | JArr _ | JStr _ => true
  | _ => false
  end.

(** [float(v)] *)
Definition float_of_json (v : option json) : res (option Q) :=
  match v with
  | Some (JNum q) => Ok (Some q)
  | Some (JBool b) => Ok (Some (if b then 1%Q else 0%Q))
  | Some (JStr s) => float_of_text s
  | _ => Raise TypeError
  end.

Definition json_str (v : option json) : option string :=
  match v with
  | Some (JStr s) => Some s
  | _ => None
  end.

Definition json_transaction (transaction_data : json) (n : Z)
  : res (option Transaction) :=
  match transaction_data with
  | JObj m =>
      amount <- float_of_json (dict_get "amount" m) ;;
      let currency :=
        match dict_get "currency" m with
        | Some v => json_str (Some v)
        | None => Some "USD"
        end in
      Ok (mk_loaded (json_str (dict_get "date" m)) amount currency
                    (json_str (dict_get "category" m))
                    (json_str (dict_get "type" m)) n)
  | _ => Raise TypeError
  end.

Fixpoint json_rows (items : list json) (loaded_transactions : loading)
  : res loading :=
  match items with
  | [] => Ok loaded_transactions
  | transaction_data :: rest =>
      if negb (json_iterable transaction_data) then Raise TypeError
      else if negb (forallb (fun field => json_in field transaction_data)
                            required_fields)
      then json_rows rest loaded_transactions
      else
        transaction <-
          json_transaction transaction_data
                           (loaded_len loaded_transactions + 1) ;;
        json_rows rest (loaded_append loaded_transactions transaction)
  end.

Definition load_from_json (self : BudgetTracker) (f : file json)
  : option (bool * BudgetTracker) :=
  match f with
  | NoSuchFile => Some (false, self)
  | Unreadable => Some (false, self)
  | Content data =>
      let run transactions_data :=
        finish_load self
          (items <- json_iter transactions_data ;; json_rows items (Some [])) in
      match data with
      | JArr _ => run data
      | JObj m =>
          match dict_get "transactions" m with
          | Some transactions_data => run transactions_data
          | None => Some (false, self)
          end
      | _ => Some (false, self)
      end
  end.

(** *** Budget alerts *)

Definition set_monthly_budget (self : BudgetTracker) (limit : Q)
  : BudgetTracker :=
  mkTracker (transactions self) (income_categories self)
            (expense_categories self) (budget_limits self)
            (Some limit) (weekly_budget_limit self).

Definition set_weekly_budget (self : BudgetTracker) (limit : Q)
  : BudgetTracker :=
  mkTracker (transactions self) (income_categories self)
            (expense_categories self) (budget_limits self)
            (monthly_budget_limit self) (Some limit).

Definition set_category_budget (self : BudgetTracker) (category : string)
  (limit : Q) : BudgetTracker :=
  mkTracker (transactions self) (income_categories self)
            (expense_categories self)
            (dict_set category limit (budget_limits self))
            (monthly_budget_limit self) (weekly_budget_limit self).

Record Alert : Type := mkAlert {
  alert_type : string;
  message : string;
  severity : string
}.

Record BudgetStatus : Type := mkStatus {
  monthly_spent : Q;
  monthly_limit : option Q;
  weekly_spent : Q;
  weekly_limit : option Q;
  category_expenses : list (string * Q);
  category_limits : list (string * Q);
  alerts : list Alert
}.

(** [datetime.fromisoformat(transaction['date'].replace('Z', '+00:00'))],
    as far as the comparisons with the naive window bounds that follow it
    let through: a date with a UTC offset makes them raise [TypeError]. *)
Definition transaction_datetime (transaction : Transaction)
  : res PyDate.datetime :=
  match PyDate.fromisoformat
          (PyStr.replace_char "Z" "+00:00" (tx_date transaction)) with
  | PyDate.Naive d => Ok d
  | PyDate.Aware => Raise TypeError
  | PyDate.BadFormat => Raise ValueError
  end.

Fixpoint expenses_in_period (l : list Transaction)
  (start_date end_date : PyDate.datetime) (total : Q) : res Q :=
  match l with
  | [] => Ok total
  | transaction :: rest =>
      if String.eqb (tx_type transaction) "Expense"
      then
        transaction_date <- transaction_datetime transaction ;;
        if PyDate.leb start_date transaction_date
           && PyDate.leb transaction_date end_date
        then
          let usd_amount :=
            convert_to_usd (tx_amount transaction) (tx_currency transaction) in
          expenses_in_period rest start_date end_date (total + usd_amount)%Q
        else expenses_in_period rest start_date end_date total
      else expenses_in_period rest start_date end_date total
  end.

Definition _get_expenses_in_period (self : BudgetTracker)
  (start_date end_date : PyDate.datetime) : res Q :=
  expenses_in_period (transactions self) start_date end_date 0%Q.

Definition get_default (category : string) (d : list (string * Q)) : Q :=
  match dict_get category d with
  | Some v => v
  | None => 0%Q
  end.

Fixpoint category_expenses_from (l : list Transaction)
  (current_month_start : PyDate.datetime) (category_totals : list (string * Q))
  : res (list (string * Q)) :=
  match l with
  | [] => Ok category_totals
  | transaction :: rest =>
      if String.eqb (tx_type transaction) "Expense"
      then
        transaction_date <- transaction_datetime transaction ;;
        if PyDate.leb current_month_start transaction_date
        then
          let category := tx_category transaction in
          let usd_amount :=
            convert_to_usd (tx_amount transaction) (tx_currency transaction) in
          category_expenses_from rest current_month_start
            (dict_set category
                      (get_default category category_totals + usd_amount)%Q
                      category_totals)
        else category_expenses_from rest current_month_start category_totals
      else category_expenses_from rest current_month_start category_totals
  end.

Definition _get_category_expenses_current_month (now : PyDate.datetime)
  (self : BudgetTracker) : res (list (string * Q)) :=
  let current_month_start := PyDate.month_start now in
  category_expenses_from (transactions self) current_month_start [].

Definition money (x : Q) : string := "$" ++ PyFloat.format_f 2 x.

Definition used (percentage spent limit : Q) : string :=
  PyFloat.format_f 1 percentage ++ "% used (" ++ money spent ++ " of "
    ++ money limit ++ ")".

Definition check_monthly (monthly_expenses : Q) (limit : option Q)
  : res (list Alert) :=
  match limit with
  | None => Ok []
  | Some monthly_budget_limit =>
      if Qeq_bool monthly_budget_limit 0 then Ok []
      else
        ratio <- PyFloat.div monthly_expenses monthly_budget_limit ;;
        let monthly_percentage := (ratio * 100)%Q in
        if Qle_bool monthly_budget_limit monthly_expenses
        then Ok [mkAlert "monthly_exceeded"
                   ("Monthly budget exceeded! Spent " ++ money monthly_expenses
                      ++ " of " ++ money monthly_budget_limit)
                   "critical"]
        else if Qle_bool 80 monthly_percentage
        then Ok [mkAlert "monthly_warning"
                   ("Monthly budget warning: "
                      ++ used monthly_percentage monthly_expenses
                              monthly_budget_limit)
                   "warning"]
        else Ok []
  end.

Definition check_weekly (weekly_expenses : Q) (limit : option Q)
  : res (list Alert) :=
  match limit with
  | None => Ok []
  | Some weekly_budget_limit =>
      if Qeq_bool weekly_budget_limit 0 then Ok []
      else
        ratio <- PyFloat.div weekly_expenses weekly_budget_limit ;;
        let weekly_percentage := (ratio * 100)%Q in
        if Qle_bool weekly_budget_limit weekly_expenses
        then Ok [mkAlert "weekly_exceeded"
                   ("Weekly budget exceeded! Spent " ++ money weekly_expenses
                      ++ " of " ++ money weekly_budget_limit)
                   "critical"]
        else if Qle_bool 80 weekly_percentage
        then Ok [mkAlert "weekly_warning"
                   ("Weekly budget warning: "
                      ++ used weekly_percentage weekly_expenses
                              weekly_budget_limit)
                   "warning"]
        else Ok []
  end.

Definition check_category (category : string) (limit spent : Q)
  : res (list Alert) :=
  if PyFloat.Qlt_bool 0 spent
  then
    ratio <- PyFloat.div spent limit ;;
    let percentage := (ratio * 100)%Q in
    if Qle_bool limit spent
    then Ok [mkAlert "category_exceeded"
               ("Category '" ++ category ++ "' budget exceeded! Spent "
                  ++ money spent ++ " of " ++ money limit)
               "critical"]
    else if Qle_bool 80 percentage
    then Ok [mkAlert "category_warning"
               ("Category '" ++ category ++ "' warning: "
                  ++ used percentage spent limit)
               "warning"]
    else Ok []
  else Ok [].

Fixpoint check_categories (limits : list (string * Q))
  (category_expenses : list (string * Q)) : res (list Alert) :=
  match limits with
  | [] => Ok []
  | (category, limit) :: rest =>
      let spent := get_default category category_expenses in
      here <- check_category category limit spent ;;
      more <- check_categories rest category_expenses ;;
      Ok (here ++ more)%list
  end.

(** [get_budget_status], with the current time as an argument: both reads
    of the clock (here and in [_get_category_expenses_current_month]) give
    [now]. *)
Definition get_budget_status (now : PyDate.datetime) (self : BudgetTracker)
  : res BudgetStatus :=
  let current_month_start := PyDate.month_start now in
  monthly_expenses <- _get_expenses_in_period self current_month_start now ;;
  let days_since_monday := PyDate.weekday now in
  let current_week_start :=
    PyDate.at_midnight (PyDate.minus_days now days_since_monday) in
  weekly_expenses <- _get_expenses_in_period self current_week_start now ;;
  category_expenses <- _get_category_expenses_current_month now self ;;
  monthly_alerts <- check_monthly monthly_expenses (monthly_budget_limit self) ;;
  weekly_alerts <- check_weekly weekly_expenses (weekly_budget_limit self) ;;
  category_alerts <- check_categories (budget_limits self) category_expenses ;;
  Ok {| monthly_spent := monthly_expenses;
        monthly_limit := monthly_budget_limit self;
        weekly_spent := weekly_expenses;
        weekly_limit := weekly_budget_limit self;
        category_expenses := category_expenses;
        category_limits := budget_limits self;
        alerts := (monthly_alerts ++ weekly_alerts ++ category_alerts)%list |}.

(** ** Notions used by the statements *)

(** The invariant of a stored transaction. *)
Definition valid_transaction (t : Transaction) : Prop :=
  (0 < tx_amount t)%Q
  /\ (tx_type t = "Income" \/ tx_type t = "Expense")
  /\ tx_category t <> "".

(** Ledgers reached from the empty one by the ledger's own operations. *)
Inductive reachable_by_edits : BudgetTracker -> Prop :=
| edits_init : reachable_by_edits init
| edits_add now self amount category transaction_type currency date :
    reachable_by_edits self ->
    reachable_by_edits
      (snd (add_transaction now self amount category transaction_type
                            currency date))
| edits_remove self transaction_id :
    reachable_by_edits self ->
    reachable_by_edits (snd (remove_transaction self transaction_id))
| edits_clear self :
    reachable_by_edits self ->
    reachable_by_edits (clear_all_transactions self).


(** What an export followed by an import is meant to keep of a
    transaction. *)
Definition ledger_tuple (t : Transaction)
  : string * Q * string * string * string :=
  (tx_date t, tx_amount t, tx_currency t, tx_category t, tx_type t).

(** The summary as the specification words it: each amount converted, the
    amounts of one kind added up. *)
Definition to_base (t : Transaction) : Q :=
  convert_to_usd (tx_amount t) (tx_currency t).

Definition Qsum (l : list Q) : Q := fold_right Qplus 0%Q l.

Definition total_of_kind (kind : string) (l : list Transaction) : Q :=
  Qsum (map to_base (filter (fun t => String.eqb (tx_type t) kind) l)).

(** The alerts of one type. *)
Definition alerts_of_type (ty : string) (l : list Alert) : list Alert :=
  filter (fun a => String.eqb (alert_type a) ty) l.

(** The rule of one period scope: at or over the limit, one critical alert
    and no warning; otherwise, from 80 % on, one warning; otherwise
    nothing; nothing either without a limit or with a limit of 0. *)
Definition scope_rule (spent : Q) (limit : option Q)
  (exceeded warning : string) (l : list Alert) : Prop :=
  let crit := alerts_of_type exceeded l in
  let warn := alerts_of_type warning l in
  match limit with
  | None => crit = [] /\ warn = []
  | Some lim =>
      ((lim == 0)%Q -> crit = [] /\ warn = [])
      /\ (~ (lim == 0)%Q -> (lim <= spent)%Q ->
          (exists a, crit = [a] /\ severity a = "critical") /\ warn = [])
      /\ (~ (lim == 0)%Q -> ~ (lim <= spent)%Q -> (0.80 <= spent / lim)%Q ->
          crit = [] /\ exists a, warn = [a] /\ severity a = "warning")
      /\ (~ (lim == 0)%Q -> ~ (lim <= spent)%Q -> ~ (0.80 <= spent / lim)%Q ->
          crit = [] /\ warn = [])
  end.

(** The scenarios the statements are checked on. *)
Definition noon : PyDate.datetime := PyDate.mkdt 2024 5 15 12 0 0 0.

Definition ledger_of_one (amount : Q) (category kind date : string)
  : BudgetTracker :=
  snd (add_transaction noon init amount category kind "USD" (Some date)).

Definition salary_and_rent : BudgetTracker :=
  snd (add_transaction noon
         (snd (add_transaction noon init 5000 "Salary" "Income" "USD" None))
         1200 "Rent" "Expense" "USD" None).

Definition category_with_return : string :=
  String "a" (String PyStr.CR (String "b" EmptyString)).



Definition text_amount_csv : string :=
  "date,amount,category,type" ++ String PyStr.LF
    ("2024-05-01,abc,Food,Expense" ++ String PyStr.LF EmptyString).

Definition food_limit_zero : BudgetTracker :=
  set_category_budget (ledger_of_one 50 "Food" "Expense" "2024-05-10") "Food" 0.

Definition food_next_year : BudgetTracker :=
  ledger_of_one 50 "Food" "Expense" "2025-05-10".

Definition food_with_monthly_limit (spent : Q) : BudgetTracker :=
  set_monthly_budget (ledger_of_one spent "Food" "Expense" "2024-05-10") 1000.

(** The ways a load fails on a file that is there. *)

(** A JSON document that is neither a list nor an object with the member
    [transactions]. *)
Definition unrecognized_shape (data : json) : Prop :=
  match data with
  | JArr _ => False
  | JObj m => dict_get "transactions" m = None
  | _ => True
  end.

(** A CSV row with the required columns whose amount [float] refuses. *)
Definition unconvertible_row (row : Csv.row) : Prop :=
  forallb (fun field => Csv.has_key field row) required_fields = true
  /\ exists e, float_of_cell (cell "amount" row) = Raise e.

(** The same for a JSON entry. *)
Definition unconvertible_entry (item : json) : Prop :=
  exists m e,
    item = JObj m
    /\ forallb (fun field => json_in field item) required_fields = true
    /\ float_of_json (dict_get "amount" m) = Raise e.

(** When [get_budget_status] returns: the date of every Expense reads as a
    naive datetime, and no category limit is 0. *)
Definition dates_readable (self : BudgetTracker) : Prop :=
  Forall (fun t => tx_type t = "Expense" ->
                   exists d, transaction_datetime t = Ok d)
         (transactions self).

Definition limits_nonzero (self : BudgetTracker) : Prop :=
  Forall (fun kv => ~ (snd kv == 0)%Q) (budget_limits self).

(** ** The rest of the tracker *)

(** [s.lower()] on the code points below 256: the letters A to Z and the
    accented capitals from 192 to 222, the sign at 215 apart. *)
Definition lower_char (c : ascii) : ascii :=
  let n := N_of_ascii c in
  if (((65 <=? n) && (n <=? 90))
      || ((192 <=? n) && (n <=? 222) && negb (n =? 215)))%N
  then ascii_of_N (n + 32)
  else c.

Fixpoint str_lower (s : string) : string :=
  match s with
  | EmptyString => EmptyString
  | String c r => String (lower_char c) (str_lower r)
  end.

Definition get_transactions_by_category (self : BudgetTracker)
  (category : string) : list Transaction :=
  filter (fun t => String.eqb (str_lower (tx_category t)) (str_lower category))
         (transactions self).

Definition get_transactions_by_type (self : BudgetTracker)
  (transaction_type : string) : list Transaction :=
  filter (fun t => String.eqb (tx_type t) transaction_type)
         (transactions self).

(** [currency_counts.get(currency, 0)] *)
Definition get_count (currency : string) (d : list (string * Z)) : Z :=
  match dict_get currency d with
  | Some n => n
  | None => 0
  end.

(** The counting loop of [get_primary_currency]. *)
Fixpoint count_currencies (l : list Transaction)
  (currency_counts : list (string * Z)) : list (string * Z) :=
  match l with
  | [] => currency_counts
  | transaction :: rest =>
      let currency := tx_currency transaction in
      count_currencies rest
        (dict_set currency (get_count currency currency_counts + 1)
                  currency_counts)
  end.

(** [max(d, key=d.get)] continued from a best key so far: a later key
    replaces it only with a strictly larger count. *)
Fixpoint max_key (best : string) (best_count : Z) (d : list (string * Z))
  : string :=
  match d with
  | [] => best
  | (k, n) :: d' =>
      if best_count <? n then max_key k n d' else max_key best best_count d'
  end.

Definition get_primary_currency (self : BudgetTracker) : string :=
  match transactions self with
  | [] => "USD"
  | _ :: _ =>
      match count_currencies (transactions self) [] with
      | (k, n) :: d => max_key k n d
      | [] => "USD"
      end
  end.

(** [del d[k]] *)
Fixpoint dict_del {V : Type} (k : string) (d : list (string * V))
  : list (string * V) :=
  match d with
  | [] => []
  | (k', v) :: d' =>
      if String.eqb k' k then d' else (k', v) :: dict_del k d'
  end.

Definition set_budget_limits (self : BudgetTracker) (d : list (string * Q))
  : BudgetTracker :=
  mkTracker (transactions self) (income_categories self)
            (expense_categories self) d
            (monthly_budget_limit self) (weekly_budget_limit self).

Definition remove_category_budget (self : BudgetTracker) (category : string)
  : bool * BudgetTracker :=
  match dict_get category (budget_limits self) with
  | Some _ =>
      (true, set_budget_limits self (dict_del category (budget_limits self)))
  | None => (false, self)
  end.

(** *** The documents written and read beside the ledger *)

Definition json_of_transaction (transaction : Transaction) : json :=
  let usd_value :=
    convert_to_usd (tx_amount transaction) (tx_currency transaction) in
  JObj [("amount", JNum (tx_amount transaction));
        ("category", JStr (tx_category transaction));
        ("type", JStr (tx_type transaction));
        ("currency", JStr (tx_currency transaction));
        ("date", JStr (tx_date transaction));
        ("id", JNum (inject_Z (tx_id transaction)));
        ("usd_value", JNum (PyFloat.round_to 2 usd_value))].

(** [save_to_json]: the document handed to [json.dump] (the call then
    returns [True] when the file can be written).  [set_list l] stands for
    [list(set(l))], the distinct elements of [l] in the order the
    interpreter iterates the set. *)
Definition save_to_json (now : PyDate.datetime)
  (set_list : list string -> list string) (self : BudgetTracker) : json :=
  JObj [("transactions", JArr (map json_of_transaction (transactions self)));
        ("metadata",
         JObj [("export_date", JStr (PyDate.isoformat now));
               ("total_transactions",
                JNum (inject_Z (Z.of_nat (List.length (transactions self)))));
               ("currencies_used",
                JArr (map JStr
                          (set_list (map tx_currency (transactions self)))))])].

(** [save_categories]: the document written to [categories.json]. *)
Definition save_categories (self : BudgetTracker) : json :=
  JObj [("income_categories", JArr (map JStr (income_categories self)));
        ("expense_categories", JArr (map JStr (expense_categories self)))].

(** A JSON list of strings, as a list of strings. *)
Fixpoint json_strings (l : list json) : option (list string) :=
  match l with
  | [] => Some []
  | JStr s :: l' =>
      match json_strings l' with
      | Some r => Some (s :: r)
      | None => None
      end
  | _ :: _ => None
  end.

Definition json_string_list (v : json) : option (list string) :=
  match v with
  | JArr l => json_strings l
  | _ => None
  end.

(** [load_categories].  A document that is not an object either lacks
    both names, and nothing is assigned, or makes the subscript raise.
    [None]: a category list that is not a list of strings is assigned. *)
Definition load_categories (self : BudgetTracker) (f : file json)
  : option (bool * BudgetTracker) :=
  match f with
  | NoSuchFile => Some (false, self)
  | Unreadable => Some (false, self)
  | Content categories_data =>
      match categories_data with
      | JObj m =>
          let after_income :=
            match dict_get "income_categories" m with
            | Some v =>
                match json_string_list v with
                | Some l => Some (set_income_categories self l)
                | None => None
                end
            | None => Some self
            end in
          match after_income with
          | None => None
          | Some self1 =>
              match dict_get "expense_categories" m with
              | Some v =>
                  match json_string_list v with
                  | Some l => Some (true, set_expense_categories self1 l)
                  | None => None
                  end
              | None => Some (true, self1)
              end
          end
      | JArr _ | JStr _ =>
          if json_in "income_categories" categories_data
             || json_in "expense_categories" categories_data
          then Some (false, self)
          else Some (true, self)
      | _ => Some (false, self)
      end
  end.

Definition json_of_limit (limit : option Q) : json :=
  match limit with
  | Some q => JNum q
  | None => JNull
  end.

(** [save_budget_settings]: the document written to
    [budget_settings.json]. *)
Definition save_budget_settings (self : BudgetTracker) : json :=
  JObj [("monthly_budget_limit", json_of_limit (monthly_budget_limit self));
        ("weekly_budget_limit", json_of_limit (weekly_budget_limit self));
        ("category_limits",
         JObj (map (fun kv => (fst kv, JNum (snd kv))) (budget_limits self)))].

(** [budget_data.get(name)] as a limit: a number, or [None] for [null] and
    for a missing name.  The outer [None]: another value. *)
Definition limit_of_json (v : option json) : option (option Q) :=
  match v with
  | None => Some None
  | Some JNull => Some None
  | Some (JNum q) => Some (Some q)
  | Some _ => None
  end.

Fixpoint json_limits (m : list (string * json)) : option (list (string * Q)) :=
  match m with
  | [] => Some []
  | (k, JNum q) :: m' =>
      match json_limits m' with
      | Some r => Some ((k, q) :: r)
      | None => None
      end
  | _ :: _ => None
  end.

(** [budget_data.get('category_limits', {})] *)
Definition category_limits_of_json (v : option json)
  : option (list (string * Q)) :=
  match v with
  | None => Some []
  | Some (JObj m) => json_limits m
  | Some _ => None
  end.

(** [load_budget_settings].  Only an object has [get]; on anything else
    the first read raises.  [None]: a value that is not a limit is
    assigned. *)
Definition load_budget_settings (self : BudgetTracker) (f : file json)
  : option (bool * BudgetTracker) :=
  match f with
  | NoSuchFile => Some (false, self)
  | Unreadable => Some (false, self)
  | Content budget_data =>
      match budget_data with
      | JObj m =>
          match limit_of_json (dict_get "monthly_budget_limit" m),
                limit_of_json (dict_get "weekly_budget_limit" m),
                category_limits_of_json (dict_get "category_limits" m) with
          | Some monthly, Some weekly, Some limits =>
              Some (true,
                    mkTracker (transactions self) (income_categories self)
                              (expense_categories self) limits monthly weekly)
          | _, _, _ => None
          end
      | _ => Some (false, self)
      end
  end.

(** [__init__] with the two files it reads: the defaults, then
    [load_categories], then [load_budget_settings]. *)
Definition new_tracker (categories_file budget_file : file json)
  : option BudgetTracker :=
  match load_categories init categories_file with
  | None => None
  | Some (_, self1) =>
      match load_budget_settings self1 budget_file with
      | None => None
      | Some (_, self2) => Some self2
      end
  end.

(** ** [models/budget.py] *)

Record Expense : Type := mkExpense {
  expense_amount : Q;
  description : string
}.

Record Budget : Type := mkBudget {
  expenses : list Expense
}.

Definition Budget_init : Budget := mkBudget [].

Definition add_expense (self : Budget) (amount : Q) (descr : string)
  : Budget :=
  mkBudget (expenses self ++ [mkExpense amount descr]).

Definition remove_expense (self : Budget) (descr : string) : Budget :=
  mkBudget (filter (fun expense =>
                      negb (String.eqb (description expense) descr))
                   (expenses self)).

Definition get_balance (self : Budget) : Q :=
  fold_left Qplus (map expense_amount (expenses self)) 0%Q.

(** ** Notions used by the further statements *)

(** The ids 1, 2, ..., n. *)
Definition ids_upto (n : nat) : list Z := map Z.of_nat (seq 1 n).

(** Category registries reached from the defaults by [add_category] and
    [remove_category]. *)
Inductive registry_reachable : BudgetTracker -> Prop :=
| registry_init self :
    income_categories self = income_categories init ->
    expense_categories self = expense_categories init ->
    registry_reachable self
| registry_add self name kind :
    registry_reachable self ->
    registry_reachable (snd (add_category self name kind))
| registry_remove self name kind :
    registry_reachable self ->
    registry_reachable (snd (remove_category self name kind)).

(** The decision of the category check, without the division. *)
Definition category_decision (limit spent : Q) : list string :=
  if PyFloat.Qlt_bool 0 spent
  then if Qle_bool limit spent then ["critical"]
       else if Qle_bool (0.80 * limit) spent then ["warning"]
       else []
  else [].

(** The week window of [get_budget_status]. *)
Definition week_start (now : PyDate.datetime) : PyDate.datetime :=
  PyDate.at_midnight (PyDate.minus_days now (PyDate.weekday now)).


(** No text field of the transaction holds a carriage return, no cell
    written for it is longer than the reader's field limit, and the amount
    is read back from its text, as every Python float is. *)
Definition no_return (s : string) : Prop :=
  Csv.any_char (fun c => Ascii.eqb c PyStr.CR) s = false.

Definition fits (s : string) : Prop :=
  (N.of_nat (String.length s) <= Csv.field_limit)%N.

Definition csv_safe (t : Transaction) : Prop :=
  no_return (tx_date t) /\ no_return (tx_currency t)
  /\ no_return (tx_category t) /\ no_return (tx_type t)
  /\ Forall fits (csv_row_of t)
  /\ PyFloat.of_string (PyFloat.repr (tx_amount t))
     = PyFloat.Finite (tx_amount t).

(** A record of two cells or more, none with a carriage return, each
    within the reader's limit. *)
Definition plain_record (r : list string) : Prop :=
  (2 <= List.length r)%nat /\ Forall no_return r /\ Forall fits r.

(** The reader seen character by character over the whole text, for the
    proofs: [scan q started s] is what [Csv.records] returns on the lines
    of the text still to come, [q] being the parser after the characters
    of the current line read so far and [started] telling whether there
    are any. *)
Fixpoint scan (q : Csv.parser) (started : bool) (s : string)
  : res (list (list string)) :=
  match s with
  | EmptyString =>
      if started
      then
        let q' := Csv.process_eol q in
        if Csv.state_eqb (Csv.st q') Csv.START_RECORD
        then rs <- Csv.records Csv.parse_reset [] ;;
             Ok (rev (Csv.fields q') :: rs)
        else Csv.records q' []
      else Csv.records q []
  | String c r =>
      q' <- Csv.process_char q c ;;
      if Ascii.eqb c PyStr.LF
      then
        let q'' := Csv.process_eol q' in
        if Csv.state_eqb (Csv.st q'') Csv.START_RECORD
        then rs <- scan Csv.parse_reset false r ;;
             Ok (rev (Csv.fields q'') :: rs)
        else scan q'' false r
      else scan q' true r
  end.

Definition started (cur : string) : bool :=
  match cur with
  | EmptyString => false
  | String _ _ => true
  end.

(** What follows a cell closed by the delimiter or by the end of the
    line. *)
Definition close (fs : list string) (t : ascii) (r : string)
  : res (list (list string)) :=
  if Ascii.eqb t PyStr.LF
  then rs <- scan Csv.parse_reset false r ;; Ok (rev fs :: rs)
  else scan (Csv.mkparser Csv.START_FIELD [] 0 fs) true r.

(** The expenses recorded under a description. *)
Definition recorded_under (descr : string) (self : Budget) : list Expense :=
  filter (fun expense => String.eqb (description expense) descr)
         (expenses self).

(** The transactions with the ids 1, 2, ... in their order. *)
Fixpoint renumber_from (n : Z) (l : list Transaction) : list Transaction :=
  match l with
  | [] => []
  | t :: l' =>
      {| tx_amount := tx_amount t; tx_category := tx_category t;
         tx_type := tx_type t; tx_currency := tx_currency t;
         tx_date := tx_date t; tx_id := n |}
      :: renumber_from (n + 1) l'
  end.

Definition renumber (l : list Transaction) : list Transaction :=
  renumber_from 1 l.

(** The rows that an import keeps: those with the four required names. *)
Definition csv_kept (rows : list Csv.row) : list Csv.row :=
  filter (fun row =>
            forallb (fun field => Csv.has_key field row) required_fields)
         rows.

(** The transaction holds what the row holds: the cells of the date, the
    currency, the category and the kind as they are, the amount as
    [float] reads it; USD without a currency column. *)
Definition csv_reads (row : Csv.row) (t : Transaction) : Prop :=
  cell "date" row = Some (tx_date t)
  /\ float_of_cell (cell "amount" row) = Ok (Some (tx_amount t))
  /\ match Csv.get "currency" row with
     | Some v => v
     | None => Some "USD"
     end = Some (tx_currency t)
  /\ cell "category" row = Some (tx_category t)
  /\ cell "type" row = Some (tx_type t).


(** The list that [load_from_json] goes through. *)
Definition transactions_data_of (data : json) : option json :=
  match data with
  | JArr _ => Some data
  | JObj m => dict_get "transactions" m
  | _ => None
  end.

Definition json_kept (items : list json) : list json :=
  filter (fun item =>
            forallb (fun field => json_in field item) required_fields)
         items.

Definition json_reads (item : json) (t : Transaction) : Prop :=
  exists m,
    item = JObj m
    /\ json_str (dict_get "date" m) = Some (tx_date t)
    /\ float_of_json (dict_get "amount" m) = Ok (Some (tx_amount t))
    /\ match dict_get "currency" m with
       | Some v => json_str (Some v)
       | None => Some "USD"
       end = Some (tx_currency t)
    /\ json_str (dict_get "category" m) = Some (tx_category t)
    /\ json_str (dict_get "type" m) = Some (tx_type t).

(** One list is the other two merged, each in its order. *)
Inductive merge_of {A : Type} : list A -> list A -> list A -> Prop :=
| merge_nil : merge_of [] [] []
| merge_left x l1 l2 l : merge_of l1 l2 l -> merge_of (x :: l1) l2 (x :: l)
| merge_right x l1 l2 l : merge_of l1 l2 l -> merge_of l1 (x :: l2) (x :: l).

(** Ledgers filled by [add_transaction] alone, starting from an empty
    ledger (a new tracker, or any tracker after
    [clear_all_transactions]). *)
Inductive filled_by_adds : BudgetTracker -> Prop :=
| filled_empty self : transactions self = [] -> filled_by_adds self
| filled_add now self amount category transaction_type currency date :
    filled_by_adds self ->
    filled_by_adds
      (snd (add_transaction now self amount category transaction_type
                            currency date)).

(** The alerts of the category checks. *)
Definition category_alerts (l : list Alert) : list Alert :=
  filter (fun a => str_in (alert_type a)
                          ["category_exceeded"; "category_warning"]) l.

(** The number of transactions in a currency. *)
Definition uses (currency : string) (l : list Transaction) : Z :=
  Z.of_nat
    (List.length (filter (fun t => String.eqb (tx_currency t) currency) l)).

(** A datetime as [datetime.now()] gives it: a date of the calendar up to
    the year 9999 and a time of day. *)
Definition is_datetime (d : PyDate.datetime) : Prop :=
  PyDate.valid d = true /\ PyDate.year d <= 9999
  /\ 0 <= PyDate.hour d /\ 0 <= PyDate.minute d /\ 0 <= PyDate.second d
  /\ 0 <= PyDate.microsecond d < 1000000.

(** A date of the calendar. *)
Definition is_date (y m d : Z) : Prop :=
  1 <= y /\ 1 <= m <= 12 /\ 1 <= d <= PyDate.days_in_month y m.

(** The month and the day that [ord2ymd] finds for day [n] of a year,
    counted from 0. *)
Definition month_day (n : Z) (leapyear : bool) : Z * Z :=
  let m := Z.shiftr (n + 50) 5 in
  let preceding :=
    PyDate.days_before_month_tbl m + (if (2 <? m) && leapyear then 1 else 0) in
  if n <? preceding
  then
    let m' := m - 1 in
    let preceding' :=
      preceding
      - (nth (Z.to_nat m') [0; 31; 28; 31; 30; 31; 30; 31; 31; 30; 31; 30; 31] 0
         + (if (m' =? 2) && leapyear then 1 else 0)) in
    (m', n - preceding' + 1)
  else (m, n - preceding + 1).

(** What the proofs check of [month_day] on each day of a year. *)
Definition month_day_fits (leapyear : bool) (n : Z) : bool :=
  let '(m, d) := month_day n leapyear in
  (1 <=? m) && (m <=? 12) && (1 <=? d)
  && (d <=? (if (m =? 2) && leapyear then 29
             else nth (Z.to_nat m)
                      [0; 31; 28; 31; 30; 31; 30; 31; 31; 30; 31; 30; 31] 0))
  && (PyDate.days_before_month_tbl m
      + (if (2 <? m) && leapyear then 1 else 0) + d =? n + 1).

(** The date texts that the entry forms pass to [add_transaction] for the
    day picked:
    [datetime.combine(selected_date, datetime.min.time()).isoformat()] in
    gui_app.py, and [selected_date.strftime("%Y-%m-%d")] in
    modern_gui_app.py and streamlit_app.py, for a year of four digits. *)
Definition combined_date (day : PyDate.datetime) : string :=
  PyDate.isoformat (PyDate.at_midnight day).

Definition strftime_date (day : PyDate.datetime) : string :=
  PyDate.pad 4 (PyDate.year day) ++ "-" ++ PyDate.pad 2 (PyDate.month day)
    ++ "-" ++ PyDate.pad 2 (PyDate.day day).

Definition form_date (text : string) (day : PyDate.datetime) : Prop :=
  text = combined_date day
  \/ (1000 <= PyDate.year day /\ text = strftime_date day).

(** A date text written by the program: by [add_transaction] for a call
    without a date, or by an entry form. *)
Definition written_date (text : string) : Prop :=
  exists d, is_datetime d
            /\ (text = PyDate.isoformat d \/ form_date text d).

(** Further scenarios. *)
Definition ids_from_file_json : json :=
  JArr [JObj [("date", JStr "2024-05-01"); ("amount", JNum 12);
              ("category", JStr "Food"); ("type", JStr "Expense");
              ("id", JNum 41)];
        JObj [("date", JStr "2024-05-02"); ("amount", JStr "7.5");
              ("category", JStr "Bus"); ("type", JStr "Expense");
              ("id", JNum 41)]].

Definition no_amount_csv : string :=
  "date,category,type" ++ String PyStr.LF
    ("2024-05-01,Food,Expense" ++ String PyStr.LF EmptyString).

Definition no_currency_csv : string :=
  "date,amount,category,type" ++ String PyStr.LF
    ("2024-05-01,12.50,Food,Expense" ++ String PyStr.LF EmptyString).

Definition euro_dollar_tie : BudgetTracker :=
  let add self amount currency :=
    snd (add_transaction noon self amount "Food" "Expense" currency None) in
  add (add (add (add init 10%Q "EUR") 20%Q "USD") 30%Q "USD") 40%Q "EUR".

(** A category with a comma, quote characters and a line feed. *)
Definition category_with_specials : string :=
  "eat, " ++ String PyStr.quote
               ("out" ++ String PyStr.quote (String PyStr.LF "late")).

Definition specials_ledger : BudgetTracker :=
  snd (add_transaction noon
         (snd (add_transaction noon init (25 # 2) category_with_specials
                               "Expense" "EUR" (Some "2024-05-01")))
         5000 "Salary" "Income" "USD" None).

Definition lunches : Budget :=
  add_expense (add_expense (add_expense Budget_init 12 "lunch") 40 "fuel")
              8 "lunch".

(** ** The arithmetic in double precision

    A Python [float] is an IEEE 754 binary64 number.  The functions of the
    tracker that compute with amounts, rates and limits are given here
    once more with such numbers: sums are rounded at every addition,
    comparisons with a value that is not a number are false, and
    divisions by zero raise.  The statements that depend on rounding or on
    values that are not numbers are made about these definitions. *)

Module Double.

Local Open Scope float_scope.

(** [a / b]: [ZeroDivisionError] for a divisor 0.0 or -0.0. *)
Definition div (a b : float) : res float :=
  if b =? 0 then Raise ZeroDivisionError else Ok (a / b).

(** The exact value of the finite number with mantissa [m] and exponent
    [e]. *)
Definition magnitude (m : positive) (e : Z) : Q :=
  if (0 <=? e)%Z then inject_Z (Z.pos m * 2 ^ e)
  else Qmake (Z.pos m) (2 ^ Z.to_pos (- e))%positive.

Definition sign_text (s : bool) : string := if s then "-" else "".

(** [format(x, '.kf')]: the exact value rounded to [k] decimals. *)
Definition format_f (k : nat) (x : float) : string :=
  match Prim2SF x with
  | S754_nan => "nan"
  | S754_infinity s => sign_text s ++ "inf"
  | S754_zero s => sign_text s ++ PyFloat.format_f k 0
  | S754_finite s m e => sign_text s ++ PyFloat.format_f k (magnitude m e)
  end.

Record Transaction : Type := mkTransaction {
  tx_amount : float;
  tx_category : string;
  tx_type : string;
  tx_currency : string;
  tx_date : string;
  tx_id : Z
}.

Record BudgetTracker : Type := mkTracker {
  transactions : list Transaction;
  income_categories : list string;
  expense_categories : list string;
  budget_limits : list (string * float);
  monthly_budget_limit : option float;
  weekly_budget_limit : option float
}.

Definition set_transactions (self : BudgetTracker) (l : list Transaction)
  : BudgetTracker :=
  mkTracker l (income_categories self) (expense_categories self)
            (budget_limits self) (monthly_budget_limit self)
            (weekly_budget_limit self).

(** [__init__], when neither [categories.json] nor [budget_settings.json]
    exists. *)
Definition init : BudgetTracker :=
  mkTracker []
    ["Salary"; "Freelance"; "Business"; "Investment"; "Gift"; "Other Income"]
    ["Food"; "Transportation"; "Entertainment"; "Bills"; "Shopping";
     "Healthcare"; "Education"; "Other Expense"]
    [] None None.

(** [self.exchange_rates]: units of the currency for one USD. *)
Definition exchange_rates : list (string * float) :=
  [("USD", 1); ("EUR", 0.91); ("GBP", 0.79); ("JPY", 149.50);
   ("CAD", 1.36); ("AUD", 1.52); ("CHF", 0.87); ("CNY", 7.24);
   ("INR", 83.12); ("BRL", 5.03); ("PKR", 278)].

Definition add_transaction (now : PyDate.datetime) (self : BudgetTracker)
  (amount : float) (category transaction_type currency : string)
  (transaction_date : option string) : bool * BudgetTracker :=
  if amount <=? 0 then (false, self)
  else if String.eqb category "" || String.eqb (PyStr.strip category) ""
  then (false, self)
  else if negb (str_in transaction_type ["Income"; "Expense"])
  then (false, self)
  else
    let transaction_date :=
      match transaction_date with
      | None => PyDate.isoformat now
      | Some d => d
      end in
    let transaction :=
      {| tx_amount := amount;
         tx_category := PyStr.strip category;
         tx_type := transaction_type;
         tx_currency := currency;
         tx_date := transaction_date;
         tx_id := Z.of_nat (List.length (transactions self)) + 1 |} in
    (true, set_transactions self (transactions self ++ [transaction])).

Definition convert_to_usd (amount : float) (currency : string) : float :=
  match dict_get currency exchange_rates with
  | None => amount
  | Some rate => abs amount / rate
  end.

Record Summary : Type := mkSummary {
  total_income : float;
  total_expenses : float;
  net_balance : float
}.

(** One turn of the loop of [get_summary] on the two running totals. *)
Definition summary_step (acc : float * float) (transaction : Transaction)
  : float * float :=
  let (total_income_usd, total_expenses_usd) := acc in
  let amount_usd :=
    convert_to_usd (tx_amount transaction) (tx_currency transaction) in
  if String.eqb (tx_type transaction) "Income"
  then (total_income_usd + amount_usd, total_expenses_usd)
  else if String.eqb (tx_type transaction) "Expense"
  then (total_income_usd, total_expenses_usd + amount_usd)
  else (total_income_usd, total_expenses_usd).

Definition get_summary (self : BudgetTracker) : Summary :=
  let (total_income_usd, total_expenses_usd) :=
    fold_left summary_step (transactions self) (0, 0) in
  {| total_income := total_income_usd;
     total_expenses := total_expenses_usd;
     net_balance := total_income_usd - total_expenses_usd |}.

Fixpoint remove_first_id (transaction_id : Z) (l : list Transaction)
  : option (list Transaction) :=
  match l with
  | [] => None
  | t :: l' =>
      if (tx_id t =? transaction_id)%Z then Some l'
      else match remove_first_id transaction_id l' with
           | Some r => Some (t :: r)
           | None => None
           end
  end.

Definition remove_transaction (self : BudgetTracker) (transaction_id : Z)
  : bool * BudgetTracker :=
  match remove_first_id transaction_id (transactions self) with
  | Some l => (true, set_transactions self l)
  | None => (false, self)
  end.

Definition clear_all_transactions (self : BudgetTracker) : BudgetTracker :=
  set_transactions self [].

Definition set_monthly_budget (self : BudgetTracker) (limit : float)
  : BudgetTracker :=
  mkTracker (transactions self) (income_categories self)
            (expense_categories self) (budget_limits self)
            (Some limit) (weekly_budget_limit self).

Definition set_weekly_budget (self : BudgetTracker) (limit : float)
  : BudgetTracker :=
  mkTracker (transactions self) (income_categories self)
            (expense_categories self) (budget_limits self)
            (monthly_budget_limit self) (Some limit).

Definition set_category_budget (self : BudgetTracker) (category : string)
  (limit : float) : BudgetTracker :=
  mkTracker (transactions self) (income_categories self)
            (expense_categories self)
            (dict_set category limit (budget_limits self))
            (monthly_budget_limit self) (weekly_budget_limit self).

Record BudgetStatus : Type := mkStatus {
  monthly_spent : float;
  monthly_limit : option float;
  weekly_spent : float;
  weekly_limit : option float;
  category_expenses : list (string * float);
  category_limits : list (string * float);
  alerts : list Alert
}.

Definition transaction_datetime (transaction : Transaction)
  : res PyDate.datetime :=
  match PyDate.fromisoformat
          (PyStr.replace_char "Z" "+00:00" (tx_date transaction)) with
  | PyDate.Naive d => Ok d
  | PyDate.Aware => Raise TypeError
  | PyDate.BadFormat => Raise ValueError
  end.

Fixpoint expenses_in_period (l : list Transaction)
  (start_date end_date : PyDate.datetime) (total : float) : res float :=
  match l with
  | [] => Ok total
  | transaction :: rest =>
      if String.eqb (tx_type transaction) "Expense"
      then
        transaction_date <- transaction_datetime transaction ;;
        if PyDate.leb start_date transaction_date
           && PyDate.leb transaction_date end_date
        then
          let usd_amount :=
            convert_to_usd (tx_amount transaction) (tx_currency transaction) in
          expenses_in_period rest start_date end_date (total + usd_amount)
        else expenses_in_period rest start_date end_date total
      else expenses_in_period rest start_date end_date total
  end.

Definition _get_expenses_in_period (self : BudgetTracker)
  (start_date end_date : PyDate.datetime) : res float :=
  expenses_in_period (transactions self) start_date end_date 0.

Definition get_default (category : string) (d : list (string * float))
  : float :=
  match dict_get category d with
  | Some v => v
  | None => 0
  end.

Fixpoint category_expenses_from (l : list Transaction)
  (current_month_start : PyDate.datetime)
  (category_totals : list (string * float)) : res (list (string * float)) :=
  match l with
  | [] => Ok category_totals
  | transaction :: rest =>
      if String.eqb (tx_type transaction) "Expense"
      then
        transaction_date <- transaction_datetime transaction ;;
        if PyDate.leb current_month_start transaction_date
        then
          let category := tx_category transaction in
          let usd_amount :=
            convert_to_usd (tx_amount transaction) (tx_currency transaction) in
          category_expenses_from rest current_month_start
            (dict_set category
                      (get_default category category_totals + usd_amount)
                      category_totals)
        else category_expenses_from rest current_month_start category_totals
      else category_expenses_from rest current_month_start category_totals
  end.

Definition _get_category_expenses_current_month (now : PyDate.datetime)
  (self : BudgetTracker) : res (list (string * float)) :=
  let current_month_start := PyDate.month_start now in
  category_expenses_from (transactions self) current_month_start [].

Definition money (x : float) : string := "$" ++ format_f 2 x.

Definition used (percentage spent limit : float) : string :=
  format_f 1 percentage ++ "% used (" ++ money spent ++ " of "
    ++ money limit ++ ")".

Definition check_monthly (monthly_expenses : float) (limit : option float)
  : res (list Alert) :=
  match limit with
  | None => Ok []
  | Some monthly_budget_limit =>
      if monthly_budget_limit =? 0 then Ok []
      else
        ratio <- div monthly_expenses monthly_budget_limit ;;
        let monthly_percentage := ratio * 100 in
        if monthly_budget_limit <=? monthly_expenses
        then Ok [mkAlert "monthly_exceeded"
                   ("Monthly budget exceeded! Spent " ++ money monthly_expenses
                      ++ " of " ++ money monthly_budget_limit)
                   "critical"]
        else if 80 <=? monthly_percentage
        then Ok [mkAlert "monthly_warning"
                   ("Monthly budget warning: "
                      ++ used monthly_percentage monthly_expenses
                              monthly_budget_limit)
                   "warning"]
        else Ok []
  end.

Definition check_weekly (weekly_expenses : float) (limit : option float)
  : res (list Alert) :=
  match limit with
  | None => Ok []
  | Some weekly_budget_limit =>
      if weekly_budget_limit =? 0 then Ok []
      else
        ratio <- div weekly_expenses weekly_budget_limit ;;
        let weekly_percentage := ratio * 100 in
        if weekly_budget_limit <=? weekly_expenses
        then Ok [mkAlert "weekly_exceeded"
                   ("Weekly budget exceeded! Spent " ++ money weekly_expenses
                      ++ " of " ++ money weekly_budget_limit)
                   "critical"]
        else if 80 <=? weekly_percentage
        then Ok [mkAlert "weekly_warning"
                   ("Weekly budget warning: "
                      ++ used weekly_percentage weekly_expenses
                              weekly_budget_limit)
                   "warning"]
        else Ok []
  end.

Definition check_category (category : string) (limit spent : float)
  : res (list Alert) :=
  if 0 <? spent
  then
    ratio <- div spent limit ;;
    let percentage := ratio * 100 in
    if limit <=? spent
    then Ok [mkAlert "category_exceeded"
               ("Category '" ++ category ++ "' budget exceeded! Spent "
                  ++ money spent ++ " of " ++ money limit)
               "critical"]
    else if 80 <=? percentage
    then Ok [mkAlert "category_warning"
               ("Category '" ++ category ++ "' warning: "
                  ++ used percentage spent limit)
               "warning"]
    else Ok []
  else Ok [].

Fixpoint check_categories (limits : list (string * float))
  (category_expenses : list (string * float)) : res (list Alert) :=
  match limits with
  | [] => Ok []
  | (category, limit) :: rest =>
      let spent := get_default category category_expenses in
      here <- check_category category limit spent ;;
      more <- check_categories rest category_expenses ;;
      Ok (here ++ more)%list
  end.

(** [get_budget_status], with the current time as an argument. *)
Definition get_budget_status (now : PyDate.datetime) (self : BudgetTracker)
  : res BudgetStatus :=
  let current_month_start := PyDate.month_start now in
  monthly_expenses <- _get_expenses_in_period self current_month_start now ;;
  let days_since_monday := PyDate.weekday now in
  let current_week_start :=
    PyDate.at_midnight (PyDate.minus_days now days_since_monday) in
  weekly_expenses <- _get_expenses_in_period self current_week_start now ;;
  category_expenses <- _get_category_expenses_current_month now self ;;
  monthly_alerts <- check_monthly monthly_expenses (monthly_budget_limit self) ;;
  weekly_alerts <- check_weekly weekly_expenses (weekly_budget_limit self) ;;
  category_alerts <- check_categories (budget_limits self) category_expenses ;;
  Ok {| monthly_spent := monthly_expenses;
        monthly_limit := monthly_budget_limit self;
        weekly_spent := weekly_expenses;
        weekly_limit := weekly_budget_limit self;
        category_expenses := category_expenses;
        category_limits := budget_limits self;
        alerts := (monthly_alerts ++ weekly_alerts ++ category_alerts)%list |}.

(** *** Notions used by the statements in double precision *)

(** The exact value of a number; none for infinities and NaN. *)
Definition exact (x : float) : option Q :=
  match Prim2SF x with
  | S754_zero _ => Some 0%Q
  | S754_finite s m e => Some (if s then - magnitude m e else magnitude m e)%Q
  | _ => None
  end.

(** What [add_transaction] lets in: an amount that is not at or below 0. *)
Definition valid_transaction (t : Transaction) : Prop :=
  (tx_amount t <=? 0) = false
  /\ (tx_type t = "Income" \/ tx_type t = "Expense")
  /\ tx_category t <> "".

(** Ledgers reached from the empty one by the ledger's own operations. *)
Inductive reachable_by_edits : BudgetTracker -> Prop :=
| edits_init : reachable_by_edits init
| edits_add now self amount category transaction_type currency date :
    reachable_by_edits self ->
    reachable_by_edits
      (snd (add_transaction now self amount category transaction_type
                            currency date))
| edits_remove self transaction_id :
    reachable_by_edits self ->
    reachable_by_edits (snd (remove_transaction self transaction_id))
| edits_clear self :
    reachable_by_edits self ->
    reachable_by_edits (clear_all_transactions self).

(** The conversion, written out. *)
Definition to_base (t : Transaction) : float :=
  match dict_get (tx_currency t) exchange_rates with
  | Some rate => abs (tx_amount t) / rate
  | None => tx_amount t
  end.

(** The sum as the loops compute it: from the left, rounded at every
    addition. *)
Definition running_sum (start : float) (l : list float) : float :=
  fold_left PrimFloat.add l start.

Definition of_kind (kind : string) (l : list Transaction)
  : list Transaction :=
  filter (fun t => String.eqb (tx_type t) kind) l.

(** The rule of one period scope, with the tests as the code computes
    them. *)
Definition scope_rule (spent : float) (limit : option float)
  (exceeded warning : string) (l : list Alert) : Prop :=
  let crit := alerts_of_type exceeded l in
  let warn := alerts_of_type warning l in
  match limit with
  | None => crit = [] /\ warn = []
  | Some lim =>
      if lim =? 0 then crit = [] /\ warn = []
      else if lim <=? spent
      then (exists a, crit = [a] /\ severity a = "critical") /\ warn = []
      else if 80 <=? (spent / lim) * 100
      then crit = [] /\ exists a, warn = [a] /\ severity a = "warning"
      else crit = [] /\ warn = []
  end.

(** The decision of the category check. *)
Definition category_decision (limit spent : float) : list string :=
  if 0 <? spent
  then if limit <=? spent then ["critical"]
       else if 80 <=? (spent / limit) * 100 then ["warning"]
       else []
  else [].

(** An Expense whose date reads as an instant of the period. *)
Definition dated_within (start_date end_date : PyDate.datetime)
  (t : Transaction) : bool :=
  match transaction_datetime t with
  | Ok d => PyDate.leb start_date d && PyDate.leb d end_date
  | Raise _ => false
  end.

(** What the conversion reads of a transaction. *)
Definition amount_and_currency (t : Transaction) : float * string :=
  (tx_amount t, tx_currency t).

(** Scenarios at noon of 2024-05-15. *)
Definition expenses_of (amounts : list float) : BudgetTracker :=
  fold_left (fun self amount =>
               snd (add_transaction noon self amount "Food" "Expense" "USD"
                                    None))
            amounts init.

Definition spent_against (amounts : list float) (limit : float)
  : BudgetTracker :=
  set_monthly_budget (expenses_of amounts) limit.

Definition salary_and_rent : BudgetTracker :=
  snd (add_transaction noon
         (snd (add_transaction noon init 5000 "Salary" "Income" "USD" None))
         1200 "Rent" "Expense" "USD" None).

Definition income_in_euros : BudgetTracker :=
  snd (add_transaction noon init 100 "Salary" "Income" "EUR" None).

(** The types and severities of the alerts of a status. *)
Definition alert_kinds (r : res BudgetStatus) : option (list (string * string)) :=
  match r with
  | Ok st => Some (map (fun a => (alert_type a, severity a)) (alerts st))
  | Raise _ => None
  end.

(** An Expense whose date reads as an instant from the start on. *)
Definition dated_from (start_date : PyDate.datetime) (t : Transaction)
  : bool :=
  match transaction_datetime t with
  | Ok d => PyDate.leb start_date d
  | Raise _ => false
  end.

(** The Expenses of a category. *)
Definition in_category (category : string) (t : Transaction) : bool :=
  String.eqb (tx_category t) category.

(** One Expense of 50 for Food, dated five days after noon of
    2024-05-15. *)
Definition food_dated_later : BudgetTracker :=
  snd (add_transaction noon init 50 "Food" "Expense" "USD"
                       (Some "2024-05-20")).


(** When [get_budget_status] returns: the date of every Expense reads as
    a naive datetime, and no category limit is 0. *)
Definition dates_readable (self : BudgetTracker) : Prop :=
  Forall (fun t => tx_type t = "Expense" ->
                   exists d, transaction_datetime t = Ok d)
         (transactions self).

Definition limits_nonzero (self : BudgetTracker) : Prop :=
  Forall (fun kv => (snd kv =? 0) = false) (budget_limits self).

End Double.

(** * Properties *)

(** ** Auxiliary facts *)

Lemma Qle_bool_false (a b : Q) : Qle_bool a b = false <-> (b < a)%Q.
Proof.
  split; intros H.
  - apply Qnot_le_lt. intros Hle. apply Qle_bool_iff in Hle. congruence.
  - destruct (Qle_bool a b) eqn:E; [|reflexivity].
    apply Qle_bool_iff in E. exfalso. exact (Qlt_not_le _ _ H E).
Qed.

Lemma Qeq_bool_false (a b : Q) : Qeq_bool a b = false <-> ~ (a == b)%Q.
Proof.
  split; intros H.
  - intros E. apply Qeq_bool_iff in E. congruence.
  - destruct (Qeq_bool a b) eqn:E; [|reflexivity].
    apply Qeq_bool_iff in E. contradiction.
Qed.

Lemma str_in_In (x : string) (l : list string) : str_in x l = true <-> In x l.
Proof.
  unfold str_in. rewrite existsb_exists. split.
  - intros [y [Hy E]]. apply String.eqb_eq in E. now subst.
  - intros H. exists x. split; [assumption | apply String.eqb_refl].
Qed.

Lemma str_in_not_In (x : string) (l : list string) :
  str_in x l = false <-> ~ In x l.
Proof.
  rewrite <- str_in_In. destruct (str_in x l); split; congruence.
Qed.

(** ** The library models on sample inputs *)

Example float_literals :
  map PyFloat.of_string ["10.0"; " 5 "; "1_0"; "1e3"; ".5"; "-5"; "799.99"]
  = map PyFloat.Finite [10; 5; 10; 1000; 1 # 2; -5; 799.99]%Q
  /\ map PyFloat.of_string ["abc"; ""; "--5"; "1__0"; "0x10"; "nan"; "inf"]
     = [PyFloat.Invalid; PyFloat.Invalid; PyFloat.Invalid; PyFloat.Invalid;
        PyFloat.Invalid; PyFloat.NonFinite; PyFloat.NonFinite].
Proof. split; reflexivity. Qed.

Example float_texts :
  map PyFloat.repr [10; 799.99; -2.5; 0.125]%Q
  = ["10.0"; "799.99"; "-2.5"; "0.125"]
  /\ map (PyFloat.format_f 2) [10; 799.99; 109.8901]%Q
     = ["10.00"; "799.99"; "109.89"].
Proof. split; reflexivity. Qed.

Example iso_dates :
  PyDate.fromisoformat "2024-02-29T10:00:00.123"
  = PyDate.Naive (PyDate.mkdt 2024 2 29 10 0 0 123000)
  /\ PyDate.fromisoformat "2023-02-29" = PyDate.BadFormat
  /\ PyDate.fromisoformat "2024-01-15T10:00:00+00:00" = PyDate.Aware
  /\ PyDate.weekday noon = 2
  /\ PyDate.at_midnight (PyDate.minus_days noon (PyDate.weekday noon))
     = PyDate.mkdt 2024 5 13 0 0 0 0
  /\ PyDate.minus_days (PyDate.mkdt 2024 3 1 0 0 0 0) 1
     = PyDate.mkdt 2024 2 29 0 0 0 0
  /\ PyDate.isoformat noon = "2024-05-15T12:00:00".
Proof. repeat split. Qed.

(** A ledger without carriage returns comes back from its export. *)
Example plain_ledger_round_trip :
  exists self',
    load_from_csv init (Content (save_to_csv salary_and_rent))
    = Some (true, self')
    /\ map ledger_tuple (transactions self')
       = map ledger_tuple (transactions salary_and_rent)
    /\ map tx_id (transactions self') = [1; 2].
Proof. eexists. split; [vm_compute; reflexivity|]. split; reflexivity. Qed.

(** ** The ledger *)

(** C1.  [add_transaction] returns [False] and leaves the tracker as it was
    when the amount is at most 0, when the category is empty after
    trimming, or when the kind is neither Income nor Expense.  On every
    valid addition it returns [True], the count grows by exactly 1, and the
    new transaction is appended at the end with the id "count before the
    call plus 1". *)
Theorem add_transaction_contract :
  forall now self amount category transaction_type currency transaction_date,
    let r := add_transaction now self amount category transaction_type
                             currency transaction_date in
    ((amount <= 0)%Q \/ PyStr.strip category = ""
     \/ (transaction_type <> "Income" /\ transaction_type <> "Expense") ->
     r = (false, self))
    /\ ((0 < amount)%Q -> PyStr.strip category <> "" ->
        transaction_type = "Income" \/ transaction_type = "Expense" ->
        exists t,
          r = (true, set_transactions self (transactions self ++ [t]))
          /\ fst r = true
          /\ transactions (snd r) = (transactions self ++ [t])%list
          /\ get_transaction_count (snd r) = get_transaction_count self + 1
          /\ tx_id t = get_transaction_count self + 1
          /\ tx_amount t = amount
          /\ tx_category t = PyStr.strip category
          /\ tx_type t = transaction_type
          /\ tx_currency t = currency).
Proof.
  intros now self amount category ty currency date r. subst r.
  unfold add_transaction. split.
  - intros [H | [H | [H1 H2]]].
    + apply Qle_bool_iff in H. now rewrite H.
    + destruct (Qle_bool amount 0); [reflexivity|].
      rewrite H. simpl (String.eqb "" ""). now rewrite orb_true_r.
    + destruct (Qle_bool amount 0); [reflexivity|].
      destruct (_ || _); [reflexivity|].
      assert (E : str_in ty ["Income"; "Expense"] = false).
      { apply str_in_not_In. simpl. intuition congruence. }
      now rewrite E.
  - intros Hpos Hcat Hty.
    apply Qle_bool_false in Hpos. rewrite Hpos.
    assert (Hne : category <> "") by (intros ->; now apply Hcat).
    apply String.eqb_neq in Hne, Hcat. rewrite Hne, Hcat. simpl orb.
    assert (E : str_in ty ["Income"; "Expense"] = true).
    { apply str_in_In. simpl. intuition congruence. }
    rewrite E. simpl negb. cbv iota.
    eexists. split; [reflexivity|].
    unfold get_transaction_count. simpl.
    rewrite length_app. simpl.
    repeat split; try reflexivity. lia.
Qed.

Lemma add_transaction_contract_witness :
  (0 < 5000)%Q /\ PyStr.strip "Salary" <> ""
  /\ exists t,
      add_transaction noon init 5000 "Salary" "Income" "USD" None
      = (true, set_transactions init (transactions init ++ [t]))
      /\ tx_id t = 1.
Proof.
  assert (Hpos : (0 < 5000)%Q) by reflexivity.
  assert (Hcat : PyStr.strip "Salary" <> "") by discriminate.
  split; [exact Hpos | split; [exact Hcat|]].
  destruct (proj2 (add_transaction_contract noon init 5000 "Salary" "Income"
                     "USD" None) Hpos Hcat (or_introl eq_refl))
    as [t [H1 [_ [_ [_ [H2 _]]]]]].
  exists t. split; [exact H1 | exact H2].
Defined.


Lemma double_add_transaction_cases now self amount category ty currency date :
  Double.add_transaction now self amount category ty currency date
  = (false, self)
  \/ exists t,
      Double.add_transaction now self amount category ty currency date
      = (true, Double.set_transactions self (Double.transactions self ++ [t]))
      /\ Double.valid_transaction t
      /\ Double.tx_amount t = amount
      /\ Double.tx_category t = PyStr.strip category
      /\ Double.tx_type t = ty
      /\ Double.tx_id t = Z.of_nat (List.length (Double.transactions self)) + 1.
Proof.
  unfold Double.add_transaction.
  destruct (amount <=? 0)%float eqn:Ea; [now left|].
  destruct (String.eqb category "" || String.eqb (PyStr.strip category) "")
    eqn:Ec; [now left|].
  destruct (negb (str_in ty ["Income"; "Expense"])) eqn:Et; [now left|].
  right. eexists. split; [reflexivity|].
  unfold Double.valid_transaction. cbn [Double.tx_amount Double.tx_type
    Double.tx_category Double.tx_id].
  repeat split; trivial.
  - apply negb_false_iff in Et. unfold str_in in Et. cbn [existsb] in Et.
    rewrite orb_false_r in Et. apply orb_true_iff in Et.
    destruct Et as [E|E]; apply String.eqb_eq in E; auto.
  - apply orb_false_iff in Ec. destruct Ec as [_ Ec].
    now apply String.eqb_neq in Ec.
Qed.



(** What the imports store. *)
Lemma csv_rows_untyped (rows : list Csv.row) l :
  csv_rows rows None <> Ok (Some l).
Proof.
  induction rows as [|row rest IH]; cbn [csv_rows]; [discriminate|].
  destruct (negb _); [exact IH|].
  destruct (csv_transaction row _) as [t|e]; cbn [bind]; [|discriminate].
  exact IH.
Qed.

Lemma json_rows_untyped (items : list json) l :
  json_rows items None <> Ok (Some l).
Proof.
  induction items as [|item rest IH]; cbn [json_rows]; [discriminate|].
  destruct (negb (json_iterable item)); [discriminate|].
  destruct (negb _); [exact IH|].
  destruct (json_transaction item _) as [t|e]; cbn [bind]; [|discriminate].
  exact IH.
Qed.

Lemma finish_load_true (self self' : BudgetTracker) (r : res loading) :
  finish_load self r = Some (true, self') ->
  r = Ok (Some (transactions self'))
  /\ self' = set_transactions self (transactions self').
Proof.
  unfold finish_load. destruct r as [[l|]|e]; try discriminate.
  intros [= <-]. split; reflexivity.
Qed.

Lemma mk_loaded_reads date amount currency category type n t :
  mk_loaded date amount currency category type n = Some t
  <-> (date = Some (tx_date t) /\ amount = Some (tx_amount t)
       /\ currency = Some (tx_currency t)
       /\ category = Some (tx_category t) /\ type = Some (tx_type t))
      /\ tx_id t = n.
Proof.
  unfold mk_loaded. split.
  - destruct date, amount, currency, category, type; try discriminate.
    intros [= <-]. cbn. repeat split.
  - intros [[-> [-> [-> [-> ->]]]] <-]. now destruct t.
Qed.

Lemma csv_transaction_reads (row : Csv.row) (n : Z) (t : Transaction) :
  csv_transaction row n = Ok (Some t) <-> csv_reads row t /\ tx_id t = n.
Proof.
  unfold csv_transaction, csv_reads. split.
  - destruct (float_of_cell (cell "amount" row)) as [a|e]; cbn [bind];
      [|discriminate].
    intros [= H]. apply mk_loaded_reads in H.
    destruct H as [[H1 [-> [H3 [H4 H5]]]] H6].
    repeat split; first [assumption | reflexivity].
  - intros [[H1 [H2 [H3 [H4 H5]]]] H6]. rewrite H2. cbn [bind]. f_equal.
    apply mk_loaded_reads. repeat split; assumption.
Qed.

Lemma json_transaction_reads (item : json) (n : Z) (t : Transaction) :
  json_transaction item n = Ok (Some t) <-> json_reads item t /\ tx_id t = n.
Proof.
  unfold json_transaction, json_reads. split.
  - destruct item; try discriminate.
    destruct (float_of_json (dict_get "amount" m)) as [a|e] eqn:Ea;
      cbn [bind]; [|discriminate].
    intros [= H]. apply mk_loaded_reads in H.
    destruct H as [[H1 [-> [H3 [H4 H5]]]] H6].
    split; [|assumption]. exists m.
    split; [reflexivity|]. split; [exact H1|]. split; [exact Ea|].
    split; [exact H3|]. split; [exact H4 | exact H5].
  - intros [[m [-> [H1 [H2 [H3 [H4 H5]]]]]] H6]. rewrite H2. cbn [bind].
    f_equal. apply mk_loaded_reads. repeat split; assumption.
Qed.

Lemma csv_rows_reads (rows : list Csv.row) :
  forall acc l,
    csv_rows rows (Some acc) = Ok (Some l) ->
    exists new, l = (acc ++ new)%list /\ Forall2 csv_reads (csv_kept rows) new.
Proof.
  induction rows as [|row rest IH]; intros acc l; cbn [csv_rows csv_kept filter].
  - intros [= <-]. exists []. split; [now rewrite app_nil_r | constructor].
  - destruct (forallb _ required_fields); cbn [negb]; [|apply IH].
    destruct (csv_transaction row _) as [[t|]|e] eqn:Et; cbn [bind];
      [| intros H; now destruct (csv_rows_untyped _ _ H) | discriminate].
    cbn [loaded_append]. intros H. destruct (IH _ _ H) as [new [-> Hn]].
    exists (t :: new). split; [now rewrite <- app_assoc|].
    constructor; [|exact Hn]. now apply csv_transaction_reads in Et.
Qed.


Lemma json_rows_reads (items : list json) :
  forall acc l,
    json_rows items (Some acc) = Ok (Some l) ->
    exists new,
      l = (acc ++ new)%list /\ Forall2 json_reads (json_kept items) new.
Proof.
  induction items as [|item rest IH]; intros acc l;
    cbn [json_rows json_kept filter].
  - intros [= <-]. exists []. split; [now rewrite app_nil_r | constructor].
  - destruct (negb (json_iterable item)); [discriminate|].
    destruct (forallb _ required_fields); cbn [negb]; [|apply IH].
    destruct (json_transaction item _) as [[t|]|e] eqn:Et; cbn [bind];
      [| intros H; now destruct (json_rows_untyped _ _ H) | discriminate].
    cbn [loaded_append]. intros H. destruct (IH _ _ H) as [new [-> Hn]].
    exists (t :: new). split; [now rewrite <- app_assoc|].
    constructor; [|exact Hn]. now apply json_transaction_reads in Et.
Qed.


Lemma load_from_json_reads (self self' : BudgetTracker) (data : json) :
  load_from_json self (Content data) = Some (true, self') ->
  exists transactions_data items,
    transactions_data_of data = Some transactions_data
    /\ json_iter transactions_data = Ok items
    /\ json_rows items (Some []) = Ok (Some (transactions self')).
Proof.
  cbn [load_from_json]. destruct data as [| | | |l|m]; try discriminate.
  - intros H. destruct (finish_load_true _ _ _ H) as [Hr _].
    cbn [json_iter bind] in Hr. exists (JArr l), l.
    split; [reflexivity|]. split; [reflexivity | exact Hr].
  - cbn [transactions_data_of].
    destruct (dict_get "transactions" m) as [td|]; [|discriminate].
    intros H. destruct (finish_load_true _ _ _ H) as [Hr _].
    destruct (json_iter td) as [items|e] eqn:Ei; cbn [bind] in Hr;
      [|discriminate].
    exists td, items. split; [reflexivity|]. split; [exact Ei | exact Hr].
Qed.

Lemma load_from_json_runs (self : BudgetTracker) (data : json)
  transactions_data :
  transactions_data_of data = Some transactions_data ->
  load_from_json self (Content data)
  = finish_load self
      (items <- json_iter transactions_data ;; json_rows items (Some [])).
Proof.
  cbn [load_from_json]. destruct data as [| | | |l|m]; try discriminate;
    cbn [transactions_data_of].
  - now intros [= <-].
  - now intros ->.
Qed.




(** ** Currency conversion and summary *)

(** C6.  For a currency of the rate table [convert_to_usd] gives the
    magnitude of the amount divided by the rate (so an amount and its
    opposite convert alike); for any other currency it gives the amount
    back unchanged.  100 EUR, at the rate 0.91, is 100/0.91. *)
Theorem convert_to_usd_spec :
  forall amount currency,
    (forall rate,
        dict_get currency exchange_rates = Some rate ->
        convert_to_usd amount currency = (Qabs amount / rate)%Q
        /\ (convert_to_usd (- amount) currency
            == convert_to_usd amount currency)%Q
        /\ (0 < rate)%Q)
    /\ (dict_get currency exchange_rates = None ->
        convert_to_usd amount currency = amount)
    /\ dict_get "EUR" exchange_rates = Some 0.91%Q
    /\ (convert_to_usd 100 "EUR" == 100 / 0.91)%Q
    /\ convert_to_usd amount "UNKNOWN" = amount.
Proof.
  intros amount currency. unfold convert_to_usd. repeat split.
  - now rewrite H.
  - rewrite H. now rewrite Qabs_opp.
  - revert H. unfold exchange_rates. cbn [dict_get].
    repeat (destruct (String.eqb _ currency);
            [intros [= <-]; reflexivity|]).
    discriminate.
  - intros H. now rewrite H.
Qed.

Lemma convert_to_usd_spec_witness :
  dict_get "EUR" exchange_rates = Some 0.91%Q
  /\ convert_to_usd (-100) "EUR" = (Qabs (-100) / 0.91)%Q
  /\ dict_get "XYZ" exchange_rates = None
  /\ convert_to_usd (-100) "XYZ" = (-100)%Q.
Proof.
  assert (Hk : dict_get "EUR" exchange_rates = Some 0.91%Q) by reflexivity.
  assert (Hu : dict_get "XYZ" exchange_rates = None) by reflexivity.
  destruct (convert_to_usd_spec (-100) "EUR") as [H1 _].
  destruct (convert_to_usd_spec (-100) "XYZ") as [_ [H2 _]].
  exact (conj Hk (conj (proj1 (H1 _ Hk)) (conj Hu (H2 Hu)))).
Defined.

Lemma summary_fold (l : list Transaction) :
  forall a b,
    (fst (fold_left summary_step l (a, b)) == a + total_of_kind "Income" l)%Q
    /\ (snd (fold_left summary_step l (a, b))
        == b + total_of_kind "Expense" l)%Q.
Proof.
  induction l as [|t l IH]; intros a b.
  - unfold total_of_kind. simpl. split; ring.
  - cbn [fold_left]. unfold summary_step at 2 4.
    unfold total_of_kind in *. cbn [filter].
    fold (to_base t).
    destruct (String.eqb_spec (tx_type t) "Income") as [E|E].
    + rewrite E. simpl (String.eqb "Income" "Expense"). cbv iota.
      destruct (IH (a + to_base t)%Q b) as [H1 H2].
      rewrite H1, H2. cbn [map Qsum fold_right]. fold (Qsum (map to_base (filter (fun t0 => String.eqb (tx_type t0) "Income") l))).
      split; ring.
    + destruct (String.eqb (tx_type t) "Expense").
      * destruct (IH a (b + to_base t)%Q) as [H1 H2].
        rewrite H1, H2. cbn [map Qsum fold_right]. fold (Qsum (map to_base (filter (fun t0 => String.eqb (tx_type t0) "Expense") l))).
        split; ring.
      * apply IH.
Qed.

Lemma double_summary_fold (l : list Double.Transaction) :
  forall a b,
    fold_left Double.summary_step l (a, b)
    = (Double.running_sum a
         (map Double.to_base (Double.of_kind "Income" l)),
       Double.running_sum b
         (map Double.to_base (Double.of_kind "Expense" l))).
Proof.
  unfold Double.running_sum, Double.of_kind.
  induction l as [|t l IH]; intros a b; [reflexivity|].
  cbn [fold_left filter]. unfold Double.summary_step at 2.
  fold (Double.to_base t).
  change (Double.convert_to_usd (Double.tx_amount t) (Double.tx_currency t))
    with (Double.to_base t).
  destruct (String.eqb_spec (Double.tx_type t) "Income") as [E|E].
  - rewrite E. change (String.eqb "Income" "Expense") with false.
    cbn [map fold_left]. apply IH.
  - destruct (String.eqb (Double.tx_type t) "Expense");
      cbn [map fold_left]; apply IH.
Qed.

Lemma double_summary_totals (self : Double.BudgetTracker) :
  Double.total_income (Double.get_summary self)
  = Double.running_sum 0
      (map Double.to_base (Double.of_kind "Income" (Double.transactions self)))
  /\ Double.total_expenses (Double.get_summary self)
     = Double.running_sum 0
         (map Double.to_base
              (Double.of_kind "Expense" (Double.transactions self)))
  /\ Double.net_balance (Double.get_summary self)
     = (Double.total_income (Double.get_summary self)
        - Double.total_expenses (Double.get_summary self))%float.
Proof.
  unfold Double.get_summary. rewrite double_summary_fold.
  cbn [Double.total_income Double.total_expenses Double.net_balance].
  repeat split.
Qed.

(** C5.  [get_summary] converts every amount to the base currency (the
    magnitude of the amount divided by the rate of its currency; the
    amount itself for a currency without a rate), adds up the converted
    Income amounts and the converted Expense amounts apart, each in ledger
    order and in double precision, and returns the two totals with their
    difference as the net balance.  One Income of 5000 and one Expense of
    1200, both in USD, give 5000, 1200 and 3800; one Income of 100 EUR
    gives 100 / 0.91, which is 109.89010989010988. *)
Theorem get_summary_spec :
  forall self,
    let s := Double.get_summary self in
    Double.total_income s
    = Double.running_sum 0
        (map Double.to_base
             (Double.of_kind "Income" (Double.transactions self)))
    /\ Double.total_expenses s
       = Double.running_sum 0
           (map Double.to_base
                (Double.of_kind "Expense" (Double.transactions self)))
    /\ Double.net_balance s
       = (Double.total_income s - Double.total_expenses s)%float
    /\ Double.get_summary Double.salary_and_rent
       = Double.mkSummary 5000 1200 3800
    /\ Double.total_income (Double.get_summary Double.income_in_euros)
       = (100 / 0.91)%float
    /\ (100 / 0.91 = 109.89010989010988)%float.
Proof.
  intros self s. subst s.
  destruct (double_summary_totals self) as [H1 [H2 H3]].
  repeat split; trivial.
Qed.

(** ** Categories *)

Lemma list_remove_In (x y : string) (l : list string) :
  In y (list_remove x l) -> In y l.
Proof.
  induction l as [|z l IH]; simpl; [tauto|].
  destruct (String.eqb z x); simpl; tauto.
Qed.

Lemma list_remove_other (x y : string) (l : list string) :
  y <> x -> In y l -> In y (list_remove x l).
Proof.
  intros Hne. induction l as [|z l IH]; simpl; [tauto|].
  destruct (String.eqb_spec z x) as [-> | Hz]; simpl.
  - intros [E | H]; [congruence | exact H].
  - intros [E | H]; [now left | right; now apply IH].
Qed.

Lemma list_remove_NoDup (x : string) (l : list string) :
  NoDup l -> ~ In x (list_remove x l).
Proof.
  induction 1 as [|z l Hz Hl IH]; simpl; [tauto|].
  destruct (String.eqb_spec z x) as [-> | Hne]; simpl.
  - exact Hz.
  - intros [E | H]; [congruence | now apply IH].
Qed.

Lemma list_remove_keeps_NoDup (x : string) (l : list string) :
  NoDup l -> NoDup (list_remove x l).
Proof.
  induction 1 as [|z l Hz Hl IH]; simpl; [constructor|].
  destruct (String.eqb z x); [exact Hl|].
  constructor; [|exact IH].
  intros H. apply Hz. exact (list_remove_In _ _ _ H).
Qed.

Lemma is_category_in_use_spec (self : BudgetTracker) (name : string) :
  is_category_in_use self name = true
  <-> exists t, In t (transactions self) /\ tx_category t = name.
Proof.
  unfold is_category_in_use. rewrite existsb_exists.
  split; intros [t [H E]]; exists t; split; try assumption.
  - now apply String.eqb_eq.
  - now apply String.eqb_eq.
Qed.

(** The category lists stay free of repetitions: they are so at the start,
    and [add_category] and [remove_category] keep them so. *)
Lemma init_categories_NoDup :
  NoDup (income_categories init) /\ NoDup (expense_categories init).
Proof.
  split; simpl;
    repeat (constructor; [simpl; intuition discriminate|]); constructor.
Qed.

Lemma add_category_keeps_NoDup (self : BudgetTracker) (name kind : string) :
  NoDup (income_categories self) -> NoDup (expense_categories self) ->
  NoDup (income_categories (snd (add_category self name kind)))
  /\ NoDup (expense_categories (snd (add_category self name kind))).
Proof.
  intros Hi He. unfold add_category.
  destruct (String.eqb (PyStr.strip name) ""); [now split|].
  destruct (String.eqb kind "Income").
  - destruct (str_in (PyStr.strip name) (income_categories self)) eqn:E;
      simpl; [now split|]. split; [|exact He].
    apply str_in_not_In in E.
    apply NoDup_app; [exact Hi | repeat constructor; simpl; tauto |].
    intros x Hx [<- | []]. contradiction.
  - destruct (String.eqb kind "Expense"); [|now split].
    destruct (str_in (PyStr.strip name) (expense_categories self)) eqn:E;
      simpl; [now split|]. split; [exact Hi|].
    apply str_in_not_In in E.
    apply NoDup_app; [exact He | repeat constructor; simpl; tauto |].
    intros x Hx [<- | []]. contradiction.
Qed.

Lemma remove_category_keeps_NoDup (self : BudgetTracker) (name kind : string) :
  NoDup (income_categories self) -> NoDup (expense_categories self) ->
  NoDup (income_categories (snd (remove_category self name kind)))
  /\ NoDup (expense_categories (snd (remove_category self name kind))).
Proof.
  intros Hi He. unfold remove_category.
  destruct (is_category_in_use self name); [now split|].
  destruct (_ && _); simpl.
  - split; [now apply list_remove_keeps_NoDup | exact He].
  - destruct (_ && _); simpl; [|now split].
    split; [exact Hi | now apply list_remove_keeps_NoDup].
Qed.

(** C8.  [remove_category] returns [False] and changes nothing when some
    transaction has exactly that category or when the name is not among
    the categories of the kind; otherwise it returns [True] and takes the
    name out of the categories of that kind, which then no longer list it
    (the categories of a kind being a set: a list without repetitions),
    while the other names, the categories of the other kind and the
    transactions stay. *)
Theorem remove_category_contract :
  forall self name kind,
    let r := remove_category self name kind in
    (((exists t, In t (transactions self) /\ tx_category t = name)
      \/ (kind = "Income" /\ ~ In name (income_categories self))
      \/ (kind = "Expense" /\ ~ In name (expense_categories self))
      \/ (kind <> "Income" /\ kind <> "Expense")) ->
     r = (false, self))
    /\ ((forall t, In t (transactions self) -> tx_category t <> name) ->
        kind = "Income" \/ kind = "Expense" ->
        In name (get_categories self (Some kind)) ->
        fst r = true
        /\ get_categories (snd r) (Some kind)
           = list_remove name (get_categories self (Some kind))
        /\ (NoDup (get_categories self (Some kind)) ->
            ~ In name (get_categories (snd r) (Some kind)))
        /\ (forall x, x <> name ->
                      In x (get_categories (snd r) (Some kind))
                      <-> In x (get_categories self (Some kind)))
        /\ (kind = "Income" ->
            expense_categories (snd r) = expense_categories self)
        /\ (kind = "Expense" ->
            income_categories (snd r) = income_categories self)
        /\ transactions (snd r) = transactions self).
Proof.
  intros self name kind r. subst r. unfold remove_category. split.
  - intros [Huse | [[-> Hn] | [[-> Hn] | [Hk1 Hk2]]]].
    + apply is_category_in_use_spec in Huse. now rewrite Huse.
    + destruct (is_category_in_use self name); [reflexivity|].
      apply str_in_not_In in Hn. rewrite Hn. reflexivity.
    + destruct (is_category_in_use self name); [reflexivity|].
      apply str_in_not_In in Hn. rewrite Hn. reflexivity.
    + destruct (is_category_in_use self name); [reflexivity|].
      apply String.eqb_neq in Hk1, Hk2. now rewrite Hk1, Hk2.
  - intros Hfree Hkind Hin.
    assert (Huse : is_category_in_use self name = false).
    { destruct (is_category_in_use self name) eqn:E; [|reflexivity].
      apply is_category_in_use_spec in E. destruct E as [t [Ht Et]].
      now destruct (Hfree t Ht). }
    rewrite Huse. destruct Hkind as [-> | ->]; simpl in Hin.
    + apply str_in_In in Hin. rewrite Hin. simpl.
      repeat split; try reflexivity; try discriminate.
      * apply list_remove_NoDup.
      * apply list_remove_In.
      * now apply list_remove_other.
    + apply str_in_In in Hin. rewrite Hin. simpl.
      repeat split; try reflexivity; try discriminate.
      * apply list_remove_NoDup.
      * apply list_remove_In.
      * now apply list_remove_other.
Qed.

Lemma remove_category_contract_witness :
  (forall t, In t (transactions salary_and_rent) -> tx_category t <> "Gift")
  /\ In "Gift" (get_categories salary_and_rent (Some "Income"))
  /\ NoDup (get_categories salary_and_rent (Some "Income"))
  /\ fst (remove_category salary_and_rent "Gift" "Income") = true
  /\ ~ In "Gift"
       (get_categories (snd (remove_category salary_and_rent "Gift" "Income"))
                       (Some "Income"))
  /\ remove_category salary_and_rent "Rent" "Expense"
     = (false, salary_and_rent).
Proof.
  assert (Hi : NoDup (get_categories salary_and_rent (Some "Income")))
    by exact (proj1 init_categories_NoDup).
  assert (Hfree : forall t, In t (transactions salary_and_rent) ->
                            tx_category t <> "Gift").
  { intros t [<- | [<- | []]]; discriminate. }
  assert (Hin : In "Gift" (get_categories salary_and_rent (Some "Income"))).
  { simpl. tauto. }
  assert (Huse : exists t, In t (transactions salary_and_rent)
                           /\ tx_category t = "Rent").
  { eexists. split; [right; left; reflexivity | reflexivity]. }
  destruct (remove_category_contract salary_and_rent "Gift" "Income")
    as [_ Hok].
  destruct (Hok Hfree (or_introl eq_refl) Hin) as [H1 [_ [H2 _]]].
  destruct (remove_category_contract salary_and_rent "Rent" "Expense")
    as [Hfail _].
  exact (conj Hfree (conj Hin (conj Hi (conj H1 (conj (H2 Hi)
           (Hfail (or_introl Huse))))))).
Defined.

(** ** Loading *)

Lemma finish_load_false (self self' : BudgetTracker) (r : res loading) :
  finish_load self r = Some (false, self') -> self' = self.
Proof.
  unfold finish_load. destruct r as [[l|]|e]; intros H;
    try discriminate. now injection H.
Qed.

Lemma finish_load_raise (self : BudgetTracker) (r : res loading) :
  (exists e, r = Raise e) -> finish_load self r = Some (false, self).
Proof. intros [e ->]. reflexivity. Qed.

Lemma csv_rows_raise (rows : list Csv.row) :
  Exists unconvertible_row rows ->
  forall loaded, exists e, csv_rows rows loaded = Raise e.
Proof.
  induction 1 as [row rest [Hkeys [e He]] | row rest _ IH]; intros loaded.
  - cbn [csv_rows]. rewrite Hkeys. cbn [negb].
    unfold csv_transaction. rewrite He. exists e. reflexivity.
  - cbn [csv_rows].
    destruct (negb (forallb (fun field => Csv.has_key field row)
                            required_fields)); [apply IH|].
    destruct (csv_transaction row (loaded_len loaded + 1)) as [t|e].
    + apply IH.
    + exists e. reflexivity.
Qed.

Lemma json_rows_raise (items : list json) :
  Exists unconvertible_entry items ->
  forall loaded, exists e, json_rows items loaded = Raise e.
Proof.
  induction 1 as [item rest [m [e [-> [Hkeys He]]]] | item rest _ IH];
    intros loaded.
  - cbn [json_rows json_iterable negb]. rewrite Hkeys. cbn [negb].
    unfold json_transaction. rewrite He. exists e. reflexivity.
  - cbn [json_rows].
    destruct (negb (json_iterable item)); [now exists TypeError|].
    destruct (negb (forallb (fun field => json_in field item)
                            required_fields)); [apply IH|].
    destruct (json_transaction item (loaded_len loaded + 1)) as [t|e].
    + apply IH.
    + exists e. reflexivity.
Qed.

(** C10.  A load from CSV or JSON that returns [False] leaves the tracker,
    and so its transactions, exactly as they were.  A load does return
    [False] when the file is missing or cannot be read, when the JSON
    document has an unrecognized shape, and when a row has an amount that
    cannot be converted. *)
Theorem failed_load_keeps_state :
  forall self,
    (forall f self',
        load_from_csv self f = Some (false, self') -> self' = self)
    /\ (forall f self',
           load_from_json self f = Some (false, self') -> self' = self)
    /\ load_from_csv self NoSuchFile = Some (false, self)
    /\ load_from_csv self Unreadable = Some (false, self)
    /\ load_from_json self NoSuchFile = Some (false, self)
    /\ load_from_json self Unreadable = Some (false, self)
    /\ (forall data,
           unrecognized_shape data ->
           load_from_json self (Content data) = Some (false, self))
    /\ (forall text rows,
           Csv.dict_reader (Csv.file_lines (Csv.universal_newlines text))
           = Ok rows ->
           Exists unconvertible_row rows ->
           load_from_csv self (Content text) = Some (false, self))
    /\ (forall items,
           Exists unconvertible_entry items ->
           load_from_json self (Content (JArr items)) = Some (false, self)
           /\ load_from_json self
                (Content (JObj [("transactions", JArr items)]))
              = Some (false, self)).
Proof.
  intros self. repeat split.
  - intros f self' H. destruct f as [| |text]; simpl in H.
    + now injection H.
    + now injection H.
    + exact (finish_load_false _ _ _ H).
  - intros f self' H. destruct f as [| |data]; simpl in H.
    + now injection H.
    + now injection H.
    + destruct data as [| | | |l|m]; try (now injection H).
      * exact (finish_load_false _ _ _ H).
      * destruct (dict_get "transactions" m); [|now injection H].
        exact (finish_load_false _ _ _ H).
  - intros data H. destruct data as [| | | |l|m]; simpl in *;
      try reflexivity; [contradiction | now rewrite H].
  - intros text rows Hrows Hbad. unfold load_from_csv.
    apply finish_load_raise. rewrite Hrows. cbn [bind].
    exact (csv_rows_raise rows Hbad (Some [])).
  - unfold load_from_json. apply finish_load_raise. cbn [json_iter bind].
    exact (json_rows_raise items H (Some [])).
  - unfold load_from_json. cbn [dict_get String.eqb].
    apply finish_load_raise.
    exact (json_rows_raise items H (Some [])).
Qed.

Lemma failed_load_keeps_state_witness :
  load_from_csv salary_and_rent (Content text_amount_csv)
  = Some (false, salary_and_rent)
  /\ transactions salary_and_rent <> [].
Proof.
  destruct (failed_load_keeps_state salary_and_rent)
    as [Hcsv [_ [_ [_ [_ [_ [_ [Hrow _]]]]]]]].
  assert (Hrows :
    Csv.dict_reader (Csv.file_lines (Csv.universal_newlines text_amount_csv))
    = Ok [[("date", Some "2024-05-01"); ("amount", Some "abc");
           ("category", Some "Food"); ("type", Some "Expense")]])
    by (vm_compute; reflexivity).
  assert (Hbad :
    Exists unconvertible_row
      [[("date", Some "2024-05-01"); ("amount", Some "abc");
        ("category", Some "Food"); ("type", Some "Expense")]]).
  { constructor. split; [reflexivity|]. exists ValueError. reflexivity. }
  split; [exact (Hrow _ _ Hrows Hbad) | discriminate].
Defined.

(** ** Budget alerts *)

Lemma alerts_of_type_app (ty : string) (l1 l2 : list Alert) :
  alerts_of_type ty (l1 ++ l2)
  = (alerts_of_type ty l1 ++ alerts_of_type ty l2)%list.
Proof. apply filter_app. Qed.

Lemma alerts_of_type_none (ty : string) (l : list Alert) :
  Forall (fun a => alert_type a <> ty) l -> alerts_of_type ty l = [].
Proof.
  induction 1 as [|a l Ha _ IH]; [reflexivity|].
  unfold alerts_of_type in *. simpl.
  apply String.eqb_neq in Ha. now rewrite Ha.
Qed.

Lemma percentage_threshold (ratio : Q) :
  Qle_bool 80 (ratio * 100) = true <-> (0.80 <= ratio)%Q.
Proof. rewrite Qle_bool_iff. split; intros H; lra. Qed.

Ltac scope_cases spent lim :=
  unfold PyFloat.div;
  destruct (Qeq_bool lim 0) eqn:Ez; cbn [bind];
  [| destruct (Qle_bool lim spent) eqn:Ele;
     [| destruct (Qle_bool 80 (spent / lim * 100)) eqn:Epc ] ];
  intros [= <-].

Ltac scope_facts :=
  repeat match goal with
         | H : Qeq_bool _ _ = true |- _ => apply Qeq_bool_iff in H
         | H : Qeq_bool _ _ = false |- _ => apply Qeq_bool_false in H
         | H : Qle_bool 80 _ = true |- _ => apply percentage_threshold in H
         | H : Qle_bool 80 (?r * 100) = false |- _ =>
             assert (~ (0.80 <= r)%Q)
               by (intros Hc; apply percentage_threshold in Hc; congruence);
             clear H
         | H : Qle_bool _ _ = true |- _ => apply Qle_bool_iff in H
         | H : Qle_bool _ _ = false |- _ =>
             apply Qle_bool_false in H; apply Qlt_not_le in H
         end.

Ltac scope_rule_solve :=
  unfold scope_rule; cbn; scope_facts;
  repeat split; intros; try contradiction; try reflexivity;
  try (eexists; split; reflexivity).

Lemma check_monthly_rule (spent : Q) (limit : option Q) (l : list Alert) :
  check_monthly spent limit = Ok l ->
  scope_rule spent limit "monthly_exceeded" "monthly_warning" l
  /\ Forall (fun a => alert_type a = "monthly_exceeded"
                      \/ alert_type a = "monthly_warning") l.
Proof.
  unfold check_monthly. destruct limit as [lim|].
  - scope_cases spent lim; (split; [scope_rule_solve|]);
      repeat constructor; simpl; tauto.
  - intros [= <-]. split; [now split | constructor].
Qed.

Lemma check_weekly_rule (spent : Q) (limit : option Q) (l : list Alert) :
  check_weekly spent limit = Ok l ->
  scope_rule spent limit "weekly_exceeded" "weekly_warning" l
  /\ Forall (fun a => alert_type a = "weekly_exceeded"
                      \/ alert_type a = "weekly_warning") l.
Proof.
  unfold check_weekly. destruct limit as [lim|].
  - scope_cases spent lim; (split; [scope_rule_solve|]);
      repeat constructor; simpl; tauto.
  - intros [= <-]. split; [now split | constructor].
Qed.

Lemma check_category_types (category : string) (limit spent : Q) l :
  check_category category limit spent = Ok l ->
  Forall (fun a => alert_type a = "category_exceeded"
                   \/ alert_type a = "category_warning") l.
Proof.
  unfold check_category, PyFloat.div.
  destruct (PyFloat.Qlt_bool 0 spent); [|intros [= <-]; constructor].
  destruct (Qeq_bool limit 0); cbn [bind]; [discriminate|].
  destruct (Qle_bool limit spent);
    [|destruct (Qle_bool 80 (spent / limit * 100))];
    intros [= <-]; repeat constructor; simpl; tauto.
Qed.

Lemma check_categories_types (limits expenses : list (string * Q)) :
  forall l,
    check_categories limits expenses = Ok l ->
    Forall (fun a => alert_type a = "category_exceeded"
                     \/ alert_type a = "category_warning") l.
Proof.
  induction limits as [|[category limit] rest IH]; intros l; cbn [check_categories].
  - intros [= <-]. constructor.
  - destruct (check_category category limit (get_default category expenses))
      as [here|e] eqn:Eh; cbn [bind]; [|discriminate].
    destruct (check_categories rest expenses) as [more|e] eqn:Em;
      cbn [bind]; [|discriminate].
    intros [= <-]. apply Forall_app. split.
    + exact (check_category_types _ _ _ _ Eh).
    + now apply IH.
Qed.

(** What [get_budget_status] returns is put together from its parts. *)
Lemma get_budget_status_parts now self st :
  get_budget_status now self = Ok st ->
  exists ma wa ca,
    check_monthly (monthly_spent st) (monthly_budget_limit self) = Ok ma
    /\ check_weekly (weekly_spent st) (weekly_budget_limit self) = Ok wa
    /\ check_categories (budget_limits self) (category_expenses st) = Ok ca
    /\ alerts st = (ma ++ wa ++ ca)%list
    /\ _get_expenses_in_period self (PyDate.month_start now) now
       = Ok (monthly_spent st)
    /\ _get_category_expenses_current_month now self
       = Ok (category_expenses st).
Proof.
  unfold get_budget_status.
  destruct (_get_expenses_in_period self (PyDate.month_start now) now)
    as [me|e]; cbn [bind]; [|discriminate].
  destruct (_get_expenses_in_period self _ now) as [we|e];
    cbn [bind]; [|discriminate].
  destruct (_get_category_expenses_current_month now self) as [ce|e];
    cbn [bind]; [|discriminate].
  destruct (check_monthly me (monthly_budget_limit self)) as [ma|e] eqn:Em;
    cbn [bind]; [|discriminate].
  destruct (check_weekly we (weekly_budget_limit self)) as [wa|e] eqn:Ew;
    cbn [bind]; [|discriminate].
  destruct (check_categories (budget_limits self) ce) as [ca|e] eqn:Ec;
    cbn [bind]; [|discriminate].
  intros [= <-]. cbn. exists ma, wa, ca. repeat split; assumption.
Qed.

Lemma expenses_in_period_total (l : list Transaction) start_date end_date :
  Forall (fun t => tx_type t = "Expense" ->
                   exists d, transaction_datetime t = Ok d) l ->
  forall total, exists v,
      expenses_in_period l start_date end_date total = Ok v.
Proof.
  induction 1 as [|t l Ht _ IH]; intros total; cbn [expenses_in_period].
  - now exists total.
  - destruct (String.eqb_spec (tx_type t) "Expense") as [E|E]; [|apply IH].
    destruct (Ht E) as [d ->]. cbn [bind].
    destruct (_ && _); apply IH.
Qed.

Lemma category_expenses_from_total (l : list Transaction) month_start :
  Forall (fun t => tx_type t = "Expense" ->
                   exists d, transaction_datetime t = Ok d) l ->
  forall totals, exists v,
      category_expenses_from l month_start totals = Ok v.
Proof.
  induction 1 as [|t l Ht _ IH]; intros totals; cbn [category_expenses_from].
  - now exists totals.
  - destruct (String.eqb_spec (tx_type t) "Expense") as [E|E]; [|apply IH].
    destruct (Ht E) as [d ->]. cbn [bind].
    destruct (PyDate.leb month_start d); apply IH.
Qed.

(** The two period checks divide by a limit that is not 0: they never
    raise. *)
Lemma check_monthly_total (spent : Q) (limit : option Q) :
  exists l, check_monthly spent limit = Ok l.
Proof.
  unfold check_monthly, PyFloat.div. destruct limit as [lim|]; [|now eexists].
  destruct (Qeq_bool lim 0); cbn [bind]; [now eexists|].
  destruct (Qle_bool lim spent); [now eexists|].
  destruct (Qle_bool 80 _); now eexists.
Qed.

Lemma check_weekly_total (spent : Q) (limit : option Q) :
  exists l, check_weekly spent limit = Ok l.
Proof.
  unfold check_weekly, PyFloat.div. destruct limit as [lim|]; [|now eexists].
  destruct (Qeq_bool lim 0); cbn [bind]; [now eexists|].
  destruct (Qle_bool lim spent); [now eexists|].
  destruct (Qle_bool 80 _); now eexists.
Qed.

Lemma check_categories_total (limits expenses : list (string * Q)) :
  Forall (fun kv => ~ (snd kv == 0)%Q) limits ->
  exists l, check_categories limits expenses = Ok l.
Proof.
  induction 1 as [|[category limit] rest Hl _ [more IH]];
    cbn [check_categories]; [now eexists|].
  simpl in Hl. apply Qeq_bool_false in Hl.
  unfold check_category, PyFloat.div. rewrite Hl, IH.
  destruct (PyFloat.Qlt_bool 0 _); cbn [bind]; [|now eexists].
  destruct (Qle_bool limit _); cbn [bind]; [now eexists|].
  destruct (Qle_bool 80 _); cbn [bind]; now eexists.
Qed.

Lemma get_budget_status_returns now self :
  dates_readable self -> limits_nonzero self ->
  exists st, get_budget_status now self = Ok st.
Proof.
  intros Hd Hl. unfold get_budget_status, _get_expenses_in_period,
    _get_category_expenses_current_month.
  destruct (expenses_in_period_total _ (PyDate.month_start now) now Hd 0%Q)
    as [me ->]. cbn [bind].
  destruct (expenses_in_period_total _
              (PyDate.at_midnight (PyDate.minus_days now (PyDate.weekday now)))
              now Hd 0%Q) as [we ->]. cbn [bind].
  destruct (category_expenses_from_total _ (PyDate.month_start now) Hd [])
    as [ce ->]. cbn [bind].
  destruct (check_monthly_total me (monthly_budget_limit self)) as [ma ->].
  destruct (check_weekly_total we (weekly_budget_limit self)) as [wa ->].
  destruct (check_categories_total _ ce Hl) as [ca ->].
  cbn [bind]. now eexists.
Qed.

(** The checks in double precision. *)
Ltac double_scope_cases spent lim :=
  unfold Double.div;
  destruct (lim =? 0)%float eqn:Ez; cbn [bind];
  [| destruct (lim <=? spent)%float eqn:Ele;
     [| destruct (80 <=? spent / lim * 100)%float eqn:Epc ] ];
  intros [= <-].

Lemma double_check_monthly_rule spent limit (l : list Alert) :
  Double.check_monthly spent limit = Ok l ->
  Double.scope_rule spent limit "monthly_exceeded" "monthly_warning" l
  /\ Forall (fun a => alert_type a = "monthly_exceeded"
                      \/ alert_type a = "monthly_warning") l.
Proof.
  unfold Double.check_monthly, Double.scope_rule. destruct limit as [lim|].
  - double_scope_cases spent lim; rewrite ?Ez, ?Ele, ?Epc;
      (split; [cbn; repeat split; try (eexists; split; reflexivity)
              | repeat constructor; simpl; tauto]).
  - intros [= <-]. split; [now split | constructor].
Qed.

Lemma double_check_weekly_rule spent limit (l : list Alert) :
  Double.check_weekly spent limit = Ok l ->
  Double.scope_rule spent limit "weekly_exceeded" "weekly_warning" l
  /\ Forall (fun a => alert_type a = "weekly_exceeded"
                      \/ alert_type a = "weekly_warning") l.
Proof.
  unfold Double.check_weekly, Double.scope_rule. destruct limit as [lim|].
  - double_scope_cases spent lim; rewrite ?Ez, ?Ele, ?Epc;
      (split; [cbn; repeat split; try (eexists; split; reflexivity)
              | repeat constructor; simpl; tauto]).
  - intros [= <-]. split; [now split | constructor].
Qed.

Lemma double_check_category_decision category limit spent l :
  Double.check_category category limit spent = Ok l ->
  map severity l = Double.category_decision limit spent
  /\ Forall (fun a => (alert_type a = "category_exceeded"
                       /\ severity a = "critical")
                      \/ (alert_type a = "category_warning"
                          /\ severity a = "warning")) l.
Proof.
  unfold Double.check_category, Double.category_decision, Double.div.
  destruct (0 <? spent)%float; [|intros [= <-]; split; [reflexivity|constructor]].
  destruct (limit =? 0)%float; cbn [bind]; [discriminate|].
  destruct (limit <=? spent)%float;
    [|destruct (80 <=? spent / limit * 100)%float];
    intros [= <-]; (split; [reflexivity|]); repeat constructor; simpl; tauto.
Qed.

Lemma double_check_categories_decision limits expenses :
  forall l,
    Double.check_categories limits expenses = Ok l ->
    map severity l
    = flat_map (fun kv =>
                  Double.category_decision (snd kv)
                    (Double.get_default (fst kv) expenses)) limits
    /\ Forall (fun a => (alert_type a = "category_exceeded"
                         /\ severity a = "critical")
                        \/ (alert_type a = "category_warning"
                            /\ severity a = "warning")) l.
Proof.
  induction limits as [|[category limit] rest IH]; intros l;
    cbn [Double.check_categories].
  - intros [= <-]. split; [reflexivity | constructor].
  - destruct (Double.check_category category limit
                (Double.get_default category expenses)) as [here|e] eqn:Eh;
      cbn [bind]; [|discriminate].
    destruct (Double.check_categories rest expenses) as [more|e] eqn:Em;
      cbn [bind]; [|discriminate].
    intros [= <-].
    destruct (double_check_category_decision _ _ _ _ Eh) as [H1 H2].
    destruct (IH more eq_refl) as [H3 H4].
    split; [|apply Forall_app; now split].
    rewrite map_app, H1, H3. reflexivity.
Qed.

Lemma double_get_budget_status_parts now self st :
  Double.get_budget_status now self = Ok st ->
  exists ma wa ca,
    Double.check_monthly (Double.monthly_spent st)
                         (Double.monthly_budget_limit self) = Ok ma
    /\ Double.check_weekly (Double.weekly_spent st)
                           (Double.weekly_budget_limit self) = Ok wa
    /\ Double.check_categories (Double.budget_limits self)
                               (Double.category_expenses st) = Ok ca
    /\ Double.alerts st = (ma ++ wa ++ ca)%list.
Proof.
  unfold Double.get_budget_status.
  destruct (Double._get_expenses_in_period self (PyDate.month_start now) now)
    as [me|e]; cbn [bind]; [|discriminate].
  destruct (Double._get_expenses_in_period self _ now) as [we|e];
    cbn [bind]; [|discriminate].
  destruct (Double._get_category_expenses_current_month now self) as [ce|e];
    cbn [bind]; [|discriminate].
  destruct (Double.check_monthly me (Double.monthly_budget_limit self))
    as [ma|e] eqn:Em; cbn [bind]; [|discriminate].
  destruct (Double.check_weekly we (Double.weekly_budget_limit self))
    as [wa|e] eqn:Ew; cbn [bind]; [|discriminate].
  destruct (Double.check_categories (Double.budget_limits self) ce)
    as [ca|e] eqn:Ec; cbn [bind]; [|discriminate].
  intros [= <-]. cbn. exists ma, wa, ca. repeat split; assumption.
Qed.

Lemma alerts_of_other_type (ty a b : string) (l : list Alert) :
  a <> ty -> b <> ty ->
  Forall (fun x => alert_type x = a \/ alert_type x = b) l ->
  alerts_of_type ty l = [].
Proof.
  intros Ha Hb H. apply alerts_of_type_none.
  eapply Forall_impl; [|exact H]. cbn beta. intros x [E | E]; congruence.
Qed.

Ltac other_types :=
  rewrite ?alerts_of_type_app;
  repeat match goal with
         | H : Forall (fun x => alert_type x = ?a \/ alert_type x = ?b) ?l
           |- context [alerts_of_type ?ty ?l] =>
             rewrite (alerts_of_other_type ty a b l ltac:(discriminate)
                        ltac:(discriminate) H)
         end;
  reflexivity.

Lemma double_scope_rule_among spent limit exceeded warning before l after :
  Double.scope_rule spent limit exceeded warning l ->
  alerts_of_type exceeded before = [] -> alerts_of_type warning before = [] ->
  alerts_of_type exceeded after = [] -> alerts_of_type warning after = [] ->
  Double.scope_rule spent limit exceeded warning (before ++ l ++ after).
Proof.
  intros H B1 B2 A1 A2. unfold Double.scope_rule in *.
  rewrite !alerts_of_type_app, B1, B2, A1, A2, !app_nil_r. exact H.
Qed.

Lemma double_expenses_in_period_sum (l : list Double.Transaction) s e :
  forall total v,
    Double.expenses_in_period l s e total = Ok v ->
    v = Double.running_sum total
          (map Double.to_base
               (filter (Double.dated_within s e)
                       (Double.of_kind "Expense" l))).
Proof.
  unfold Double.running_sum, Double.of_kind.
  induction l as [|t l IH]; intros total v; cbn [Double.expenses_in_period].
  - now intros [= <-].
  - cbn [filter].
    destruct (String.eqb (Double.tx_type t) "Expense"); [|apply IH].
    cbn [filter]. unfold Double.dated_within at 1.
    destruct (Double.transaction_datetime t) as [d|err]; cbn [bind];
      [|discriminate].
    destruct (PyDate.leb s d && PyDate.leb d e); [|apply IH].
    cbn [map fold_left]. apply IH.
Qed.

Lemma double_get_budget_status_periods now self st :
  Double.get_budget_status now self = Ok st ->
  Double._get_expenses_in_period self (PyDate.month_start now) now
  = Ok (Double.monthly_spent st)
  /\ Double._get_expenses_in_period self (week_start now) now
     = Ok (Double.weekly_spent st)
  /\ Double._get_category_expenses_current_month now self
     = Ok (Double.category_expenses st).
Proof.
  unfold Double.get_budget_status. fold (week_start now).
  destruct (Double._get_expenses_in_period self (PyDate.month_start now) now)
    as [me|e]; cbn [bind]; [|discriminate].
  destruct (Double._get_expenses_in_period self (week_start now) now)
    as [we|e]; cbn [bind]; [|discriminate].
  destruct (Double._get_category_expenses_current_month now self) as [ce|e];
    cbn [bind]; [|discriminate].
  destruct (Double.check_monthly me (Double.monthly_budget_limit self));
    cbn [bind]; [|discriminate].
  destruct (Double.check_weekly we (Double.weekly_budget_limit self));
    cbn [bind]; [|discriminate].
  destruct (Double.check_categories (Double.budget_limits self) ce);
    cbn [bind]; [|discriminate].
  intros [= <-]. cbn. repeat split.
Qed.

Lemma double_expenses_in_period_total (l : list Double.Transaction)
  start_date end_date :
  Forall (fun t => Double.tx_type t = "Expense" ->
                   exists d, Double.transaction_datetime t = Ok d) l ->
  forall total, exists v,
      Double.expenses_in_period l start_date end_date total = Ok v.
Proof.
  induction 1 as [|t l Ht _ IH]; intros total;
    cbn [Double.expenses_in_period].
  - now exists total.
  - destruct (String.eqb_spec (Double.tx_type t) "Expense") as [E|E];
      [|apply IH].
    destruct (Ht E) as [d ->]. cbn [bind].
    destruct (_ && _); apply IH.
Qed.

Lemma double_category_expenses_from_total (l : list Double.Transaction)
  month_start :
  Forall (fun t => Double.tx_type t = "Expense" ->
                   exists d, Double.transaction_datetime t = Ok d) l ->
  forall totals, exists v,
      Double.category_expenses_from l month_start totals = Ok v.
Proof.
  induction 1 as [|t l Ht _ IH]; intros totals;
    cbn [Double.category_expenses_from].
  - now exists totals.
  - destruct (String.eqb_spec (Double.tx_type t) "Expense") as [E|E];
      [|apply IH].
    destruct (Ht E) as [d ->]. cbn [bind].
    destruct (PyDate.leb month_start d); apply IH.
Qed.

(** The two period checks divide by a limit that is not 0: they never
    raise. *)
Lemma double_check_monthly_total (spent : float) (limit : option float) :
  exists l, Double.check_monthly spent limit = Ok l.
Proof.
  unfold Double.check_monthly, Double.div.
  destruct limit as [lim|]; [|now eexists].
  destruct (lim =? 0)%float; cbn [bind]; [now eexists|].
  destruct (lim <=? spent)%float; [now eexists|].
  destruct (80 <=? _)%float; now eexists.
Qed.

Lemma double_check_weekly_total (spent : float) (limit : option float) :
  exists l, Double.check_weekly spent limit = Ok l.
Proof.
  unfold Double.check_weekly, Double.div.
  destruct limit as [lim|]; [|now eexists].
  destruct (lim =? 0)%float; cbn [bind]; [now eexists|].
  destruct (lim <=? spent)%float; [now eexists|].
  destruct (80 <=? _)%float; now eexists.
Qed.

Lemma double_check_categories_total (limits expenses : list (string * float)) :
  Forall (fun kv => (snd kv =? 0)%float = false) limits ->
  exists l, Double.check_categories limits expenses = Ok l.
Proof.
  induction 1 as [|[category limit] rest Hl _ [more IH]];
    cbn [Double.check_categories]; [now eexists|].
  cbn [snd] in Hl.
  unfold Double.check_category, Double.div. rewrite Hl, IH.
  destruct (0 <? _)%float; cbn [bind]; [|now eexists].
  destruct (limit <=? _)%float; cbn [bind]; [now eexists|].
  destruct (80 <=? _)%float; cbn [bind]; now eexists.
Qed.

Lemma double_get_budget_status_returns now self :
  Double.dates_readable self -> Double.limits_nonzero self ->
  exists st, Double.get_budget_status now self = Ok st.
Proof.
  intros Hd Hl. unfold Double.get_budget_status,
    Double._get_expenses_in_period,
    Double._get_category_expenses_current_month.
  destruct (double_expenses_in_period_total _ (PyDate.month_start now) now
              Hd 0%float) as [me ->]. cbn [bind].
  destruct (double_expenses_in_period_total _
              (PyDate.at_midnight (PyDate.minus_days now (PyDate.weekday now)))
              now Hd 0%float) as [we ->]. cbn [bind].
  destruct (double_category_expenses_from_total _ (PyDate.month_start now)
              Hd []) as [ce ->]. cbn [bind].
  destruct (double_check_monthly_total me (Double.monthly_budget_limit self))
    as [ma ->].
  destruct (double_check_weekly_total we (Double.weekly_budget_limit self))
    as [wa ->].
  destruct (double_check_categories_total _ ce Hl) as [ca ->].
  cbn [bind]. now eexists.
Qed.

(** C3, as the code has it.  Whenever [get_budget_status] returns, each of
    the monthly and the weekly scope follows the rule, with the tests
    computed in double precision: without a limit or with a limit of 0, no
    alert; with [spent >= limit], exactly one critical "exceeded" alert
    and no warning; otherwise, with [(spent / limit) * 100 >= 80], exactly
    one warning; otherwise no alert.  The amount spent is the sum, in
    ledger order and rounded at every addition, of the converted Expenses
    dated in the period.  It does return when every Expense date is
    readable and no category limit is 0.  With a monthly limit of 1000:
    one Expense of 799.99 gives no alert, one of 800 a warning, one of
    1000 a critical alert alone; but Expenses of 585.68, 25.81, 145.95 and
    42.56, which are 800.00 in cents, add up to 799.9999999999998 and give
    no alert, and Expenses of 53.17, 723.79 and 223.04, which are 1000.00
    in cents, add up to 999.9999999999999 and give a warning. *)
Theorem budget_alert_rule :
  forall now self,
    (forall st,
        Double.get_budget_status now self = Ok st ->
        Double.scope_rule (Double.monthly_spent st)
                          (Double.monthly_budget_limit self)
                          "monthly_exceeded" "monthly_warning"
                          (Double.alerts st)
        /\ Double.scope_rule (Double.weekly_spent st)
                             (Double.weekly_budget_limit self)
                             "weekly_exceeded" "weekly_warning"
                             (Double.alerts st)
        /\ Double.monthly_spent st
           = Double.running_sum 0
               (map Double.to_base
                    (filter (Double.dated_within (PyDate.month_start now) now)
                            (Double.of_kind "Expense"
                                            (Double.transactions self))))
        /\ Double.weekly_spent st
           = Double.running_sum 0
               (map Double.to_base
                    (filter (Double.dated_within (week_start now) now)
                            (Double.of_kind "Expense"
                                            (Double.transactions self)))))
    /\ (Double.dates_readable self -> Double.limits_nonzero self ->
        exists st, Double.get_budget_status now self = Ok st)
    /\ Double.alert_kinds
         (Double.get_budget_status noon
            (Double.spent_against [799.99%float] 1000))
       = Some []
    /\ Double.alert_kinds
         (Double.get_budget_status noon
            (Double.spent_against [800%float] 1000))
       = Some [("monthly_warning", "warning")]
    /\ Double.alert_kinds
         (Double.get_budget_status noon
            (Double.spent_against [1000%float] 1000))
       = Some [("monthly_exceeded", "critical")]
    /\ Double.alert_kinds
         (Double.get_budget_status noon
            (Double.spent_against [585.68; 25.81; 145.95; 42.56]%float 1000))
       = Some []
    /\ Double.alert_kinds
         (Double.get_budget_status noon
            (Double.spent_against [53.17; 723.79; 223.04]%float 1000))
       = Some [("monthly_warning", "warning")]
    /\ Double.running_sum 0 [585.68; 25.81; 145.95; 42.56]%float
       = 799.9999999999998%float
    /\ Double.running_sum 0 [53.17; 723.79; 223.04]%float
       = 999.9999999999999%float.
Proof.
  intros now self.
  split; [|split; [apply double_get_budget_status_returns|]].
  2: repeat split; vm_compute; reflexivity.
  intros st Hst.
  destruct (double_get_budget_status_parts now self st Hst)
    as [ma [wa [ca [Hm [Hw [Hc Ha]]]]]].
  destruct (double_get_budget_status_periods now self st Hst) as [Pm [Pw _]].
  destruct (double_check_monthly_rule _ _ _ Hm) as [Rm Tm].
  destruct (double_check_weekly_rule _ _ _ Hw) as [Rw Tw].
  destruct (double_check_categories_decision _ _ _ Hc) as [_ Tc].
  assert (Tc' : Forall (fun a => alert_type a = "category_exceeded"
                                 \/ alert_type a = "category_warning") ca).
  { eapply Forall_impl; [|exact Tc]. cbn beta. intros a [[E _]|[E _]]; auto. }
  rewrite Ha. split; [|split; [|split]].
  - apply (double_scope_rule_among _ _ _ _ [] ma (wa ++ ca)); trivial;
      other_types.
  - apply (double_scope_rule_among _ _ _ _ ma wa ca); trivial; other_types.
  - exact (double_expenses_in_period_sum _ _ _ _ _ Pm).
  - exact (double_expenses_in_period_sum _ _ _ _ _ Pw).
Qed.

Lemma budget_alert_rule_witness :
  Double.dates_readable (Double.spent_against [800%float] 1000)
  /\ Double.limits_nonzero (Double.spent_against [800%float] 1000)
  /\ exists st,
      Double.get_budget_status noon (Double.spent_against [800%float] 1000)
      = Ok st
      /\ Double.scope_rule (Double.monthly_spent st) (Some 1000%float)
           "monthly_exceeded" "monthly_warning" (Double.alerts st)
      /\ Double.monthly_spent st = 800%float.
Proof.
  assert (Hd : Double.dates_readable (Double.spent_against [800%float] 1000)).
  { constructor; [|constructor]. intros _. eexists. vm_compute. reflexivity. }
  assert (Hl : Double.limits_nonzero (Double.spent_against [800%float] 1000))
    by constructor.
  destruct (budget_alert_rule noon (Double.spent_against [800%float] 1000))
    as [Hrule [Hret _]].
  destruct (Hret Hd Hl) as [st Hst].
  destruct (Hrule st Hst) as [Hm [_ [Hs _]]].
  split; [exact Hd|]. split; [exact Hl|]. exists st.
  split; [exact Hst|]. split; [exact Hm|].
  rewrite Hs. reflexivity.
Defined.

(** C3, as stated, fails: the warning is decided on the percentage, and
    the rounded percentage reaches 80 for a ratio below 0.80.  Expenses of
    0.7 and 0.1 against a monthly limit of 1 add up to
    0.7999999999999999: the ratio [spent / limit] is below 0.80, the
    percentage is rounded to 80.0, and the warning is given. *)
Lemma warning_below_eighty_percent :
  exists st spent q,
    Double.get_budget_status noon (Double.spent_against [0.7; 0.1]%float 1)
    = Ok st
    /\ Double.monthly_spent st = spent
    /\ spent = 0.7999999999999999%float
    /\ (1 <=? spent)%float = false
    /\ (spent / 1 <? 0.8)%float = true
    /\ Double.exact (spent / 1) = Some q
    /\ (q < 0.80)%Q
    /\ (spent / 1 * 100)%float = 80%float
    /\ Double.alert_kinds (Ok st) = Some [("monthly_warning", "warning")].
Proof.
  eexists. exists 0.7999999999999999%float. eexists.
  split; [vm_compute; reflexivity|].
  split; [reflexivity|]. split; [reflexivity|]. split; [reflexivity|].
  split; [reflexivity|]. split; [vm_compute; reflexivity|].
  split; [vm_compute; reflexivity|].
  split; reflexivity.
Qed.

(** C4, on the failing input.  A category limit of 0 and an Expense of 50
    in that category this month: the category check divides the spending
    by the limit, and [get_budget_status] raises [ZeroDivisionError].  The
    monthly and the weekly check step over a limit of 0, and a category
    with no spending is stepped over too, so that a limit of 0 with
    spending of 0 gives no alert; but the category check asks only for
    spending above 0 before it divides. *)
Theorem category_limit_zero_raises :
  budget_limits food_limit_zero = [("Food", 0%Q)]
  /\ get_budget_status noon food_limit_zero = Raise ZeroDivisionError
  /\ check_category "Food" 0 50 = Raise ZeroDivisionError
  /\ check_category "Food" 0 0 = Ok []
  /\ check_monthly 0 (Some 0%Q) = Ok []
  /\ check_weekly 0 (Some 0%Q) = Ok [].
Proof. repeat split. Qed.

(** C9, on the failing input.  Now is 2024-05-15 12:00 and the only
    transaction is an Expense of 50 in Food dated 2025-05-10: after now,
    in another year, with the month number of now.  The monthly total
    leaves it out; the per-category totals of "the current month" count
    it. *)
Theorem category_totals_count_later_dates :
  exists d st,
    transaction_datetime
      {| tx_amount := 50; tx_category := "Food"; tx_type := "Expense";
         tx_currency := "USD"; tx_date := "2025-05-10"; tx_id := 1 |} = Ok d
    /\ PyDate.leb d noon = false
    /\ get_budget_status noon food_next_year = Ok st
    /\ monthly_spent st = 0%Q
    /\ category_expenses st = [("Food", 50%Q)].
Proof.
  do 2 eexists. split; [vm_compute; reflexivity|].
  split; [reflexivity|].
  split; [vm_compute; reflexivity|].
  split; reflexivity.
Qed.

(** C7, on the failing input.  A ledger whose one transaction has the
    category "a", carriage return, "b" is exported, and the text is
    imported into a fresh tracker.  The file is read with newline
    translation, so the carriage return inside the quoted field comes back
    as a line feed: the category read differs from the one written. *)
Theorem csv_round_trip_changes_carriage_return :
  let self := ledger_of_one 10 category_with_return "Expense" "2024-05-01" in
  map ledger_tuple (transactions self)
  = [("2024-05-01", 10%Q, "USD", category_with_return, "Expense")]
  /\ exists self',
      load_from_csv init (Content (save_to_csv self)) = Some (true, self')
      /\ map ledger_tuple (transactions self')
         = [("2024-05-01", 10%Q, "USD",
             String "a" (String PyStr.LF (String "b" EmptyString)),
             "Expense")]
      /\ map ledger_tuple (transactions self')
         <> map ledger_tuple (transactions self).
Proof.
  intros self. split; [reflexivity|].
  eexists. split; [vm_compute; reflexivity|].
  split; [reflexivity|]. vm_compute. discriminate.
Qed.

(** * Further properties *)

(** ** Removing and numbering transactions *)

Lemma remove_first_id_none (transaction_id : Z) (l : list Transaction) :
  remove_first_id transaction_id l = None
  <-> forall t, In t l -> tx_id t <> transaction_id.
Proof.
  induction l as [|x l IH]; simpl.
  - split; [intros _ t [] | reflexivity].
  - destruct (Z.eqb_spec (tx_id x) transaction_id) as [E|E].
    + split; [discriminate|]. intros H. exfalso.
      exact (H x (or_introl eq_refl) E).
    + destruct (remove_first_id transaction_id l) as [r|].
      * split; [discriminate|]. intros H. exfalso.
        assert (Hl : forall t, In t l -> tx_id t <> transaction_id)
          by (intros t Ht; apply H; now right).
        apply IH in Hl. discriminate.
      * split; [|reflexivity]. intros _ t [<- | Ht]; [exact E|].
        now apply (proj1 IH eq_refl).
Qed.

Lemma remove_first_id_some (transaction_id : Z) (l l' : list Transaction) :
  remove_first_id transaction_id l = Some l' ->
  exists t, In t l /\ tx_id t = transaction_id.
Proof.
  revert l'. induction l as [|x l IH]; simpl; intros l' H; [discriminate|].
  destruct (Z.eqb_spec (tx_id x) transaction_id) as [E|E].
  - exists x. split; [now left | exact E].
  - destruct (remove_first_id transaction_id l) as [r|]; [|discriminate].
    destruct (IH r eq_refl) as [t [Ht Et]]. exists t. split; [now right|exact Et].
Qed.

Lemma remove_first_id_split (transaction_id : Z) (l1 l2 : list Transaction) t :
  tx_id t = transaction_id ->
  (forall x, In x l1 -> tx_id x <> transaction_id) ->
  remove_first_id transaction_id (l1 ++ t :: l2) = Some (l1 ++ l2)%list.
Proof.
  intros Ht. induction l1 as [|x l1 IH]; intros H; simpl.
  - apply Z.eqb_eq in Ht. now rewrite Ht.
  - assert (Hx : tx_id x <> transaction_id) by (apply H; now left).
    apply Z.eqb_neq in Hx. rewrite Hx.
    rewrite IH; [reflexivity|]. intros y Hy. apply H. now right.
Qed.

(** X1.  [remove_transaction] returns [False] and changes nothing when no
    transaction has the id.  Otherwise it returns [True] and takes out the
    first transaction with that id, and only it: the others stay in their
    order with their ids, so that the ids are not renumbered and the count
    drops by 1. *)
Theorem remove_transaction_contract :
  forall self transaction_id,
    let r := remove_transaction self transaction_id in
    ((forall t, In t (transactions self) -> tx_id t <> transaction_id) ->
     r = (false, self))
    /\ (forall l1 t l2,
           transactions self = (l1 ++ t :: l2)%list ->
           tx_id t = transaction_id ->
           (forall x, In x l1 -> tx_id x <> transaction_id) ->
           r = (true, set_transactions self (l1 ++ l2))
           /\ get_transaction_count (snd r) = get_transaction_count self - 1)
    /\ (fst r = true
        <-> exists t, In t (transactions self) /\ tx_id t = transaction_id).
Proof.
  intros self transaction_id r. subst r. unfold remove_transaction.
  split; [|split].
  - intros H. apply remove_first_id_none in H. now rewrite H.
  - intros l1 t l2 E Ht H. rewrite E.
    rewrite (remove_first_id_split _ l1 l2 t Ht H). split; [reflexivity|].
    unfold get_transaction_count. simpl. rewrite E, !length_app. simpl. lia.
  - destruct (remove_first_id transaction_id (transactions self)) as [l|] eqn:E;
      simpl.
    + split; [intros _|reflexivity]. exact (remove_first_id_some _ _ _ E).
    + split; [discriminate|]. intros [t [Ht Et]].
      exfalso. exact (proj1 (remove_first_id_none _ _) E t Ht Et).
Qed.

Lemma remove_transaction_contract_witness :
  (forall x, In x [] -> tx_id x <> 1)
  /\ remove_transaction salary_and_rent 1
     = (true, set_transactions salary_and_rent
                (tl (transactions salary_and_rent)))
  /\ map tx_id (transactions (snd (remove_transaction salary_and_rent 1)))
     = [2]
  /\ remove_transaction salary_and_rent 7 = (false, salary_and_rent).
Proof.
  assert (H0 : forall x : Transaction, In x [] -> tx_id x <> 1)
    by (intros x []).
  assert (H7 : forall t, In t (transactions salary_and_rent) -> tx_id t <> 7).
  { intros t [<- | [<- | []]]; discriminate. }
  destruct (remove_transaction_contract salary_and_rent 1) as [_ [Hok _]].
  destruct (remove_transaction_contract salary_and_rent 7) as [Hno _].
  destruct (Hok [] _ _ eq_refl eq_refl H0) as [H1 _].
  refine (conj H0 (conj H1 (conj _ (Hno H7)))).
  rewrite H1. reflexivity.
Defined.

(** What [add_transaction] gives on a valid input. *)
Lemma add_transaction_valid now self amount category ty currency date :
  (0 < amount)%Q -> PyStr.strip category <> "" ->
  ty = "Income" \/ ty = "Expense" ->
  add_transaction now self amount category ty currency date
  = (true,
     set_transactions self
       (transactions self
        ++ [{| tx_amount := amount;
               tx_category := PyStr.strip category;
               tx_type := ty;
               tx_currency := currency;
               tx_date := match date with
                          | None => PyDate.isoformat now
                          | Some d => d
                          end;
               tx_id := Z.of_nat (List.length (transactions self)) + 1 |}])).
Proof.
  intros Hpos Hcat Hty. unfold add_transaction.
  apply Qle_bool_false in Hpos. rewrite Hpos.
  assert (Hne : category <> "") by (intros ->; now apply Hcat).
  apply String.eqb_neq in Hne, Hcat. rewrite Hne, Hcat. simpl orb.
  assert (E : str_in ty ["Income"; "Expense"] = true).
  { apply str_in_In. simpl. intuition congruence. }
  rewrite E. reflexivity.
Qed.

(** Either nothing changes or one transaction numbered "count plus 1" is
    appended. *)
Lemma add_transaction_cases now self amount category ty currency date :
  let r := add_transaction now self amount category ty currency date in
  r = (false, self)
  \/ exists t,
      r = (true, set_transactions self (transactions self ++ [t]))
      /\ tx_id t = Z.of_nat (List.length (transactions self)) + 1
      /\ tx_type t = ty /\ tx_currency t = currency
      /\ tx_amount t = amount /\ tx_category t = PyStr.strip category.
Proof.
  unfold add_transaction.
  destruct (Qle_bool amount 0); [now left|].
  destruct (_ || _); [now left|].
  destruct (negb _); [now left|].
  right. eexists. split; [reflexivity|]. simpl. repeat split.
Qed.

Lemma ids_upto_S (n : nat) :
  ids_upto (S n) = (ids_upto n ++ [Z.of_nat n + 1])%list.
Proof.
  unfold ids_upto. rewrite seq_S, map_app. simpl.
  f_equal. f_equal. lia.
Qed.

Lemma ids_upto_In (n : nat) (k : Z) :
  In k (ids_upto n) <-> 1 <= k <= Z.of_nat n.
Proof.
  unfold ids_upto. rewrite in_map_iff. split.
  - intros [i [<- Hi]]. apply in_seq in Hi. lia.
  - intros H. exists (Z.to_nat k). split; [lia|]. apply in_seq. lia.
Qed.

Lemma ids_upto_NoDup (n : nat) : NoDup (ids_upto n).
Proof.
  unfold ids_upto. apply Finite.Injective_map_NoDup.
  - intros x y. apply Nat2Z.inj.
  - apply seq_NoDup.
Qed.

(** X2.  In a ledger filled by [add_transaction] alone, from a new tracker
    or after [clear_all_transactions], the ids are 1, 2, ..., count in
    this order; so they are distinct. *)
Theorem adds_number_from_one :
  forall self,
    filled_by_adds self ->
    map tx_id (transactions self)
    = ids_upto (List.length (transactions self))
    /\ NoDup (map tx_id (transactions self)).
Proof.
  intros self H.
  assert (E : map tx_id (transactions self)
              = ids_upto (List.length (transactions self))).
  { induction H as [self E | now self amount category ty currency date H IH].
    - now rewrite E.
    - destruct (add_transaction_cases now self amount category ty currency date)
        as [-> | [t [-> [Ht _]]]]; [exact IH|].
      simpl. rewrite map_app, length_app, IH. simpl.
      rewrite Nat.add_1_r, ids_upto_S. now rewrite Ht. }
  split; [exact E|]. rewrite E. apply ids_upto_NoDup.
Qed.

Lemma adds_number_from_one_witness :
  filled_by_adds salary_and_rent
  /\ map tx_id (transactions salary_and_rent) = [1; 2].
Proof.
  assert (H : filled_by_adds salary_and_rent).
  { unfold salary_and_rent. do 2 apply filled_add.
    now apply filled_empty. }
  exact (conj H (proj1 (adds_number_from_one salary_and_rent H))).
Defined.

Lemma remove_first_id_keeps (transaction_id : Z) (l l' : list Transaction) :
  remove_first_id transaction_id l = Some l' ->
  (forall x, In x l -> tx_id x <> transaction_id -> In x l')
  /\ S (List.length l') = List.length l.
Proof.
  revert l'. induction l as [|y l IH]; simpl; intros l' H; [discriminate|].
  destruct (Z.eqb_spec (tx_id y) transaction_id) as [E|E].
  - injection H as <-. split; [|reflexivity].
    intros x [<- | Hx] Hne; [contradiction | exact Hx].
  - destruct (remove_first_id transaction_id l) as [r|]; [|discriminate].
    injection H as <-. destruct (IH r eq_refl) as [H1 H2]. split.
    + intros x [<- | Hx] Hne; [now left | right; now apply H1].
    + simpl. now rewrite H2.
Qed.

(** X3.  The ids come from the count, not from a counter: in a ledger with
    the ids 1, ..., n, removing a transaction other than the last and then
    adding one gives the new transaction the id n, which the last
    transaction of before still has.  The ids are then no longer
    distinct. *)
Theorem remove_then_add_reuses_id :
  forall now self k amount category ty currency date (n : nat),
    map tx_id (transactions self) = ids_upto n ->
    1 <= k < Z.of_nat n ->
    (0 < amount)%Q -> PyStr.strip category <> "" ->
    ty = "Income" \/ ty = "Expense" ->
    let self1 := snd (remove_transaction self k) in
    let self2 :=
      snd (add_transaction now self1 amount category ty currency date) in
    fst (remove_transaction self k) = true
    /\ exists t_old t_new,
        In t_old (transactions self1)
        /\ transactions self2 = (transactions self1 ++ [t_new])%list
        /\ tx_id t_old = Z.of_nat n
        /\ tx_id t_new = Z.of_nat n
        /\ ~ NoDup (map tx_id (transactions self2)).
Proof.
  intros now self k amount category ty currency date n Hids Hk Hpos Hcat Hty
         self1 self2.
  assert (Hlen : List.length (transactions self) = n).
  { rewrite <- (length_map tx_id), Hids. unfold ids_upto.
    now rewrite length_map, length_seq. }
  assert (Hin : forall i, 1 <= i <= Z.of_nat n ->
                          exists t, In t (transactions self) /\ tx_id t = i).
  { intros i Hi. apply ids_upto_In in Hi. rewrite <- Hids in Hi.
    apply in_map_iff in Hi. destruct Hi as [t [E Ht]]. now exists t. }
  destruct (Hin k ltac:(lia)) as [tk [Htk Ek]].
  destruct (Hin (Z.of_nat n) ltac:(lia)) as [tn [Htn En]].
  unfold self2, self1, remove_transaction.
  destruct (remove_first_id k (transactions self)) as [l|] eqn:E.
  2:{ exfalso. exact (proj1 (remove_first_id_none _ _) E tk Htk Ek). }
  destruct (remove_first_id_keeps _ _ _ E) as [Hkeep Hl].
  cbn [fst snd]. split; [reflexivity|].
  rewrite (add_transaction_valid now _ amount category ty currency date
             Hpos Hcat Hty).
  cbn [snd transactions set_transactions].
  eexists tn, _. split; [apply Hkeep; [exact Htn | lia]|].
  split; [reflexivity|]. split; [exact En|].
  assert (Enew : Z.of_nat (List.length l) + 1 = Z.of_nat n) by lia.
  split; [exact Enew|].
  rewrite map_app. cbn [map tx_id]. intros Hnd.
  apply NoDup_remove_2 in Hnd. apply Hnd. rewrite app_nil_r.
  apply in_map_iff. exists tn. split; [lia|].
  apply Hkeep; [exact Htn | lia].
Qed.

Lemma remove_then_add_reuses_id_witness :
  map tx_id (transactions salary_and_rent) = ids_upto 2
  /\ map tx_id
       (transactions
          (snd (add_transaction noon
                  (snd (remove_transaction salary_and_rent 1))
                  30 "Food" "Expense" "USD" None)))
     = [2; 2].
Proof.
  assert (Hids : map tx_id (transactions salary_and_rent) = ids_upto 2)
    by reflexivity.
  assert (Hpos : (0 < 30)%Q) by reflexivity.
  assert (Hcat : PyStr.strip "Food" <> "") by discriminate.
  destruct (remove_then_add_reuses_id noon salary_and_rent 1 30 "Food"
              "Expense" "USD" None 2 Hids ltac:(lia) Hpos Hcat
              (or_intror eq_refl))
    as [_ [t_old [t_new [_ [E [_ [En _]]]]]]].
  split; [exact Hids|]. rewrite E, map_app. cbn [map]. rewrite En.
  reflexivity.
Defined.

(** ** Listing transactions *)

Lemma filter_merge {A : Type} (f : A -> bool) (l : list A) :
  merge_of (filter f l) (filter (fun x => negb (f x)) l) l.
Proof.
  induction l as [|x l IH]; cbn [filter]; [constructor|].
  destruct (f x); cbn [negb]; now constructor.
Qed.

Lemma merge_income_expense (l : list Transaction) :
  Forall (fun t => tx_type t = "Income" \/ tx_type t = "Expense") l ->
  merge_of (filter (fun t => String.eqb (tx_type t) "Income") l)
           (filter (fun t => String.eqb (tx_type t) "Expense") l) l.
Proof.
  induction 1 as [|t l Ht _ IH]; [constructor|]. cbn [filter].
  destruct Ht as [E | E]; rewrite E; cbn [String.eqb Ascii.eqb Bool.eqb];
    cbv iota; now constructor.
Qed.

(** X4.  [get_transactions_by_type] lists the transactions of the given
    kind in ledger order, each as often as the ledger holds it: the ledger
    is the list merged, order kept, with a list of transactions of other
    kinds.  In a ledger whose transactions are all of the kind Income or
    Expense, the ledger is the Income list and the Expense list merged,
    so that the two hold every transaction exactly once between them. *)
Theorem by_type_splits_ledger :
  forall self,
    (forall ty t,
        In t (get_transactions_by_type self ty)
        <-> In t (transactions self) /\ tx_type t = ty)
    /\ (forall ty,
           Forall (fun t => tx_type t = ty)
                  (get_transactions_by_type self ty)
           /\ exists others,
               Forall (fun t => tx_type t <> ty) others
               /\ merge_of (get_transactions_by_type self ty) others
                           (transactions self))
    /\ (Forall (fun t => tx_type t = "Income" \/ tx_type t = "Expense")
               (transactions self) ->
        merge_of (get_transactions_by_type self "Income")
                 (get_transactions_by_type self "Expense")
                 (transactions self)
        /\ Permutation (transactions self)
                       (get_transactions_by_type self "Income"
                        ++ get_transactions_by_type self "Expense")
        /\ (List.length (get_transactions_by_type self "Income")
            + List.length (get_transactions_by_type self "Expense")
            = List.length (transactions self))%nat).
Proof.
  intros self. unfold get_transactions_by_type. split; [|split].
  - intros ty t. rewrite filter_In. now rewrite String.eqb_eq.
  - intros ty. split.
    + apply Forall_forall. intros t Ht. apply filter_In in Ht.
      now apply String.eqb_eq.
    + exists (filter (fun t => negb (String.eqb (tx_type t) ty))
                     (transactions self)).
      split; [|apply (filter_merge (fun t => String.eqb (tx_type t) ty))].
      apply Forall_forall. intros t Ht. apply filter_In in Ht.
      destruct Ht as [_ Ht]. apply negb_true_iff in Ht.
      now apply String.eqb_neq.
  - intros H.
    assert (P : Permutation (transactions self)
                  (filter (fun t => String.eqb (tx_type t) "Income")
                          (transactions self)
                   ++ filter (fun t => String.eqb (tx_type t) "Expense")
                             (transactions self))).
    { induction H as [|t l Ht _ IH]; [constructor|]. cbn [filter].
      destruct Ht as [E | E]; rewrite E; cbn [String.eqb Ascii.eqb Bool.eqb].
      - cbn. now constructor.
      - cbn. now apply Permutation_cons_app. }
    pose proof (merge_income_expense _ H) as M.
    split; [exact M|]. split; [exact P|]. rewrite <- length_app. symmetry.
    now apply Permutation_length.
Qed.

Lemma by_type_splits_ledger_witness :
  Forall (fun t => tx_type t = "Income" \/ tx_type t = "Expense")
         (transactions salary_and_rent)
  /\ merge_of (get_transactions_by_type salary_and_rent "Income")
              (get_transactions_by_type salary_and_rent "Expense")
              (transactions salary_and_rent)
  /\ (List.length (get_transactions_by_type salary_and_rent "Income")
      + List.length (get_transactions_by_type salary_and_rent "Expense")
      = 2)%nat.
Proof.
  assert (H : Forall (fun t => tx_type t = "Income" \/ tx_type t = "Expense")
                     (transactions salary_and_rent)).
  { repeat constructor; simpl; tauto. }
  destruct (proj2 (proj2 (by_type_splits_ledger salary_and_rent)) H)
    as [M [_ L]].
  exact (conj H (conj M L)).
Defined.

Lemma lower_char_idempotent (c : ascii) :
  lower_char (lower_char c) = lower_char c.
Proof.
  destruct c as [[] [] [] [] [] [] [] []]; reflexivity.
Qed.

Lemma str_lower_idempotent (s : string) : str_lower (str_lower s) = str_lower s.
Proof.
  induction s as [|c s IH]; simpl; [reflexivity|].
  now rewrite lower_char_idempotent, IH.
Qed.

(** X5.  [get_transactions_by_category] compares the categories without
    regard to letter case: it lists the transactions whose category
    equals the given one once both are lowered, so two spellings of a
    name give the same list.  A category that [is_category_in_use]
    reports (by exact comparison) always has a list that is not empty;
    the converse fails, as for "salary" in a ledger with the category
    "Salary". *)
Theorem by_category_ignores_case :
  forall self category,
    (forall t,
        In t (get_transactions_by_category self category)
        <-> In t (transactions self)
            /\ str_lower (tx_category t) = str_lower category)
    /\ (forall other,
           str_lower other = str_lower category ->
           get_transactions_by_category self other
           = get_transactions_by_category self category)
    /\ get_transactions_by_category self (str_lower category)
       = get_transactions_by_category self category
    /\ (is_category_in_use self category = true ->
        get_transactions_by_category self category <> [])
    /\ get_transactions_by_category salary_and_rent "salary" <> []
    /\ is_category_in_use salary_and_rent "salary" = false.
Proof.
  intros self category. unfold get_transactions_by_category.
  split; [|split; [|split; [|split; [|split]]]].
  - intros t. rewrite filter_In. now rewrite String.eqb_eq.
  - intros other E. now rewrite E.
  - now rewrite str_lower_idempotent.
  - intros H. apply is_category_in_use_spec in H. destruct H as [t [Ht E]].
    intros Hnil.
    assert (Hin : In t (filter (fun t0 => String.eqb (str_lower (tx_category t0))
                                             (str_lower category))
                               (transactions self))).
    { apply filter_In. split; [exact Ht|]. rewrite E. apply String.eqb_refl. }
    rewrite Hnil in Hin. exact Hin.
  - discriminate.
  - reflexivity.
Qed.

Lemma by_category_ignores_case_witness :
  str_lower "RENT" = str_lower "Rent"
  /\ is_category_in_use salary_and_rent "Rent" = true
  /\ get_transactions_by_category salary_and_rent "RENT"
     = get_transactions_by_category salary_and_rent "Rent"
  /\ get_transactions_by_category salary_and_rent "Rent" <> [].
Proof.
  assert (E : str_lower "RENT" = str_lower "Rent") by reflexivity.
  assert (U : is_category_in_use salary_and_rent "Rent" = true) by reflexivity.
  destruct (by_category_ignores_case salary_and_rent "Rent")
    as [_ [H1 [_ [H2 _]]]].
  exact (conj E (conj U (conj (H1 "RENT" E) (H2 U)))).
Defined.

(** ** Categories *)

(** X6.  [add_category] trims the name.  It returns [False] and changes
    nothing when the trimmed name is empty, when the kind already lists
    it, or when the kind is neither Income nor Expense; otherwise it
    returns [True] and appends the trimmed name to the list of the kind,
    leaving the other list and the rest of the tracker alone. *)
Theorem add_category_contract :
  forall self name kind,
    let r := add_category self name kind in
    let n := PyStr.strip name in
    ((n = ""
      \/ (kind = "Income" /\ In n (income_categories self))
      \/ (kind = "Expense" /\ In n (expense_categories self))
      \/ (kind <> "Income" /\ kind <> "Expense")) ->
     r = (false, self))
    /\ (n <> "" -> kind = "Income" -> ~ In n (income_categories self) ->
        r = (true, set_income_categories self (income_categories self ++ [n])))
    /\ (n <> "" -> kind = "Expense" -> ~ In n (expense_categories self) ->
        r = (true,
             set_expense_categories self (expense_categories self ++ [n]))).
Proof.
  intros self name kind r n. subst r n. unfold add_category.
  split; [|split].
  - intros [H | [[-> H] | [[-> H] | [H1 H2]]]].
    + now rewrite H.
    + destruct (String.eqb _ ""); [reflexivity|]. cbn.
      apply str_in_In in H. now rewrite H.
    + destruct (String.eqb _ ""); [reflexivity|]. cbn.
      apply str_in_In in H. now rewrite H.
    + destruct (String.eqb _ ""); [reflexivity|].
      apply String.eqb_neq in H1, H2. now rewrite H1, H2.
  - intros Hn -> H. apply String.eqb_neq in Hn. rewrite Hn. cbn.
    apply str_in_not_In in H. now rewrite H.
  - intros Hn -> H. apply String.eqb_neq in Hn. rewrite Hn. cbn.
    apply str_in_not_In in H. now rewrite H.
Qed.

Lemma add_category_contract_witness :
  PyStr.strip "  Pets " <> ""
  /\ ~ In (PyStr.strip "  Pets ") (expense_categories init)
  /\ expense_categories (snd (add_category init "  Pets " "Expense"))
     = (expense_categories init ++ ["Pets"])%list
  /\ add_category init " Food" "Expense" = (false, init).
Proof.
  assert (Hn : PyStr.strip "  Pets " <> "") by discriminate.
  assert (Hnew : ~ In (PyStr.strip "  Pets ") (expense_categories init)).
  { simpl. intuition discriminate. }
  assert (Hold : In (PyStr.strip " Food") (expense_categories init)).
  { simpl. tauto. }
  destruct (add_category_contract init "  Pets " "Expense") as [_ [_ H]].
  destruct (add_category_contract init " Food" "Expense") as [Hf _].
  refine (conj Hn (conj Hnew (conj _ (Hf (or_intror (or_intror
            (or_introl (conj eq_refl Hold)))))))).
  rewrite (H Hn eq_refl Hnew). reflexivity.
Defined.

Lemma list_remove_last (x : string) (l : list string) :
  ~ In x l -> list_remove x (l ++ [x]) = l.
Proof.
  induction l as [|y l IH]; simpl; intros H.
  - now rewrite String.eqb_refl.
  - destruct (String.eqb_spec y x) as [E|E]; [tauto|].
    rewrite IH; tauto.
Qed.

(** X7.  Adding a category and then removing it again gives back the
    tracker as it was, provided no transaction uses the name: the name
    was appended last and was not listed before, so [remove_category]
    takes out just that entry. *)
Theorem add_then_remove_category :
  forall self name kind,
    fst (add_category self name kind) = true ->
    is_category_in_use self (PyStr.strip name) = false ->
    remove_category (snd (add_category self name kind)) (PyStr.strip name) kind
    = (true, self).
Proof.
  intros self name kind Hadd Huse. unfold add_category in *.
  destruct (String.eqb (PyStr.strip name) ""); [discriminate|].
  destruct (String.eqb_spec kind "Income") as [Hk | Hk].
  - subst kind.
    destruct (str_in _ (income_categories self)) eqn:E; [discriminate|].
    cbn [negb snd]. apply str_in_not_In in E.
    unfold remove_category, is_category_in_use in *.
    cbn [transactions income_categories expense_categories
         set_income_categories].
    rewrite Huse, String.eqb_refl.
    assert (Hin : str_in (PyStr.strip name)
                    (income_categories self ++ [PyStr.strip name]) = true).
    { apply str_in_In, in_or_app. right. now left. }
    rewrite Hin. cbn [andb]. rewrite (list_remove_last _ _ E).
    now destruct self.
  - destruct (String.eqb_spec kind "Expense") as [Hk2 | Hk2]; [|discriminate].
    subst kind.
    destruct (str_in _ (expense_categories self)) eqn:E; [discriminate|].
    cbn [negb snd]. apply str_in_not_In in E.
    unfold remove_category, is_category_in_use in *.
    cbn [transactions income_categories expense_categories
         set_expense_categories].
    rewrite Huse, String.eqb_refl.
    replace (String.eqb "Expense" "Income") with false by reflexivity.
    assert (Hin : str_in (PyStr.strip name)
                    (expense_categories self ++ [PyStr.strip name]) = true).
    { apply str_in_In, in_or_app. right. now left. }
    rewrite Hin. cbn [andb]. rewrite (list_remove_last _ _ E).
    now destruct self.
Qed.

Lemma add_then_remove_category_witness :
  fst (add_category salary_and_rent " Pets " "Expense") = true
  /\ is_category_in_use salary_and_rent (PyStr.strip " Pets ") = false
  /\ remove_category (snd (add_category salary_and_rent " Pets " "Expense"))
                     "Pets" "Expense"
     = (true, salary_and_rent).
Proof.
  assert (H1 : fst (add_category salary_and_rent " Pets " "Expense") = true)
    by reflexivity.
  assert (H2 : is_category_in_use salary_and_rent (PyStr.strip " Pets ")
               = false) by reflexivity.
  exact (conj H1 (conj H2
           (add_then_remove_category salary_and_rent " Pets " "Expense" H1 H2))).
Defined.

Lemma add_category_keeps_nonempty (self : BudgetTracker) (name kind : string) :
  ~ In "" (income_categories self) -> ~ In "" (expense_categories self) ->
  ~ In "" (income_categories (snd (add_category self name kind)))
  /\ ~ In "" (expense_categories (snd (add_category self name kind))).
Proof.
  intros Hi He. unfold add_category.
  destruct (String.eqb_spec (PyStr.strip name) "") as [E|E]; [now split|].
  destruct (String.eqb kind "Income").
  - destruct (negb _); cbn; [|now split]. split; [|exact He].
    intros H. apply in_app_or in H. destruct H as [H | [H | []]];
      [now apply Hi | congruence].
  - destruct (String.eqb kind "Expense"); [|now split].
    destruct (negb _); cbn; [|now split]. split; [exact Hi|].
    intros H. apply in_app_or in H. destruct H as [H | [H | []]];
      [now apply He | congruence].
Qed.

Lemma remove_category_keeps_nonempty (self : BudgetTracker)
  (name kind : string) :
  ~ In "" (income_categories self) -> ~ In "" (expense_categories self) ->
  ~ In "" (income_categories (snd (remove_category self name kind)))
  /\ ~ In "" (expense_categories (snd (remove_category self name kind))).
Proof.
  intros Hi He. unfold remove_category.
  destruct (is_category_in_use self name); [now split|].
  destruct (_ && _); cbn.
  - split; [|exact He]. intros H. apply Hi. exact (list_remove_In _ _ _ H).
  - destruct (_ && _); cbn; [|now split].
    split; [exact Hi|]. intros H. apply He. exact (list_remove_In _ _ _ H).
Qed.

(** X8.  Starting from the default categories, whatever sequence of
    [add_category] and [remove_category] calls is made, neither category
    list ever holds a name twice or an empty name. *)
Theorem registry_keeps_names_distinct :
  forall self,
    registry_reachable self ->
    NoDup (income_categories self)
    /\ NoDup (expense_categories self)
    /\ ~ In "" (income_categories self)
    /\ ~ In "" (expense_categories self).
Proof.
  intros self H. induction H as [self Ei Ee | self name kind _ IH
                                | self name kind _ IH].
  - rewrite Ei, Ee. destruct init_categories_NoDup as [Hi He].
    repeat split; try assumption; simpl; intuition discriminate.
  - destruct IH as [Hi [He [Ni Ne]]].
    destruct (add_category_keeps_NoDup self name kind Hi He).
    destruct (add_category_keeps_nonempty self name kind Ni Ne).
    auto.
  - destruct IH as [Hi [He [Ni Ne]]].
    destruct (remove_category_keeps_NoDup self name kind Hi He).
    destruct (remove_category_keeps_nonempty self name kind Ni Ne).
    auto.
Qed.

Lemma registry_keeps_names_distinct_witness :
  registry_reachable
    (snd (add_category (snd (remove_category salary_and_rent "Gift" "Income"))
                       "Gift" "Income"))
  /\ NoDup (income_categories
              (snd (add_category
                      (snd (remove_category salary_and_rent "Gift" "Income"))
                      "Gift" "Income"))).
Proof.
  assert (H : registry_reachable
                (snd (add_category
                        (snd (remove_category salary_and_rent "Gift" "Income"))
                        "Gift" "Income"))).
  { apply registry_add, registry_remove. now apply registry_init. }
  exact (conj H (proj1 (registry_keeps_names_distinct _ H))).
Defined.

(** ** Category budgets *)

Lemma dict_get_set_same {V : Type} (k : string) (v : V) d :
  dict_get k (dict_set k v d) = Some v.
Proof.
  induction d as [|[k' v'] d IH]; simpl.
  - now rewrite String.eqb_refl.
  - destruct (String.eqb k' k) eqn:E; simpl.
    + now rewrite String.eqb_refl.
    + now rewrite E.
Qed.

Lemma dict_get_set_other {V : Type} (k k2 : string) (v : V) d :
  k2 <> k -> dict_get k2 (dict_set k v d) = dict_get k2 d.
Proof.
  intros Hne. induction d as [|[k' v'] d IH]; simpl.
  - apply String.eqb_neq in Hne. rewrite String.eqb_sym in Hne.
    now rewrite Hne.
  - destruct (String.eqb_spec k' k) as [E|E]; simpl.
    + subst k'. destruct (String.eqb_spec k k2); [congruence|].
      destruct (String.eqb_spec k k2); congruence.
    + destruct (String.eqb k' k2); [reflexivity | exact IH].
Qed.

Lemma dict_get_none_keys {V : Type} (k : string) (d : list (string * V)) :
  dict_get k d = None <-> ~ In k (map fst d).
Proof.
  induction d as [|[k' v'] d IH]; simpl; [tauto|].
  destruct (String.eqb_spec k' k) as [E|E].
  - split; [discriminate | tauto].
  - rewrite IH. tauto.
Qed.

Lemma dict_set_keys {V : Type} (k : string) (v : V) d :
  map fst (dict_set k v d)
  = match dict_get k d with
    | Some _ => map fst d
    | None => (map fst d ++ [k])%list
    end.
Proof.
  induction d as [|[k' v'] d IH]; simpl; [reflexivity|].
  destruct (String.eqb_spec k' k) as [E|E]; simpl.
  - now subst.
  - rewrite IH. now destruct (dict_get k d).
Qed.

Lemma dict_del_set_new {V : Type} (k : string) (v : V) d :
  dict_get k d = None -> dict_del k (dict_set k v d) = d.
Proof.
  induction d as [|[k' v'] d IH]; simpl; intros H.
  - now rewrite String.eqb_refl.
  - destruct (String.eqb k' k) eqn:E; [discriminate|].
    simpl. rewrite E. now rewrite IH.
Qed.

Lemma dict_del_keys {V : Type} (k : string) (d : list (string * V)) :
  NoDup (map fst d) ->
  NoDup (map fst (dict_del k d))
  /\ dict_get k (dict_del k d) = None
  /\ forall k2, k2 <> k -> dict_get k2 (dict_del k d) = dict_get k2 d.
Proof.
  induction d as [|[k' v'] d IH]; simpl; intros H.
  - repeat split; trivial.
  - inversion H as [|x l Hx Hl]; subst.
    destruct (IH Hl) as [H1 [H2 H3]].
    destruct (String.eqb_spec k' k) as [E|E].
    + subst k'. repeat split; [exact Hl | now apply dict_get_none_keys |].
      intros k2 Hne. destruct (String.eqb_spec k k2); congruence.
    + simpl. repeat split.
      * constructor; [|exact H1]. intros Hin. apply Hx.
        clear - Hin. induction d as [|[a b] d IHd]; simpl in *; [tauto|].
        destruct (String.eqb a k); simpl in *; tauto.
      * destruct (String.eqb_spec k' k); [congruence | exact H2].
      * intros k2 Hne. destruct (String.eqb k' k2); [reflexivity|].
        now apply H3.
Qed.

(** X9.  The category limits behave as a dictionary.  After
    [set_category_budget] the category has the new limit and every other
    category the limit it had; a category that is already limited keeps
    its place in the order, a new one goes last.
    [remove_category_budget] returns [True] exactly when the category has
    a limit, and then the category has none left while the others keep
    theirs; removing a limit just set on a category that had none gives
    back the tracker as it was. *)
Theorem category_budget_dictionary :
  forall self category limit,
    let self1 := set_category_budget self category limit in
    dict_get category (budget_limits self1) = Some limit
    /\ (forall other, other <> category ->
                      dict_get other (budget_limits self1)
                      = dict_get other (budget_limits self))
    /\ map fst (budget_limits self1)
       = match dict_get category (budget_limits self) with
         | Some _ => map fst (budget_limits self)
         | None => (map fst (budget_limits self) ++ [category])%list
         end
    /\ (fst (remove_category_budget self category) = true
        <-> dict_get category (budget_limits self) <> None)
    /\ (dict_get category (budget_limits self) = None ->
        remove_category_budget self category = (false, self)
        /\ remove_category_budget self1 category = (true, self))
    /\ (NoDup (map fst (budget_limits self)) ->
        let self2 := snd (remove_category_budget self category) in
        NoDup (map fst (budget_limits self1))
        /\ NoDup (map fst (budget_limits self2))
        /\ dict_get category (budget_limits self2) = None
        /\ forall other, other <> category ->
                         dict_get other (budget_limits self2)
                         = dict_get other (budget_limits self)).
Proof.
  intros self category limit self1. subst self1.
  unfold set_category_budget, remove_category_budget.
  cbn [budget_limits].
  split; [apply dict_get_set_same|].
  split; [intros other H; now apply dict_get_set_other|].
  split; [apply dict_set_keys|].
  split.
  { destruct (dict_get category (budget_limits self)); simpl;
      split; congruence. }
  split.
  { intros H. rewrite H. split; [reflexivity|].
    rewrite dict_get_set_same. unfold set_budget_limits.
    cbn [transactions income_categories expense_categories budget_limits
         monthly_budget_limit weekly_budget_limit].
    rewrite (dict_del_set_new _ _ _ H). now destruct self. }
  intros Hnd. split.
  { rewrite dict_set_keys.
    destruct (dict_get category (budget_limits self)) eqn:E; [exact Hnd|].
    apply NoDup_app; [exact Hnd | repeat constructor; simpl; tauto |].
    intros x Hx [<- | []]. now apply dict_get_none_keys in E. }
  destruct (dict_get category (budget_limits self)) eqn:E; cbn.
  - destruct (dict_del_keys category (budget_limits self) Hnd) as [H1 [H2 H3]].
    auto.
  - repeat split; trivial.
Qed.

Lemma category_budget_dictionary_witness :
  dict_get "Food" (budget_limits salary_and_rent) = None
  /\ NoDup (map fst (budget_limits salary_and_rent))
  /\ remove_category_budget
       (set_category_budget salary_and_rent "Food" 300) "Food"
     = (true, salary_and_rent)
  /\ dict_get "Food"
       (budget_limits
          (snd (remove_category_budget salary_and_rent "Food"))) = None.
Proof.
  assert (H : dict_get "Food" (budget_limits salary_and_rent) = None)
    by reflexivity.
  assert (Hnd : NoDup (map fst (budget_limits salary_and_rent)))
    by constructor.
  destruct (category_budget_dictionary salary_and_rent "Food" 300)
    as [_ [_ [_ [_ [Hnew Hdel]]]]].
  destruct (Hnew H) as [_ H1]. destruct (Hdel Hnd) as [_ [_ [H2 _]]].
  exact (conj H (conj Hnd (conj H1 H2))).
Defined.

(** ** The summary under edits *)

Lemma summary_totals (self : BudgetTracker) :
  (total_income (get_summary self)
   == total_of_kind "Income" (transactions self))%Q
  /\ (total_expenses (get_summary self)
      == total_of_kind "Expense" (transactions self))%Q
  /\ (net_balance (get_summary self)
      == total_income (get_summary self)
         - total_expenses (get_summary self))%Q.
Proof.
  unfold get_summary.
  destruct (summary_fold (transactions self) 0 0) as [H1 H2].
  destruct (fold_left summary_step (transactions self) (0%Q, 0%Q)) as [i e].
  simpl in *. rewrite H1, H2. repeat split; ring.
Qed.

Lemma Qsum_app (l1 l2 : list Q) : (Qsum (l1 ++ l2) == Qsum l1 + Qsum l2)%Q.
Proof.
  induction l1 as [|x l1 IH]; simpl; [ring|].
  unfold Qsum in *. simpl. rewrite IH. ring.
Qed.

Lemma total_of_kind_app (kind : string) (l1 l2 : list Transaction) :
  (total_of_kind kind (l1 ++ l2)
   == total_of_kind kind l1 + total_of_kind kind l2)%Q.
Proof.
  unfold total_of_kind. rewrite filter_app, map_app. apply Qsum_app.
Qed.

Lemma total_of_kind_one (kind : string) (t : Transaction) :
  (total_of_kind kind [t]
   == if String.eqb (tx_type t) kind then to_base t else 0)%Q.
Proof.
  unfold total_of_kind. simpl.
  destruct (String.eqb (tx_type t) kind); simpl; unfold Qsum; simpl; ring.
Qed.

Lemma running_sum_app (a : float) (l1 l2 : list float) :
  Double.running_sum a (l1 ++ l2)
  = Double.running_sum (Double.running_sum a l1) l2.
Proof.
  apply fold_left_app.
Qed.

Lemma of_kind_app (kind : string) (l1 l2 : list Double.Transaction) :
  Double.of_kind kind (l1 ++ l2)
  = (Double.of_kind kind l1 ++ Double.of_kind kind l2)%list.
Proof.
  apply filter_app.
Qed.

Lemma double_remove_first_id_split (transaction_id : Z) l1 t l2 :
  Double.tx_id t = transaction_id ->
  (forall x, In x l1 -> Double.tx_id x <> transaction_id) ->
  Double.remove_first_id transaction_id (l1 ++ t :: l2) = Some (l1 ++ l2)%list.
Proof.
  intros Ht. induction l1 as [|x l1 IH]; intros Hl1;
    cbn [app Double.remove_first_id].
  - now rewrite Ht, Z.eqb_refl.
  - destruct (Z.eqb_spec (Double.tx_id x) transaction_id) as [E|E].
    + exfalso. apply (Hl1 x); [now left | exact E].
    + rewrite IH; [reflexivity|]. intros y Hy. apply Hl1. now right.
Qed.

(** X10.  The summary follows the edits, in double precision.  After a
    successful [add_transaction] of an Income the total income is the
    earlier total plus the converted amount, rounded once, and the total
    of expenses is unchanged; likewise for an Expense; the net balance is
    the difference of the two new totals.  Removing a transaction leaves
    the total of the other kind as it was, and the net balance is again
    the difference of the totals.  (The total of its own kind is added up
    anew without it, and need not be the earlier total minus its
    amount.) *)
Theorem summary_follows_edits :
  forall now self amount category ty currency date,
    let s := Double.get_summary self in
    let v := Double.convert_to_usd amount currency in
    (fst (Double.add_transaction now self amount category ty currency date)
     = true ->
     let s' :=
       Double.get_summary
         (snd (Double.add_transaction now self amount category ty currency
                                      date)) in
     (ty = "Income" ->
      Double.total_income s' = (Double.total_income s + v)%float
      /\ Double.total_expenses s' = Double.total_expenses s)
     /\ (ty = "Expense" ->
         Double.total_income s' = Double.total_income s
         /\ Double.total_expenses s' = (Double.total_expenses s + v)%float)
     /\ Double.net_balance s'
        = (Double.total_income s' - Double.total_expenses s')%float)
    /\ (forall l1 t l2 transaction_id,
           Double.transactions self = (l1 ++ t :: l2)%list ->
           Double.tx_id t = transaction_id ->
           (forall x, In x l1 -> Double.tx_id x <> transaction_id) ->
           let s' :=
             Double.get_summary
               (snd (Double.remove_transaction self transaction_id)) in
           (Double.tx_type t <> "Income" ->
            Double.total_income s' = Double.total_income s)
           /\ (Double.tx_type t <> "Expense" ->
               Double.total_expenses s' = Double.total_expenses s)
           /\ Double.net_balance s'
              = (Double.total_income s' - Double.total_expenses s')%float).
Proof.
  intros now self amount category ty currency date s v. split.
  - intros Hadd s'.
    destruct (double_add_transaction_cases now self amount category ty
                currency date) as [E | [t [E [_ [Ea [_ [Et _]]]]]]].
    { rewrite E in Hadd. discriminate. }
    assert (Ec : Double.tx_currency t = currency).
    { revert E. unfold Double.add_transaction.
      destruct (amount <=? 0)%float; [discriminate|].
      destruct (_ || _); [discriminate|].
      destruct (negb _); [discriminate|].
      intros [= E]. apply app_inv_head in E. injection E as <-. reflexivity. }
    subst s s'. rewrite E. cbn [snd].
    destruct (double_summary_totals self) as [H1 [H2 _]].
    destruct (double_summary_totals
                (Double.set_transactions self
                   (Double.transactions self ++ [t]))) as [H1' [H2' H3']].
    cbn [Double.set_transactions Double.transactions] in H1', H2'.
    rewrite !of_kind_app, !map_app, !running_sum_app in H1', H2'.
    rewrite <- H1 in H1'. rewrite <- H2 in H2'.
    assert (Ev : Double.to_base t = v).
    { unfold Double.to_base, v, Double.convert_to_usd. now rewrite Ea, Ec. }
    split; [|split; [|exact H3']].
    + intros ->. rewrite H1', H2'. unfold Double.of_kind. cbn [filter].
      rewrite Et. cbn. now rewrite Ev.
    + intros ->. rewrite H1', H2'. unfold Double.of_kind. cbn [filter].
      rewrite Et. cbn. now rewrite Ev.
  - intros l1 t l2 transaction_id El Ht Hl1 s'. subst s s'.
    unfold Double.remove_transaction.
    rewrite El, (double_remove_first_id_split _ _ _ _ Ht Hl1). cbn [snd].
    destruct (double_summary_totals self) as [H1 [H2 _]].
    destruct (double_summary_totals
                (Double.set_transactions self (l1 ++ l2))) as [H1' [H2' H3']].
    cbn [Double.set_transactions Double.transactions] in H1', H2'.
    rewrite El in H1, H2.
    split; [|split; [|exact H3']].
    + intros Hne. rewrite H1, H1', !of_kind_app. unfold Double.of_kind at 4.
      cbn [filter]. apply String.eqb_neq in Hne. now rewrite Hne.
    + intros Hne. rewrite H2, H2', !of_kind_app. unfold Double.of_kind at 4.
      cbn [filter]. apply String.eqb_neq in Hne. now rewrite Hne.
Qed.

Lemma summary_follows_edits_witness :
  fst (Double.add_transaction noon Double.salary_and_rent 0.1 "Food" "Expense"
                              "EUR" None) = true
  /\ Double.total_expenses
       (Double.get_summary
          (snd (Double.add_transaction noon Double.salary_and_rent 0.1 "Food"
                                       "Expense" "EUR" None)))
     = (1200 + 0.1 / 0.91)%float.
Proof.
  assert (H : fst (Double.add_transaction noon Double.salary_and_rent 0.1
                     "Food" "Expense" "EUR" None) = true) by reflexivity.
  split; [exact H|].
  destruct (summary_follows_edits noon Double.salary_and_rent 0.1 "Food"
              "Expense" "EUR" None) as [Hadd _].
  destruct (Hadd H) as [_ [He _]].
  rewrite (proj2 (He eq_refl)). reflexivity.
Defined.

Lemma to_base_reads (l : list Double.Transaction) :
  map Double.to_base l
  = map (fun ac => Double.convert_to_usd (fst ac) (snd ac))
        (map Double.amount_and_currency l).
Proof.
  rewrite map_map. apply map_ext. intros t. reflexivity.
Qed.

(** X11.  The summary depends on the Income entries in their order and
    on the Expense entries in their order, and on nothing else: two
    ledgers with the same sequence of Income amounts and currencies and
    the same sequence of Expense amounts and currencies have the same
    summary, however the two kinds are interleaved.  The order within a
    kind matters: Expenses of 0.1, 0.2 and 0.3 total 0.6000000000000001,
    and in the opposite order 0.6. *)
Theorem summary_ignores_interleaving :
  forall self other,
    map Double.amount_and_currency
        (Double.of_kind "Income" (Double.transactions self))
    = map Double.amount_and_currency
          (Double.of_kind "Income" (Double.transactions other)) ->
    map Double.amount_and_currency
        (Double.of_kind "Expense" (Double.transactions self))
    = map Double.amount_and_currency
          (Double.of_kind "Expense" (Double.transactions other)) ->
    Double.get_summary self = Double.get_summary other
    /\ Double.total_expenses
         (Double.get_summary (Double.expenses_of [0.1; 0.2; 0.3]%float))
       = 0.6000000000000001%float
    /\ Double.total_expenses
         (Double.get_summary (Double.expenses_of [0.3; 0.2; 0.1]%float))
       = 0.6%float
    /\ (0.6000000000000001 =? 0.6)%float = false.
Proof.
  intros self other Hi He. split; [|repeat split].
  unfold Double.get_summary. rewrite !double_summary_fold.
  now rewrite !to_base_reads, Hi, He.
Qed.

Lemma summary_ignores_interleaving_witness :
  Double.get_summary
    (snd (Double.add_transaction noon
            (snd (Double.add_transaction noon Double.init 1200 "Rent"
                                         "Expense" "USD" None))
            5000 "Salary" "Income" "USD" None))
  = Double.get_summary Double.salary_and_rent.
Proof.
  exact (proj1 (summary_ignores_interleaving _ Double.salary_and_rent
                  eq_refl eq_refl)).
Defined.

Lemma exchange_rates_positive (currency : string) (rate : Q) :
  dict_get currency exchange_rates = Some rate -> (0 < rate)%Q.
Proof.
  unfold exchange_rates. cbn [dict_get].
  repeat (destruct (String.eqb _ currency);
          [intros [= <-]; reflexivity|]).
  discriminate.
Qed.

Lemma convert_to_usd_nonneg (amount : Q) (currency : string) :
  (0 <= amount)%Q \/ dict_get currency exchange_rates <> None ->
  (0 <= convert_to_usd amount currency)%Q.
Proof.
  unfold convert_to_usd. intros H.
  destruct (dict_get currency exchange_rates) as [rate|] eqn:E.
  - apply exchange_rates_positive in E.
    apply Qle_shift_div_l; [exact E|]. rewrite Qmult_0_l. apply Qabs_nonneg.
  - destruct H as [H | H]; [exact H | congruence].
Qed.

Lemma total_of_kind_nonneg (kind : string) (l : list Transaction) :
  Forall (fun t => (0 <= tx_amount t)%Q
                   \/ dict_get (tx_currency t) exchange_rates <> None) l ->
  (0 <= total_of_kind kind l)%Q.
Proof.
  induction 1 as [|t l Ht _ IH].
  - unfold total_of_kind, Qsum. simpl. apply Qle_refl.
  - change (t :: l) with ([t] ++ l)%list.
    rewrite total_of_kind_app, total_of_kind_one.
    apply convert_to_usd_nonneg in Ht. fold (to_base t) in Ht.
    destruct (String.eqb (tx_type t) kind); lra.
Qed.

(** X12.  The totals of the summary are never negative when every
    transaction has an amount that is not negative or a currency of the
    rate table (whose conversion takes the magnitude).  An amount below
    0 in an unknown currency, which an import can store, is added as it
    is and can make a total negative. *)
Theorem summary_totals_nonnegative :
  forall self,
    Forall (fun t => (0 <= tx_amount t)%Q
                     \/ dict_get (tx_currency t) exchange_rates <> None)
           (transactions self) ->
    (0 <= total_income (get_summary self))%Q
    /\ (0 <= total_expenses (get_summary self))%Q.
Proof.
  intros self H. destruct (summary_totals self) as [Hi [He _]].
  rewrite Hi, He. split; now apply total_of_kind_nonneg.
Qed.

Lemma summary_totals_nonnegative_witness :
  Forall (fun t => (0 <= tx_amount t)%Q
                   \/ dict_get (tx_currency t) exchange_rates <> None)
         (transactions salary_and_rent)
  /\ (0 <= total_expenses (get_summary salary_and_rent))%Q.
Proof.
  assert (H : Forall (fun t => (0 <= tx_amount t)%Q
                               \/ dict_get (tx_currency t) exchange_rates
                                  <> None)
                     (transactions salary_and_rent)).
  { constructor; [right; discriminate|].
    constructor; [right; discriminate | constructor]. }
  exact (conj H (proj2 (summary_totals_nonnegative salary_and_rent H))).
Defined.

(** ** The budget status *)

Lemma expenses_in_period_filter (l : list Transaction) start_date end_date :
  forall total,
    expenses_in_period
      (filter (fun t => String.eqb (tx_type t) "Expense") l)
      start_date end_date total
    = expenses_in_period l start_date end_date total.
Proof.
  induction l as [|t l IH]; intros total; [reflexivity|].
  cbn [filter expenses_in_period].
  destruct (String.eqb (tx_type t) "Expense") eqn:E.
  - cbn [expenses_in_period]. rewrite E.
    destruct (transaction_datetime t) as [d|e]; cbn [bind]; [|reflexivity].
    destruct (_ && _); apply IH.
  - apply IH.
Qed.

Lemma category_expenses_from_filter (l : list Transaction) month_start :
  forall totals,
    category_expenses_from
      (filter (fun t => String.eqb (tx_type t) "Expense") l)
      month_start totals
    = category_expenses_from l month_start totals.
Proof.
  induction l as [|t l IH]; intros totals; [reflexivity|].
  cbn [filter category_expenses_from].
  destruct (String.eqb (tx_type t) "Expense") eqn:E.
  - cbn [category_expenses_from]. rewrite E.
    destruct (transaction_datetime t) as [d|e]; cbn [bind]; [|reflexivity].
    destruct (PyDate.leb month_start d); apply IH.
  - apply IH.
Qed.

(** X13.  The budget status looks at the Expense transactions only: it is
    the same, alerts and failures included, as for the ledger with every
    other transaction taken out.  The date of an Income is never read, so
    it cannot make [get_budget_status] raise. *)
Theorem budget_status_reads_expenses_only :
  forall now self,
    get_budget_status now self
    = get_budget_status now
        (set_transactions self (get_transactions_by_type self "Expense")).
Proof.
  intros now self.
  unfold get_budget_status, _get_expenses_in_period,
    _get_category_expenses_current_month, get_transactions_by_type.
  cbn [transactions set_transactions monthly_budget_limit weekly_budget_limit
       budget_limits].
  now rewrite !expenses_in_period_filter, category_expenses_from_filter.
Qed.

Lemma check_category_decision (category : string) (limit spent : Q) l :
  check_category category limit spent = Ok l ->
  map severity l = category_decision limit spent
  /\ Forall (fun a => (alert_type a = "category_exceeded"
                       /\ severity a = "critical")
                      \/ (alert_type a = "category_warning"
                          /\ severity a = "warning")) l.
Proof.
  unfold check_category, category_decision, PyFloat.div.
  destruct (PyFloat.Qlt_bool 0 spent) eqn:Ep;
    [|intros [= <-]; split; [reflexivity | constructor]].
  destruct (Qeq_bool limit 0) eqn:Ez; cbn [bind]; [discriminate|].
  destruct (Qle_bool limit spent) eqn:Ele.
  - intros [= <-]. split; [reflexivity|].
    repeat constructor; simpl; tauto.
  - unfold PyFloat.Qlt_bool in Ep. apply negb_true_iff in Ep.
    apply Qle_bool_false in Ep, Ele.
    assert (Hl : (0 < limit)%Q) by lra.
    assert (Hiff : Qle_bool 80 (spent / limit * 100)
                   = Qle_bool (0.80 * limit) spent).
    { apply eq_true_iff_eq. rewrite percentage_threshold, !Qle_bool_iff.
      split; intros H.
      - apply (Qmult_le_compat_r _ _ limit) in H; [|lra].
        assert (E : (spent / limit * limit == spent)%Q) by (field; lra).
        rewrite E in H. exact H.
      - apply Qle_shift_div_l; assumption. }
    rewrite Hiff.
    destruct (Qle_bool (0.80 * limit) spent); intros [= <-];
      (split; [reflexivity|]); repeat constructor; simpl; tauto.
Qed.

Lemma category_alerts_all (l : list Alert) :
  Forall (fun a => alert_type a = "category_exceeded"
                   \/ alert_type a = "category_warning") l ->
  category_alerts l = l.
Proof.
  induction 1 as [|a l Ha _ IH]; [reflexivity|].
  unfold category_alerts in *. cbn [filter]. rewrite IH.
  destruct Ha as [E | E]; rewrite E; reflexivity.
Qed.

Lemma category_alerts_none (l : list Alert) :
  Forall (fun a => alert_type a <> "category_exceeded"
                   /\ alert_type a <> "category_warning") l ->
  category_alerts l = [].
Proof.
  induction 1 as [|a l [H1 H2] _ IH]; [reflexivity|].
  unfold category_alerts in *. cbn [filter]. rewrite IH.
  assert (E : str_in (alert_type a) ["category_exceeded"; "category_warning"]
              = false).
  { apply str_in_not_In. simpl. intuition congruence. }
  now rewrite E.
Qed.

Lemma check_categories_decision (limits expenses : list (string * Q)) :
  forall l,
    check_categories limits expenses = Ok l ->
    map severity l
    = flat_map (fun kv => category_decision (snd kv)
                                            (get_default (fst kv) expenses))
               limits
    /\ Forall (fun a => (alert_type a = "category_exceeded"
                         /\ severity a = "critical")
                        \/ (alert_type a = "category_warning"
                            /\ severity a = "warning")) l.
Proof.
  induction limits as [|[category limit] rest IH]; intros l;
    cbn [check_categories].
  - intros [= <-]. split; [reflexivity | constructor].
  - destruct (check_category category limit (get_default category expenses))
      as [here|e] eqn:Eh; cbn [bind]; [|discriminate].
    destruct (check_categories rest expenses) as [more|e] eqn:Em;
      cbn [bind]; [|discriminate].
    intros [= <-]. destruct (check_category_decision _ _ _ _ Eh) as [H1 H2].
    destruct (IH more eq_refl) as [H3 H4].
    split.
    + rewrite map_app, H1, H3. reflexivity.
    + apply Forall_app. now split.
Qed.

(** X14.  Whenever [get_budget_status] returns, the category alerts follow
    the category limits in their configured order, each limit giving at
    most one alert, decided in double precision: none when the category
    has no spending above 0 this month, one critical "exceeded" alert
    when [spent >= limit], otherwise one warning when
    [(spent / limit) * 100 >= 80], none below that. *)
Theorem category_alert_rule :
  forall now self st,
    Double.get_budget_status now self = Ok st ->
    map severity (category_alerts (Double.alerts st))
    = flat_map (fun kv =>
                  Double.category_decision (snd kv)
                    (Double.get_default (fst kv)
                                        (Double.category_expenses st)))
               (Double.budget_limits self)
    /\ Forall (fun a => (alert_type a = "category_exceeded"
                         /\ severity a = "critical")
                        \/ (alert_type a = "category_warning"
                            /\ severity a = "warning"))
              (category_alerts (Double.alerts st)).
Proof.
  intros now self st Hst.
  destruct (double_get_budget_status_parts now self st Hst)
    as [ma [wa [ca [Hm [Hw [Hc Ha]]]]]].
  destruct (double_check_monthly_rule _ _ _ Hm) as [_ Tm].
  destruct (double_check_weekly_rule _ _ _ Hw) as [_ Tw].
  destruct (double_check_categories_decision _ _ _ Hc) as [Hd Hf].
  assert (E : category_alerts (Double.alerts st) = ca).
  { rewrite Ha. unfold category_alerts. rewrite !filter_app.
    fold (category_alerts ma). fold (category_alerts wa).
    fold (category_alerts ca).
    rewrite (category_alerts_none ma), (category_alerts_none wa),
      (category_alerts_all ca); [reflexivity | | |].
    - eapply Forall_impl; [|exact Hf]. cbn beta. tauto.
    - eapply Forall_impl; [|exact Tw]. cbn beta.
      intros a [E | E]; rewrite E; split; discriminate.
    - eapply Forall_impl; [|exact Tm]. cbn beta.
      intros a [E | E]; rewrite E; split; discriminate. }
  rewrite E. now split.
Qed.

Lemma category_alert_rule_witness :
  exists st,
    Double.get_budget_status noon
      (Double.set_category_budget
         (Double.expenses_of [30; 25]%float) "Food" 60)
    = Ok st
    /\ map severity (category_alerts (Double.alerts st)) = ["warning"].
Proof.
  assert (H : exists st,
             Double.get_budget_status noon
               (Double.set_category_budget
                  (Double.expenses_of [30; 25]%float) "Food" 60)
             = Ok st) by (eexists; vm_compute; reflexivity).
  destruct H as [st H]. exists st. split; [exact H|].
  rewrite (proj1 (category_alert_rule noon _ st H)).
  revert H. vm_compute. intros [= <-]. reflexivity.
Defined.

Lemma check_monthly_length (spent : Q) (limit : option Q) l :
  check_monthly spent limit = Ok l ->
  (List.length l <= 1)%nat /\ (limit = None -> l = []).
Proof.
  unfold check_monthly, PyFloat.div. destruct limit as [lim|].
  - destruct (Qeq_bool lim 0); cbn [bind];
      [|destruct (Qle_bool lim spent); [|destruct (Qle_bool 80 _)]];
      intros [= <-]; simpl; split; try lia; discriminate.
  - intros [= <-]. simpl. split; [lia | reflexivity].
Qed.

Lemma check_weekly_length (spent : Q) (limit : option Q) l :
  check_weekly spent limit = Ok l ->
  (List.length l <= 1)%nat /\ (limit = None -> l = []).
Proof.
  unfold check_weekly, PyFloat.div. destruct limit as [lim|].
  - destruct (Qeq_bool lim 0); cbn [bind];
      [|destruct (Qle_bool lim spent); [|destruct (Qle_bool 80 _)]];
      intros [= <-]; simpl; split; try lia; discriminate.
  - intros [= <-]. simpl. split; [lia | reflexivity].
Qed.

Lemma category_decision_length (limit spent : Q) :
  (List.length (category_decision limit spent) <= 1)%nat.
Proof.
  unfold category_decision.
  destruct (PyFloat.Qlt_bool 0 spent); [|simpl; lia].
  destruct (Qle_bool limit spent); [simpl; lia|].
  destruct (Qle_bool _ spent); simpl; lia.
Qed.

Lemma flat_map_decisions_length (limits expenses : list (string * Q)) :
  (List.length
     (flat_map (fun kv => category_decision (snd kv)
                                            (get_default (fst kv) expenses))
               limits)
   <= List.length limits)%nat.
Proof.
  induction limits as [|kv rest IH]; simpl; [lia|].
  rewrite length_app.
  pose proof (category_decision_length (snd kv) (get_default (fst kv) expenses)).
  lia.
Qed.

(** X15.  The alerts of a status come in a fixed order: first the monthly
    alert, if any, then the weekly alert, if any, then the category alerts;
    there is at most one alert for the month, one for the week and one for
    each category limit, and none for a period without a limit. *)
Theorem alerts_are_ordered :
  forall now self st,
    get_budget_status now self = Ok st ->
    exists ma wa ca,
      alerts st = (ma ++ wa ++ ca)%list
      /\ Forall (fun a => alert_type a = "monthly_exceeded"
                          \/ alert_type a = "monthly_warning") ma
      /\ Forall (fun a => alert_type a = "weekly_exceeded"
                          \/ alert_type a = "weekly_warning") wa
      /\ Forall (fun a => alert_type a = "category_exceeded"
                          \/ alert_type a = "category_warning") ca
      /\ (List.length ma <= 1)%nat
      /\ (List.length wa <= 1)%nat
      /\ (List.length ca <= List.length (budget_limits self))%nat
      /\ (monthly_budget_limit self = None -> ma = [])
      /\ (weekly_budget_limit self = None -> wa = []).
Proof.
  intros now self st Hst.
  destruct (get_budget_status_parts now self st Hst)
    as [ma [wa [ca [Hm [Hw [Hc [Ha _]]]]]]].
  exists ma, wa, ca.
  destruct (check_monthly_rule _ _ _ Hm) as [_ Tm].
  destruct (check_weekly_rule _ _ _ Hw) as [_ Tw].
  pose proof (check_categories_types _ _ _ Hc) as Tc.
  destruct (check_monthly_length _ _ _ Hm) as [Lm Nm].
  destruct (check_weekly_length _ _ _ Hw) as [Lw Nw].
  destruct (check_categories_decision _ _ _ Hc) as [Hd _].
  assert (Lc : (List.length ca <= List.length (budget_limits self))%nat).
  { rewrite <- (length_map severity), Hd. apply flat_map_decisions_length. }
  repeat split; assumption.
Qed.

Lemma alerts_are_ordered_witness :
  exists st,
    get_budget_status noon
      (set_category_budget (food_with_monthly_limit 1200) "Food" 100) = Ok st
    /\ map alert_type (alerts st) = ["monthly_exceeded"; "category_exceeded"].
Proof.
  assert (H : exists st,
             get_budget_status noon
               (set_category_budget (food_with_monthly_limit 1200) "Food" 100)
             = Ok st
             /\ map alert_type (alerts st)
                = ["monthly_exceeded"; "category_exceeded"]).
  { eexists. split; [vm_compute; reflexivity | reflexivity]. }
  destruct H as [st [Hst Hty]].
  destruct (alerts_are_ordered _ _ st Hst) as [ma [wa [ca _]]].
  exists st. exact (conj Hst Hty).
Defined.

Lemma Qsum_cons (x : Q) (l : list Q) : (Qsum (x :: l) == x + Qsum l)%Q.
Proof. reflexivity. Qed.

Lemma get_budget_status_periods now self st :
  get_budget_status now self = Ok st ->
  _get_expenses_in_period self (PyDate.month_start now) now
  = Ok (monthly_spent st)
  /\ _get_expenses_in_period self (week_start now) now
     = Ok (weekly_spent st)
  /\ _get_category_expenses_current_month now self
     = Ok (category_expenses st).
Proof.
  unfold get_budget_status. fold (week_start now).
  destruct (_get_expenses_in_period self (PyDate.month_start now) now)
    as [me|e]; cbn [bind]; [|discriminate].
  destruct (_get_expenses_in_period self (week_start now) now) as [we|e];
    cbn [bind]; [|discriminate].
  destruct (_get_category_expenses_current_month now self) as [ce|e];
    cbn [bind]; [|discriminate].
  destruct (check_monthly me (monthly_budget_limit self)); cbn [bind];
    [|discriminate].
  destruct (check_weekly we (weekly_budget_limit self)); cbn [bind];
    [|discriminate].
  destruct (check_categories (budget_limits self) ce); cbn [bind];
    [|discriminate].
  intros [= <-]. cbn. repeat split.
Qed.

Lemma double_get_default_set (category c : string) (v : float) d :
  Double.get_default c (dict_set category v d)
  = if String.eqb category c then v else Double.get_default c d.
Proof.
  unfold Double.get_default.
  destruct (String.eqb_spec category c) as [<- | Hne].
  - now rewrite dict_get_set_same.
  - rewrite dict_get_set_other; [reflexivity|]. congruence.
Qed.

Lemma double_category_expenses_sum (l : list Double.Transaction) s :
  forall totals ce,
    Double.category_expenses_from l s totals = Ok ce ->
    forall c,
      Double.get_default c ce
      = Double.running_sum (Double.get_default c totals)
          (map Double.to_base
               (filter (fun t => Double.in_category c t
                                 && Double.dated_from s t)
                       (Double.of_kind "Expense" l))).
Proof.
  unfold Double.running_sum, Double.of_kind.
  induction l as [|t l IH]; intros totals ce;
    cbn [Double.category_expenses_from].
  - now intros [= <-].
  - cbn [filter].
    destruct (String.eqb (Double.tx_type t) "Expense"); [|apply IH].
    cbn [filter]. unfold Double.dated_from at 1.
    destruct (Double.transaction_datetime t) as [d|err]; cbn [bind];
      [|discriminate].
    destruct (PyDate.leb s d).
    + intros H c. rewrite (IH _ _ H c), double_get_default_set.
      unfold Double.in_category at 2. rewrite andb_true_r.
      destruct (String.eqb_spec (Double.tx_category t) c) as [<- | _];
        reflexivity.
    + intros H c. rewrite andb_false_r. exact (IH _ _ H c).
Qed.

(** X16.  The month's spending and the month's spending by category are
    added up over different windows.  The total of a category is the sum,
    in ledger order and in double precision, of the converted Expenses of
    that category dated from the start of the month on, with no upper
    bound; the monthly total is that of the Expenses dated from the start
    of the month up to now.  When every Expense dated from the start of
    the month on is of one category and dated up to now, the monthly total
    is the total of that category. *)
Theorem category_totals_by_window :
  forall now self st,
    Double.get_budget_status now self = Ok st ->
    let expenses := Double.of_kind "Expense" (Double.transactions self) in
    (forall category,
        Double.get_default category (Double.category_expenses st)
        = Double.running_sum 0
            (map Double.to_base
                 (filter (fun t =>
                            Double.in_category category t
                            && Double.dated_from (PyDate.month_start now) t)
                         expenses)))
    /\ Double.monthly_spent st
       = Double.running_sum 0
           (map Double.to_base
                (filter (Double.dated_within (PyDate.month_start now) now)
                        expenses))
    /\ (forall category,
           Forall (fun t =>
                     Double.dated_from (PyDate.month_start now) t = true ->
                     Double.in_category category t = true
                     /\ Double.dated_within (PyDate.month_start now) now t
                        = true)
                  expenses ->
           Double.monthly_spent st
           = Double.get_default category (Double.category_expenses st)).
Proof.
  intros now self st Hst expenses.
  destruct (double_get_budget_status_periods now self st Hst) as [Hm [_ Hc]].
  pose proof (double_expenses_in_period_sum _ _ _ _ _ Hm) as Em.
  pose proof (double_category_expenses_sum _ _ _ _ Hc) as Ec.
  fold expenses in Em, Ec. cbn [Double.get_default dict_get] in Ec.
  split; [exact Ec|]. split; [exact Em|].
  intros category H. rewrite Em, Ec. do 2 f_equal.
  clear - H. induction H as [|t l Ht _ IH]; [reflexivity|]. cbn [filter].
  assert (E : Double.dated_within (PyDate.month_start now) now t
              = Double.in_category category t
                && Double.dated_from (PyDate.month_start now) t).
  { destruct (Double.dated_from (PyDate.month_start now) t) eqn:Ef.
    - destruct (Ht eq_refl) as [-> ->]. reflexivity.
    - rewrite andb_false_r. revert Ef.
      unfold Double.dated_from, Double.dated_within.
      destruct (Double.transaction_datetime t); [|reflexivity].
      now intros ->. }
  rewrite E, IH. reflexivity.
Qed.

Lemma category_totals_by_window_witness :
  exists st,
    Double.get_budget_status noon Double.food_dated_later = Ok st
    /\ Double.monthly_spent st = 0%float
    /\ Double.get_default "Food" (Double.category_expenses st) = 50%float.
Proof.
  assert (H : exists st,
             Double.get_budget_status noon Double.food_dated_later = Ok st)
    by (eexists; vm_compute; reflexivity).
  destruct H as [st H]. exists st. split; [exact H|].
  destruct (category_totals_by_window noon _ st H) as [Hc [Hm _]].
  rewrite Hm, (Hc "Food"). split; reflexivity.
Defined.






(** ** What a load installs *)

Lemma mk_loaded_id date amount currency category type n t :
  mk_loaded date amount currency category type n = Some t -> tx_id t = n.
Proof.
  unfold mk_loaded.
  destruct date, amount, currency, category, type; try discriminate.
  now intros [= <-].
Qed.

Lemma csv_transaction_id (row : Csv.row) (n : Z) t :
  csv_transaction row n = Ok (Some t) -> tx_id t = n.
Proof.
  unfold csv_transaction.
  destruct (float_of_cell (cell "amount" row)) as [a|e]; cbn [bind];
    [|discriminate].
  intros [= H]. exact (mk_loaded_id _ _ _ _ _ _ _ H).
Qed.

Lemma json_transaction_id (item : json) (n : Z) t :
  json_transaction item n = Ok (Some t) -> tx_id t = n.
Proof.
  unfold json_transaction. destruct item; try discriminate.
  destruct (float_of_json (dict_get "amount" m)) as [a|e]; cbn [bind];
    [|discriminate].
  intros [= H]. exact (mk_loaded_id _ _ _ _ _ _ _ H).
Qed.

Lemma csv_rows_ids (rows : list Csv.row) :
  forall acc l,
    csv_rows rows (Some acc) = Ok (Some l) ->
    map tx_id acc = ids_upto (List.length acc) ->
    map tx_id l = ids_upto (List.length l).
Proof.
  induction rows as [|row rest IH]; intros acc l; cbn [csv_rows].
  - now intros [= <-].
  - destruct (negb _); [apply IH|].
    destruct (csv_transaction row _) as [[t|]|e] eqn:Et; cbn [bind];
      [| intros H; now destruct (csv_rows_untyped _ _ H) | discriminate].
    cbn [loaded_append]. intros H Hacc. apply (IH _ _ H).
    apply csv_transaction_id in Et. cbn [loaded_len] in Et.
    rewrite map_app, length_app, Hacc. cbn [map List.length].
    rewrite Nat.add_1_r, ids_upto_S. now rewrite Et.
Qed.

Lemma json_rows_ids (items : list json) :
  forall acc l,
    json_rows items (Some acc) = Ok (Some l) ->
    map tx_id acc = ids_upto (List.length acc) ->
    map tx_id l = ids_upto (List.length l).
Proof.
  induction items as [|item rest IH]; intros acc l; cbn [json_rows].
  - now intros [= <-].
  - destruct (negb (json_iterable item)); [discriminate|].
    destruct (negb _); [apply IH|].
    destruct (json_transaction item _) as [[t|]|e] eqn:Et; cbn [bind];
      [| intros H; now destruct (json_rows_untyped _ _ H) | discriminate].
    cbn [loaded_append]. intros H Hacc. apply (IH _ _ H).
    apply json_transaction_id in Et. cbn [loaded_len] in Et.
    rewrite map_app, length_app, Hacc. cbn [map List.length].
    rewrite Nat.add_1_r, ids_upto_S. now rewrite Et.
Qed.

(** X18.  A load that returns [True], from CSV or from JSON, replaces the
    ledger and nothing else of the tracker.  The loaded transactions are
    those of the rows of the file that have the four required names, one
    for each such row and in file order: each holds the date, the
    currency (USD without one), the category and the kind of its row, and
    the amount that [float] reads there; they are numbered 1, 2, ...
    whatever ids the file holds.  What is loaded does not depend on the
    tracker that loads: any other tracker gets the same ledger from the
    same file. *)
Theorem load_replaces_and_renumbers :
  forall self,
    (forall f self',
        load_from_csv self f = Some (true, self') ->
        self' = set_transactions self (transactions self')
        /\ map tx_id (transactions self')
           = ids_upto (List.length (transactions self'))
        /\ (forall other,
               load_from_csv other f
               = Some (true, set_transactions other (transactions self')))
        /\ exists text rows,
            f = Content text
            /\ Csv.dict_reader (Csv.file_lines (Csv.universal_newlines text))
               = Ok rows
            /\ Forall2 csv_reads (csv_kept rows) (transactions self'))
    /\ (forall f self',
           load_from_json self f = Some (true, self') ->
           self' = set_transactions self (transactions self')
           /\ map tx_id (transactions self')
              = ids_upto (List.length (transactions self'))
           /\ (forall other,
                  load_from_json other f
                  = Some (true, set_transactions other (transactions self')))
           /\ exists data transactions_data items,
               f = Content data
               /\ transactions_data_of data = Some transactions_data
               /\ json_iter transactions_data = Ok items
               /\ Forall2 json_reads (json_kept items) (transactions self')).
Proof.
  intros self. split.
  - intros f self' H. destruct f as [| |text]; try discriminate.
    cbn [load_from_csv] in *.
    destruct (finish_load_true _ _ _ H) as [Hr Hs].
    split; [exact Hs|].
    destruct (Csv.dict_reader _) as [rows|e] eqn:Ed; cbn [bind] in Hr;
      [|discriminate].
    split; [exact (csv_rows_ids rows [] _ Hr eq_refl)|].
    split; [intros other; cbn [bind]; now rewrite Hr|].
    exists text, rows. split; [reflexivity|]. split; [exact Ed|].
    destruct (csv_rows_reads rows [] _ Hr) as [new [-> Hn]]. exact Hn.
  - intros f self' H. destruct f as [| |data]; try discriminate.
    destruct (load_from_json_reads _ _ _ H) as [td [items [Hd [Hi Hr]]]].
    rewrite (load_from_json_runs self data td Hd) in H.
    destruct (finish_load_true _ _ _ H) as [_ Hs].
    split; [exact Hs|].
    split; [exact (json_rows_ids items [] _ Hr eq_refl)|].
    split.
    + intros other. rewrite (load_from_json_runs other data td Hd), Hi.
      cbn [bind]. now rewrite Hr.
    + exists data, td, items. repeat split; try assumption.
      destruct (json_rows_reads items [] _ Hr) as [new [-> Hn]]. exact Hn.
Qed.

Lemma load_replaces_and_renumbers_witness :
  exists self',
    load_from_json salary_and_rent (Content ids_from_file_json)
    = Some (true, self')
    /\ map tx_id (transactions self') = [1; 2]
    /\ map tx_category (transactions self') = ["Food"; "Bus"]
    /\ income_categories self' = income_categories salary_and_rent.
Proof.
  assert (H : exists self',
             load_from_json salary_and_rent (Content ids_from_file_json)
             = Some (true, self')
             /\ map tx_category (transactions self') = ["Food"; "Bus"]).
  { eexists. split; [vm_compute; reflexivity | reflexivity]. }
  destruct H as [self' [H Hc]].
  destruct (proj2 (load_replaces_and_renumbers salary_and_rent) _ _ H)
    as [Hs [Hids _]].
  exists self'. split; [exact H|]. split; [|split; [exact Hc|]].
  - rewrite Hids. rewrite <- (length_map tx_category), Hc. reflexivity.
  - rewrite Hs. reflexivity.
Defined.

Lemma has_key_zip_row (key : string) (names cells : list string) :
  Csv.has_key key (Csv.zip_row names cells) = str_in key names.
Proof.
  unfold Csv.has_key, str_in. revert cells.
  induction names as [|n names IH]; intros cells; [reflexivity|].
  destruct cells as [|c cells]; cbn [Csv.zip_row existsb fst];
    rewrite IH, (String.eqb_sym n key); reflexivity.
Qed.

Lemma get_zip_row_absent (key : string) (names cells : list string) :
  ~ In key names -> Csv.get key (Csv.zip_row names cells) = None.
Proof.
  revert cells. induction names as [|n names IH]; intros cells H;
    [reflexivity|].
  assert (Hn : n <> key) by (intros E; apply H; now left).
  assert (Hr : ~ In key names) by (intros E; apply H; now right).
  apply String.eqb_neq in Hn.
  destruct cells as [|c cells]; cbn [Csv.zip_row Csv.get];
    rewrite (IH _ Hr), Hn; reflexivity.
Qed.

Lemma csv_rows_all_skipped (names : list string) (records : list (list string)) :
  (exists field, In field required_fields /\ ~ In field names) ->
  forall loaded,
    csv_rows (map (Csv.zip_row names) records) loaded = Ok loaded.
Proof.
  intros [field [Hf Hn]].
  assert (E : forall cells,
             forallb (fun f => Csv.has_key f (Csv.zip_row names cells))
                     required_fields = false).
  { intros cells. apply not_true_is_false. intros H.
    rewrite forallb_forall in H. specialize (H field Hf).
    rewrite has_key_zip_row in H. apply str_in_In in H. contradiction. }
  induction records as [|cells records IH]; intros loaded; [reflexivity|].
  cbn [map csv_rows]. rewrite E. cbn [negb]. apply IH.
Qed.

(** X19.  A CSV file whose header lacks one of the columns [date],
    [amount], [category], [type] is not refused: every row is skipped, the
    load returns [True], and the ledger is left empty.  The same holds for
    a file without any record. *)
Theorem csv_without_required_column_empties_ledger :
  forall self text,
    let records := Csv.reader (Csv.file_lines (Csv.universal_newlines text)) in
    (records = Ok [] ->
     load_from_csv self (Content text) = Some (true, set_transactions self []))
    /\ (forall header rest,
           records = Ok (header :: rest) ->
           (exists field, In field required_fields /\ ~ In field header) ->
           load_from_csv self (Content text)
           = Some (true, set_transactions self [])).
Proof.
  intros self text records. subst records.
  unfold load_from_csv, Csv.dict_reader. split.
  - intros ->. reflexivity.
  - intros header rest -> H. cbn [bind].
    now rewrite (csv_rows_all_skipped header _ H).
Qed.

Lemma csv_without_required_column_empties_ledger_witness :
  Csv.reader (Csv.file_lines (Csv.universal_newlines no_amount_csv))
  = Ok [["date"; "category"; "type"]; ["2024-05-01"; "Food"; "Expense"]]
  /\ load_from_csv salary_and_rent (Content no_amount_csv)
     = Some (true, set_transactions salary_and_rent []).
Proof.
  assert (H : Csv.reader
                (Csv.file_lines (Csv.universal_newlines no_amount_csv))
              = Ok [["date"; "category"; "type"];
                    ["2024-05-01"; "Food"; "Expense"]])
    by (vm_compute; reflexivity).
  split; [exact H|].
  apply (proj2 (csv_without_required_column_empties_ledger
                  salary_and_rent no_amount_csv) _ _ H).
  exists "amount". split; [simpl; tauto|].
  simpl. intuition discriminate.
Defined.

Lemma csv_rows_default_currency (names : list string)
  (records : list (list string)) :
  ~ In "currency" names ->
  forall acc l,
    csv_rows (map (Csv.zip_row names) records) (Some acc) = Ok (Some l) ->
    Forall (fun t => tx_currency t = "USD") acc ->
    Forall (fun t => tx_currency t = "USD") l.
Proof.
  intros Hn. induction records as [|cells records IH]; intros acc l;
    cbn [map csv_rows].
  - now intros [= <-].
  - destruct (negb _); [apply IH|].
    destruct (csv_transaction _ _) as [[t|]|e] eqn:Et; cbn [bind];
      [| intros H; now destruct (csv_rows_untyped _ _ H) | discriminate].
    cbn [loaded_append]. intros H Hacc. apply (IH _ _ H).
    apply Forall_app. split; [exact Hacc|]. constructor; [|constructor].
    unfold csv_transaction in Et. rewrite (get_zip_row_absent _ _ _ Hn) in Et.
    destruct (float_of_cell _) as [a|e]; cbn [bind] in Et; [|discriminate].
    injection Et as Et. unfold mk_loaded in Et.
    repeat match type of Et with
           | context [match ?x with _ => _ end] =>
               destruct x; try discriminate
           end.
    now injection Et as <-.
Qed.

(** X20.  When the header of a CSV file has no [currency] column, every
    transaction of a successful load is in USD. *)
Theorem csv_without_currency_column_loads_usd :
  forall self text header rest self',
    Csv.reader (Csv.file_lines (Csv.universal_newlines text))
    = Ok (header :: rest) ->
    ~ In "currency" header ->
    load_from_csv self (Content text) = Some (true, self') ->
    Forall (fun t => tx_currency t = "USD") (transactions self').
Proof.
  intros self text header rest self' Hr Hn H.
  unfold load_from_csv, Csv.dict_reader in H. rewrite Hr in H.
  cbn [bind] in H. destruct (finish_load_true _ _ _ H) as [E _].
  exact (csv_rows_default_currency header _ Hn [] _ E (Forall_nil _)).
Qed.

Lemma csv_without_currency_column_loads_usd_witness :
  exists self',
    load_from_csv init (Content no_currency_csv) = Some (true, self')
    /\ map tx_amount (transactions self') = [(25 # 2)%Q]
    /\ Forall (fun t => tx_currency t = "USD") (transactions self').
Proof.
  assert (Hr : Csv.reader
                 (Csv.file_lines (Csv.universal_newlines no_currency_csv))
               = Ok [["date"; "amount"; "category"; "type"];
                     ["2024-05-01"; "12.50"; "Food"; "Expense"]])
    by (vm_compute; reflexivity).
  assert (Hn : ~ In "currency" ["date"; "amount"; "category"; "type"]).
  { simpl. intuition discriminate. }
  assert (H : exists self',
             load_from_csv init (Content no_currency_csv) = Some (true, self')
             /\ map tx_amount (transactions self') = [(25 # 2)%Q]).
  { eexists. split; [vm_compute; reflexivity | reflexivity]. }
  destruct H as [self' [H Ha]]. exists self'.
  refine (conj H (conj Ha _)).
  exact (csv_without_currency_column_loads_usd _ _ _ _ _ Hr Hn H).
Defined.

(** ** Round trips through the JSON documents *)

Lemma renumber_from_ids (l : list Transaction) :
  forall k : nat,
    map tx_id (renumber_from (Z.of_nat k + 1) l)
    = map Z.of_nat (seq (S k) (List.length l)).
Proof.
  induction l as [|t l IH]; intros k; [reflexivity|].
  cbn [renumber_from map List.length seq tx_id]. f_equal; [lia|].
  replace (Z.of_nat k + 1 + 1) with (Z.of_nat (S k) + 1) by lia.
  apply IH.
Qed.

Lemma renumber_from_tuples (l : list Transaction) :
  forall n, map ledger_tuple (renumber_from n l) = map ledger_tuple l.
Proof.
  induction l as [|t l IH]; intros n; [reflexivity|].
  cbn [renumber_from map]. now rewrite IH.
Qed.

Lemma renumber_from_length (l : list Transaction) :
  forall n, List.length (renumber_from n l) = List.length l.
Proof.
  induction l as [|t l IH]; intros n; [reflexivity|].
  cbn [renumber_from List.length]. now rewrite IH.
Qed.

Lemma renumber_from_fixed (l : list Transaction) :
  forall k : nat,
    map tx_id l = map Z.of_nat (seq (S k) (List.length l)) ->
    renumber_from (Z.of_nat k + 1) l = l.
Proof.
  induction l as [|t l IH]; intros k; [reflexivity|].
  cbn [renumber_from map List.length seq]. intros [= Ht Hl].
  replace (Z.of_nat k + 1 + 1) with (Z.of_nat (S k) + 1) by lia.
  rewrite (IH _ Hl). f_equal. destruct t. cbn in *. f_equal. lia.
Qed.

Lemma json_of_transaction_read (t : Transaction) (n : Z) :
  json_iterable (json_of_transaction t) = true
  /\ forallb (fun field => json_in field (json_of_transaction t))
             required_fields = true
  /\ json_transaction (json_of_transaction t) n
     = Ok (Some {| tx_amount := tx_amount t; tx_category := tx_category t;
                   tx_type := tx_type t; tx_currency := tx_currency t;
                   tx_date := tx_date t; tx_id := n |}).
Proof. repeat split. Qed.

Lemma json_rows_of_transactions (l : list Transaction) :
  forall acc,
    json_rows (map json_of_transaction l) (Some acc)
    = Ok (Some (acc ++ renumber_from (Z.of_nat (List.length acc) + 1) l)%list).
Proof.
  induction l as [|t l IH]; intros acc.
  - cbn [map json_rows renumber_from]. now rewrite app_nil_r.
  - cbn [map json_rows].
    destruct (json_of_transaction_read t (loaded_len (Some acc) + 1))
      as [H1 [H2 H3]].
    rewrite H1, H2, H3. cbn [negb bind loaded_append loaded_len].
    rewrite IH, length_app. cbn [List.length renumber_from].
    rewrite <- app_assoc. cbn [app].
    replace (Z.of_nat (List.length acc + 1) + 1)
      with (Z.of_nat (List.length acc) + 1 + 1) by lia.
    reflexivity.
Qed.

(** X21.  What [save_to_json] writes, [load_from_json] reads back, the
    file holding the document written: the import returns [True] and
    installs the transactions of the exported ledger in their order, with
    all of date, amount, currency, category and type, numbered 1, 2, ...
    A ledger whose ids are already 1, 2, ... comes back unchanged. *)
Theorem json_export_import_round_trip :
  forall now set_list self other,
    load_from_json other (Content (save_to_json now set_list self))
    = Some (true, set_transactions other (renumber (transactions self)))
    /\ map ledger_tuple (renumber (transactions self))
       = map ledger_tuple (transactions self)
    /\ map tx_id (renumber (transactions self))
       = ids_upto (List.length (transactions self))
    /\ (map tx_id (transactions self)
        = ids_upto (List.length (transactions self)) ->
        renumber (transactions self) = transactions self).
Proof.
  intros now set_list self other. unfold renumber. split; [|split; [|split]].
  - unfold load_from_json, save_to_json.
    cbn [dict_get String.eqb Ascii.eqb Bool.eqb json_iter bind].
    rewrite (json_rows_of_transactions (transactions self) []).
    reflexivity.
  - apply renumber_from_tuples.
  - exact (renumber_from_ids (transactions self) 0).
  - exact (renumber_from_fixed (transactions self) 0).
Qed.

Lemma json_export_import_round_trip_witness :
  map tx_id (transactions salary_and_rent)
  = ids_upto (List.length (transactions salary_and_rent))
  /\ load_from_json init
       (Content (save_to_json noon (fun l => l) salary_and_rent))
     = Some (true, salary_and_rent).
Proof.
  assert (H : map tx_id (transactions salary_and_rent)
              = ids_upto (List.length (transactions salary_and_rent)))
    by reflexivity.
  destruct (json_export_import_round_trip noon (fun l => l) salary_and_rent
              init) as [H1 [_ [_ H2]]].
  split; [exact H|]. rewrite H1, (H2 H). reflexivity.
Defined.

Lemma json_strings_of (l : list string) : json_strings (map JStr l) = Some l.
Proof.
  induction l as [|s l IH]; [reflexivity|].
  cbn [map json_strings]. now rewrite IH.
Qed.

Lemma json_limits_of (d : list (string * Q)) :
  json_limits (map (fun kv => (fst kv, JNum (snd kv))) d) = Some d.
Proof.
  induction d as [|[k q] d IH]; [reflexivity|].
  cbn [map json_limits fst snd]. now rewrite IH.
Qed.

(** X22.  The settings survive a restart and the ledger does not: a
    tracker created when [categories.json] and [budget_settings.json]
    hold what [save_categories] and [save_budget_settings] wrote for a
    tracker has the categories and the three kinds of budget limits of
    that tracker, and an empty ledger.  Without the files, or with files
    that cannot be read, it has the defaults. *)
Theorem settings_survive_restart :
  forall self,
    new_tracker (Content (save_categories self))
                (Content (save_budget_settings self))
    = Some (mkTracker [] (income_categories self) (expense_categories self)
                      (budget_limits self) (monthly_budget_limit self)
                      (weekly_budget_limit self))
    /\ new_tracker NoSuchFile NoSuchFile = Some init
    /\ new_tracker Unreadable Unreadable = Some init.
Proof.
  intros self. split; [|split; reflexivity].
  unfold new_tracker, load_categories, save_categories.
  cbn [dict_get String.eqb Ascii.eqb Bool.eqb json_string_list].
  rewrite !json_strings_of.
  unfold load_budget_settings, save_budget_settings.
  cbn [dict_get String.eqb Ascii.eqb Bool.eqb category_limits_of_json].
  rewrite json_limits_of.
  destruct (monthly_budget_limit self), (weekly_budget_limit self);
    reflexivity.
Qed.

(** X23.  The two settings files treat a missing name differently.  A
    categories document without a list keeps the list the tracker has; a
    budget document without a limit clears the limit the tracker has (and
    without the category limits, clears those).  Neither loader, whatever
    the file and whatever it returns, touches the ledger. *)
Theorem settings_documents_with_missing_names :
  forall self m,
    (forall self',
        load_categories self (Content (JObj m)) = Some (true, self') ->
        (dict_get "income_categories" m = None ->
         income_categories self' = income_categories self)
        /\ (dict_get "expense_categories" m = None ->
            expense_categories self' = expense_categories self))
    /\ (forall self',
           load_budget_settings self (Content (JObj m)) = Some (true, self') ->
           (dict_get "monthly_budget_limit" m = None ->
            monthly_budget_limit self' = None)
           /\ (dict_get "weekly_budget_limit" m = None ->
               weekly_budget_limit self' = None)
           /\ (dict_get "category_limits" m = None ->
               budget_limits self' = [])
           /\ transactions self' = transactions self)
    /\ (forall f ok self',
           load_categories self f = Some (ok, self') ->
           transactions self' = transactions self)
    /\ (forall f ok self',
           load_budget_settings self f = Some (ok, self') ->
           transactions self' = transactions self).
Proof.
  intros self m. split; [|split; [|split]].
  - intros self'. unfold load_categories.
    destruct (dict_get "income_categories" m) as [vi|];
      destruct (dict_get "expense_categories" m) as [ve|];
      repeat match goal with
             | |- context [json_string_list ?v] =>
                 destruct (json_string_list v); try discriminate
             end;
      intros [= <-]; split; intros H; try discriminate; reflexivity.
  - intros self'. unfold load_budget_settings.
    destruct (limit_of_json (dict_get "monthly_budget_limit" m)) as [mo|] eqn:Em;
      [|discriminate].
    destruct (limit_of_json (dict_get "weekly_budget_limit" m)) as [we|] eqn:Ew;
      [|discriminate].
    destruct (category_limits_of_json (dict_get "category_limits" m))
      as [li|] eqn:El; [|discriminate].
    intros [= <-]. cbn.
    repeat split; intros H; rewrite H in *; cbn in *; congruence.
  - intros f ok self'. unfold load_categories.
    destruct f as [| |data]; try (now intros [= _ <-]).
    destruct data as [| | | |l|d]; try (now intros [= _ <-]).
    + destruct (_ || _); now intros [= _ <-].
    + destruct (_ || _); now intros [= _ <-].
    + destruct (dict_get "income_categories" d) as [vi|];
        destruct (dict_get "expense_categories" d) as [ve|];
        repeat match goal with
               | |- context [json_string_list ?v] =>
                   destruct (json_string_list v); try discriminate
               end;
        now intros [= _ <-].
  - intros f ok self'. unfold load_budget_settings.
    destruct f as [| |data]; try (now intros [= _ <-]).
    destruct data as [| | | |l|d]; try (now intros [= _ <-]);
      repeat match goal with
             | |- context [match ?x with _ => _ end] =>
                 destruct x; try discriminate
             end;
      try (now intros [= _ <-]).
Qed.

Lemma settings_documents_with_missing_names_witness :
  load_budget_settings (food_with_monthly_limit 800)
    (Content (JObj [("weekly_budget_limit", JNum 250)]))
  = Some (true, set_weekly_budget
                  (ledger_of_one 800 "Food" "Expense" "2024-05-10") 250)
  /\ monthly_budget_limit (food_with_monthly_limit 800) = Some 1000%Q
  /\ monthly_budget_limit
       (set_weekly_budget
          (ledger_of_one 800 "Food" "Expense" "2024-05-10") 250) = None.
Proof.
  assert (H : load_budget_settings (food_with_monthly_limit 800)
                (Content (JObj [("weekly_budget_limit", JNum 250)]))
              = Some (true, set_weekly_budget
                              (ledger_of_one 800 "Food" "Expense" "2024-05-10")
                              250)) by reflexivity.
  destruct (settings_documents_with_missing_names
              (food_with_monthly_limit 800)
              [("weekly_budget_limit", JNum 250)]) as [_ [Hb _]].
  destruct (Hb _ H) as [Hm _].
  exact (conj H (conj eq_refl (Hm eq_refl))).
Defined.

(** ** The primary currency *)

Lemma get_count_set (c k : string) (v : Z) (d : list (string * Z)) :
  get_count c (dict_set k v d) = if String.eqb k c then v else get_count c d.
Proof.
  unfold get_count. destruct (String.eqb_spec k c) as [E|E].
  - subst. now rewrite dict_get_set_same.
  - rewrite dict_get_set_other; [reflexivity | congruence].
Qed.

Lemma count_currencies_app (l1 l2 : list Transaction) :
  forall counts,
    count_currencies (l1 ++ l2) counts
    = count_currencies l2 (count_currencies l1 counts).
Proof.
  induction l1 as [|t l1 IH]; intros counts; [reflexivity|].
  cbn [app count_currencies]. apply IH.
Qed.

Lemma count_currencies_counts (l : list Transaction) :
  forall counts c,
    get_count c (count_currencies l counts) = get_count c counts + uses c l.
Proof.
  unfold uses. induction l as [|t l IH]; intros counts c.
  - cbn. lia.
  - cbn [count_currencies filter]. rewrite IH, get_count_set.
    destruct (String.eqb_spec (tx_currency t) c) as [E|E].
    + subst c. cbn [List.length]. lia.
    + lia.
Qed.

Lemma count_currencies_keys (l : list Transaction) :
  forall counts,
    NoDup (map fst counts) ->
    exists extra,
      map fst (count_currencies l counts) = (map fst counts ++ extra)%list
      /\ NoDup (map fst counts ++ extra)
      /\ (forall k, In k extra -> In k (map tx_currency l))
      /\ (forall k, In k (map tx_currency l) ->
                    In k (map fst counts ++ extra)).
Proof.
  induction l as [|t l IH]; intros counts Hnd.
  - exists []. rewrite app_nil_r. repeat split; trivial; intros k [].
  - cbn [count_currencies map].
    set (cur := tx_currency t).
    set (counts' := dict_set cur (get_count cur counts + 1) counts).
    assert (Hk : map fst counts'
                 = match dict_get cur counts with
                   | Some _ => map fst counts
                   | None => (map fst counts ++ [cur])%list
                   end) by apply dict_set_keys.
    assert (Hnd' : NoDup (map fst counts')).
    { rewrite Hk. destruct (dict_get cur counts) eqn:E; [exact Hnd|].
      apply dict_get_none_keys in E.
      apply NoDup_app; [exact Hnd | repeat constructor; simpl; tauto |].
      intros x Hx [<- | []]. contradiction. }
    destruct (IH counts' Hnd') as [extra [H1 [H2 [H3 H4]]]].
    rewrite Hk in H1, H2, H4.
    destruct (dict_get cur counts) eqn:E.
    + exists extra. rewrite H1. repeat split; trivial.
      * intros k Hkin. right. now apply H3.
      * intros k [<- | Hkin]; [|now apply H4].
        apply in_or_app. left.
        destruct (in_dec string_dec cur (map fst counts)) as [Hin|Hin];
          [exact Hin|].
        apply dict_get_none_keys in Hin. fold cur in Hin. congruence.
    + exists (cur :: extra). rewrite H1, <- app_assoc in *. cbn [app] in *.
      repeat split; trivial.
      * intros k [<- | Hkin]; [now left | right; now apply H3].
      * intros k [<- | Hkin]; [|now apply H4].
        apply in_or_app. right. now left.
Qed.

Lemma max_key_split (d : list (string * Z)) :
  forall P best bn M,
    Forall (fun kv => snd kv < bn) P ->
    Forall (fun kv => snd kv <= bn) M ->
    exists D1 n D2,
      (P ++ (best, bn) :: M ++ d = D1 ++ (max_key best bn d, n) :: D2)%list
      /\ Forall (fun kv => snd kv < n) D1
      /\ Forall (fun kv => snd kv <= n) D2.
Proof.
  induction d as [|[k n'] d IH]; intros P best bn M HP HM.
  - exists P, bn, M. rewrite app_nil_r. cbn [max_key]. auto.
  - cbn [max_key]. destruct (Z.ltb_spec bn n') as [Hlt|Hge].
    + destruct (IH (P ++ (best, bn) :: M)%list k n' [])
        as [D1 [n [D2 [E [H1 H2]]]]].
      * apply Forall_app. split.
        -- eapply Forall_impl; [|exact HP]. cbn beta. lia.
        -- constructor; [cbn; lia|].
           eapply Forall_impl; [|exact HM]. cbn beta. lia.
      * constructor.
      * exists D1, n, D2. split; [|auto].
        rewrite <- E, <- app_assoc. reflexivity.
    + destruct (IH P best bn (M ++ [(k, n')])%list)
        as [D1 [n [D2 [E [H1 H2]]]]]; [exact HP | |].
      * apply Forall_app. split; [exact HM|]. constructor; [cbn; lia|].
        constructor.
      * exists D1, n, D2. split; [|auto].
        rewrite <- E, <- app_assoc. reflexivity.
Qed.

Lemma dict_get_In (k : string) (v : Z) (d : list (string * Z)) :
  NoDup (map fst d) -> In (k, v) d -> dict_get k d = Some v.
Proof.
  induction d as [|[k' v'] d IH]; cbn [map fst dict_get]; intros Hnd Hin;
    [destruct Hin|].
  inversion Hnd as [|x l Hx Hl]; subst.
  destruct Hin as [[= -> ->] | Hin].
  - now rewrite String.eqb_refl.
  - destruct (String.eqb_spec k' k) as [E|E]; [|now apply IH].
    subst k'. exfalso. apply Hx. apply in_map_iff. now exists (k, v).
Qed.

Lemma split_unique (r : string) (a a' b b' : list string) :
  ~ In r a -> ~ In r a' ->
  (a ++ r :: b = a' ++ r :: b')%list -> a = a'.
Proof.
  revert a'. induction a as [|x a IH]; intros a' Ha Ha' E.
  - destruct a' as [|y a']; [reflexivity|].
    cbn in E. injection E as -> _. exfalso. apply Ha'. now left.
  - destruct a' as [|y a'].
    + cbn in E. injection E as -> _. exfalso. apply Ha. now left.
    + cbn in E. injection E as -> E. f_equal.
      apply (IH a'); [| | exact E]; intros H; [apply Ha | apply Ha'];
        now right.
Qed.

(** X24.  [get_primary_currency] answers USD on an empty ledger.
    Otherwise it answers a currency of the ledger that no other currency
    beats in number of transactions; and among several currencies with
    that largest number it answers the one that appears first in the
    ledger: every currency seen before the first transaction in the
    answered currency has strictly fewer transactions. *)
Theorem primary_currency_is_most_used :
  forall self,
    (transactions self = [] -> get_primary_currency self = "USD")
    /\ (transactions self <> [] ->
        let r := get_primary_currency self in
        (exists t, In t (transactions self) /\ tx_currency t = r)
        /\ (forall c, uses c (transactions self) <= uses r (transactions self))
        /\ (forall l1 t l2 x,
               transactions self = (l1 ++ t :: l2)%list ->
               tx_currency t = r ->
               (forall y, In y l1 -> tx_currency y <> r) ->
               In x l1 ->
               uses (tx_currency x) (transactions self)
               < uses r (transactions self))).
Proof.
  intros self. unfold get_primary_currency. split.
  - now intros ->.
  - intros Hne. destruct (transactions self) as [|t0 l0] eqn:El;
      [congruence|]. rewrite <- El. clear Hne.
    set (l := transactions self) in *.
    assert (Hcount : forall c, get_count c (count_currencies l []) = uses c l).
    { intros c. rewrite count_currencies_counts. reflexivity. }
    destruct (count_currencies_keys l [] (NoDup_nil _))
      as [keys [Hkeys [Hnd [Hsub Hsup]]]].
    cbn [map app] in Hkeys, Hnd, Hsup. rewrite <- Hkeys in Hnd.
    destruct (count_currencies l []) as [|[k0 n0] d] eqn:Ed.
    { exfalso. cbn in Hkeys. subst keys.
      apply (Hsup (tx_currency t0)). rewrite El. now left. }
    destruct (max_key_split d [] k0 n0 [] (Forall_nil _) (Forall_nil _))
      as [D1 [n [D2 [E [H1 H2]]]]].
    cbn [app] in E. set (r := max_key k0 n0 d) in *.
    assert (Hval : forall k v, In (k, v) ((k0, n0) :: d) -> uses k l = v).
    { intros k v Hin. rewrite <- Hcount. unfold get_count.
      now rewrite (dict_get_In k v _ Hnd Hin). }
    assert (Hr : In (r, n) ((k0, n0) :: d))
      by (rewrite E; apply in_or_app; right; now left).
    assert (Hn : uses r l = n) by exact (Hval _ _ Hr).
    assert (Hrk : In r (map tx_currency l)).
    { apply Hsub. rewrite <- Hkeys. apply in_map_iff. now exists (r, n). }
    split; [|split].
    + apply in_map_iff in Hrk. destruct Hrk as [t [Et Ht]]. now exists t.
    + intros c. rewrite Hn.
      destruct (dict_get c ((k0, n0) :: d)) as [v|] eqn:Ec.
      * assert (Hv : uses c l = v).
        { rewrite <- Hcount. unfold get_count. now rewrite Ec. }
        rewrite Hv.
        assert (Hin : In (c, v) ((k0, n0) :: d)).
        { clear - Ec. revert Ec. generalize ((k0, n0) :: d).
          induction l as [|[k' v'] l IH]; cbn [dict_get]; [discriminate|].
          destruct (String.eqb_spec k' c) as [-> | Hne].
          - intros [= ->]. now left.
          - intros H. right. now apply IH. }
        rewrite E in Hin. apply in_app_or in Hin.
        destruct Hin as [Hin | [[= _ <-] | Hin]].
        -- rewrite Forall_forall in H1. specialize (H1 _ Hin). cbn in H1. lia.
        -- lia.
        -- rewrite Forall_forall in H2. specialize (H2 _ Hin). cbn in H2. lia.
      * assert (Hv : uses c l = 0).
        { rewrite <- Hcount. unfold get_count. now rewrite Ec. }
        rewrite Hv, <- Hn. unfold uses. lia.
    + intros l1 t l2 x Hl Et Hfirst Hx. rewrite Hn.
      (* the keys after the first part of the ledger *)
      destruct (count_currencies_keys l1 [] (NoDup_nil _))
        as [K1 [HK1 [_ [HK1sub HK1sup]]]].
      cbn [map app] in HK1, HK1sup.
      assert (Hr1 : ~ In r K1).
      { intros Hin. apply HK1sub in Hin. apply in_map_iff in Hin.
        destruct Hin as [y [Ey Hy]]. exact (Hfirst y Hy Ey). }
      assert (Hk1 : NoDup (map fst (count_currencies (l1 ++ [t]) []))
                    /\ map fst (count_currencies (l1 ++ [t]) [])
                       = (K1 ++ [r])%list).
      { rewrite count_currencies_app. cbn [count_currencies].
        rewrite Et, dict_set_keys, HK1.
        assert (Hnone : dict_get r (count_currencies l1 []) = None).
        { apply dict_get_none_keys. now rewrite HK1. }
        rewrite Hnone. split; [|reflexivity].
        destruct (count_currencies_keys (l1 ++ [t]) [] (NoDup_nil _))
          as [K [HK [HKnd _]]].
        cbn [map app] in HK, HKnd. clear - HK HKnd HK1 Hnone Et.
        rewrite count_currencies_app in HK. cbn [count_currencies] in HK.
        rewrite Et, dict_set_keys, Hnone, HK1 in HK. now rewrite HK. }
      destruct Hk1 as [Hnd1 Hk1].
      destruct (count_currencies_keys l2 _ Hnd1)
        as [extra [Hk2 _]].
      rewrite <- count_currencies_app, <- app_assoc in Hk2.
      cbn [app] in Hk2. fold l in Hl. rewrite <- Hl, Ed, Hk1 in Hk2.
      rewrite E, map_app in Hk2. cbn [map fst] in Hk2.
      rewrite <- app_assoc in Hk2. cbn [app] in Hk2.
      assert (HD1 : ~ In r (map fst D1)).
      { rewrite E, map_app in Hnd. cbn [map fst] in Hnd.
        apply NoDup_remove_2 in Hnd. intros Hin. apply Hnd.
        apply in_or_app. now left. }
      pose proof (split_unique r _ _ _ _ HD1 Hr1 Hk2) as HK.
      assert (Hc : In (tx_currency x) (map fst D1)).
      { rewrite HK. apply HK1sup. apply in_map. exact Hx. }
      apply in_map_iff in Hc. destruct Hc as [[c v] [Ec Hin]].
      cbn in Ec. subst c.
      assert (Hv : uses (tx_currency x) l = v).
      { apply Hval. rewrite E. apply in_or_app. now left. }
      rewrite Hv. rewrite Forall_forall in H1. exact (H1 _ Hin).
Qed.

Lemma primary_currency_is_most_used_witness :
  transactions euro_dollar_tie <> []
  /\ get_primary_currency euro_dollar_tie = "EUR"
  /\ forall c, uses c (transactions euro_dollar_tie)
               <= uses "EUR" (transactions euro_dollar_tie).
Proof.
  assert (H : transactions euro_dollar_tie <> []) by discriminate.
  split; [exact H|]. split; [reflexivity|].
  exact (proj1 (proj2 (proj2 (primary_currency_is_most_used euro_dollar_tie)
                         H))).
Defined.

(** ** The CSV round trip *)

Lemma append_assoc (a b c : string) : (a ++ b) ++ c = a ++ (b ++ c).
Proof. induction a as [|x a IH]; [reflexivity|]. cbn. now rewrite IH. Qed.

Lemma process_chars_app (a b : string) :
  forall p,
    Csv.process_chars p (a ++ b)
    = (q <- Csv.process_chars p a ;; Csv.process_chars q b).
Proof.
  induction a as [|c a IH]; intros p; [reflexivity|].
  cbn [append Csv.process_chars].
  destruct (Csv.process_char p c); cbn [bind]; [apply IH | reflexivity].
Qed.

Lemma started_app (cur : string) (c : ascii) :
  started (cur ++ String c EmptyString) = true.
Proof. now destruct cur. Qed.

Lemma scan_sound (s : string) :
  forall p cur q rs,
    Csv.process_chars p cur = Ok q ->
    scan q (started cur) s = Ok rs ->
    Csv.records p (Csv.lines_from cur s) = Ok rs.
Proof.
  induction s as [|c r IH]; intros p cur q rs Hq Hs.
  - destruct cur as [|a cur].
    + cbn in Hq. injection Hq as ->. exact Hs.
    + cbn [Csv.lines_from Csv.records]. unfold Csv.process_line.
      rewrite Hq. cbn [bind]. exact Hs.
  - cbn [Csv.lines_from scan] in *.
    destruct (Csv.process_char q c) as [q'|e] eqn:Ec; cbn [bind] in Hs;
      [|discriminate].
    destruct (Ascii.eqb c PyStr.LF) eqn:El.
    + cbn [Csv.records]. unfold Csv.process_line.
      rewrite process_chars_app, Hq. cbn [bind Csv.process_chars].
      rewrite Ec. cbn [bind].
      destruct (Csv.state_eqb (Csv.st (Csv.process_eol q')) Csv.START_RECORD).
      * destruct (scan Csv.parse_reset false r) as [rs'|e] eqn:E2;
          cbn [bind] in Hs; [|discriminate].
        rewrite (IH Csv.parse_reset EmptyString Csv.parse_reset rs'
                    eq_refl E2).
        exact Hs.
      * exact (IH _ EmptyString _ rs eq_refl Hs).
    + apply (IH p _ q').
      * rewrite process_chars_app, Hq. cbn [bind Csv.process_chars].
        now rewrite Ec.
      * now rewrite started_app.
Qed.

Lemma string_of_rev_rev (f : string) :
  Csv.string_of_rev (rev (list_ascii_of_string f)) = f.
Proof.
  unfold Csv.string_of_rev.
  rewrite <- (fold_left_rev_right (fun c s => String c s)).
  rewrite rev_involutive.
  induction f as [|c f IH]; [reflexivity|]. cbn. now rewrite IH.
Qed.

Lemma special_false (c : ascii) :
  Csv.special c = false ->
  Ascii.eqb c "," = false /\ Ascii.eqb c PyStr.quote = false
  /\ Ascii.eqb c PyStr.CR = false /\ Ascii.eqb c PyStr.LF = false.
Proof.
  unfold Csv.special. intros H.
  apply orb_false_iff in H. destruct H as [H H4].
  apply orb_false_iff in H. destruct H as [H H3].
  apply orb_false_iff in H. destruct H as [H1 H2]. auto.
Qed.

Lemma add_char_ok (s0 s1 : Csv.state) (acc : list ascii) (n : N)
  (fs : list string) (c : ascii) :
  (n < Csv.field_limit)%N ->
  Csv.parse_add_char (Csv.mkparser s0 acc n fs) s1 c
  = Ok (Csv.mkparser s1 (c :: acc) (n + 1) fs).
Proof.
  intros H. unfold Csv.parse_add_char. cbn [Csv.field_len Csv.field Csv.fields].
  destruct (N.leb_spec Csv.field_limit n); [lia | reflexivity].
Qed.

Lemma close_comma (fs : list string) (r : string) :
  close fs "," r = scan (Csv.mkparser Csv.START_FIELD [] 0 fs) true r.
Proof. reflexivity. Qed.

Lemma close_lf (fs : list string) (r : string) :
  close fs PyStr.LF r
  = (rs <- scan Csv.parse_reset false r ;; Ok (rev fs :: rs)).
Proof. reflexivity. Qed.

Lemma in_field (f : string) :
  forall acc n fs b t r,
    t = ","%char \/ t = PyStr.LF ->
    Csv.any_char Csv.special f = false ->
    (n + N.of_nat (String.length f) <= Csv.field_limit)%N ->
    scan (Csv.mkparser Csv.IN_FIELD acc n fs) b (f ++ String t r)
    = close (Csv.string_of_rev (rev (list_ascii_of_string f) ++ acc) :: fs)
            t r.
Proof.
  induction f as [|c f IH]; intros acc n fs b t r Ht Hf Hn.
  - cbn [append list_ascii_of_string rev app].
    destruct Ht as [-> | ->]; reflexivity.
  - cbn [Csv.any_char] in Hf. apply orb_false_iff in Hf.
    destruct Hf as [Hc Hf].
    destruct (special_false c Hc) as [H1 [H2 [H3 H4]]].
    cbn [append scan]. unfold Csv.process_char. cbn [Csv.st].
    unfold Csv.is_newline. rewrite H4, H3, H1. cbn [orb].
    cbn [String.length] in Hn.
    rewrite add_char_ok by lia. cbn [bind].
    rewrite IH; [|exact Ht | exact Hf | lia].
    cbn [list_ascii_of_string rev]. now rewrite <- app_assoc.
Qed.

Lemma in_quoted (f : string) :
  forall acc n fs b t r,
    t = ","%char \/ t = PyStr.LF ->
    (n + N.of_nat (String.length f) <= Csv.field_limit)%N ->
    scan (Csv.mkparser Csv.IN_QUOTED_FIELD acc n fs) b
         (Csv.double_quotes f ++ String PyStr.quote (String t r))
    = close (Csv.string_of_rev (rev (list_ascii_of_string f) ++ acc) :: fs)
            t r.
Proof.
  induction f as [|c f IH]; intros acc n fs b t r Ht Hn.
  - cbn [append list_ascii_of_string rev app Csv.double_quotes].
    destruct Ht as [-> | ->]; reflexivity.
  - cbn [Csv.double_quotes String.length] in *.
    assert (Hr : Csv.string_of_rev (rev (list_ascii_of_string f) ++ c :: acc)
                 = Csv.string_of_rev
                     (rev (list_ascii_of_string (String c f)) ++ acc)).
    { cbn [list_ascii_of_string rev]. now rewrite <- app_assoc. }
    destruct (Ascii.eqb c PyStr.quote) eqn:Eq.
    + apply Ascii.eqb_eq in Eq. subst c.
      cbn [append scan]. unfold Csv.process_char at 1. cbn [Csv.st].
      replace (Ascii.eqb PyStr.quote PyStr.quote) with true by reflexivity.
      cbn [bind]. replace (Ascii.eqb PyStr.quote PyStr.LF) with false
        by reflexivity.
      unfold Csv.set_state. cbn [Csv.field Csv.field_len Csv.fields scan].
      unfold Csv.process_char at 1. cbn [Csv.st].
      replace (Ascii.eqb PyStr.quote PyStr.quote) with true by reflexivity.
      rewrite add_char_ok by lia. cbn [bind].
      replace (Ascii.eqb PyStr.quote PyStr.LF) with false by reflexivity.
      rewrite IH; [|exact Ht | lia]. now rewrite Hr.
    + cbn [append scan]. unfold Csv.process_char at 1. cbn [Csv.st].
      rewrite Eq, add_char_ok by lia. cbn [bind].
      destruct (Ascii.eqb c PyStr.LF) eqn:El.
      * cbn [Csv.process_eol Csv.st Csv.state_eqb].
        rewrite IH; [|exact Ht | lia]. now rewrite Hr.
      * rewrite IH; [|exact Ht | lia]. now rewrite Hr.
Qed.

Lemma start_field_reads (f : string) :
  forall s0 fs b t r,
    s0 = Csv.START_FIELD \/ (s0 = Csv.START_RECORD /\ t = ","%char) ->
    t = ","%char \/ t = PyStr.LF ->
    fits f ->
    scan (Csv.mkparser s0 [] 0 fs) b (Csv.write_field f ++ String t r)
    = close (f :: fs) t r.
Proof.
  intros s0 fs b t r Hs Ht Hf. unfold fits in Hf. unfold Csv.write_field.
  destruct (Csv.any_char Csv.special f) eqn:Esp.
  - cbn [append scan]. rewrite append_assoc. cbn [append].
    assert (E : Csv.process_char (Csv.mkparser s0 [] 0 fs) PyStr.quote
                = Ok (Csv.mkparser Csv.IN_QUOTED_FIELD [] 0 fs)).
    { destruct Hs as [-> | [-> _]]; reflexivity. }
    rewrite E. cbn [bind].
    replace (Ascii.eqb PyStr.quote PyStr.LF) with false by reflexivity.
    rewrite in_quoted; [|exact Ht | lia].
    now rewrite app_nil_r, string_of_rev_rev.
  - destruct f as [|c f].
    + cbn [append]. destruct Hs as [-> | [-> ->]].
      * destruct Ht as [-> | ->]; reflexivity.
      * reflexivity.
    + cbn [Csv.any_char] in Esp. apply orb_false_iff in Esp.
      destruct Esp as [Hc Hsp].
      destruct (special_false c Hc) as [H1 [H2 [H3 H4]]].
      cbn [String.length] in Hf.
      assert (E : Csv.process_char (Csv.mkparser s0 [] 0 fs) c
                  = Ok (Csv.mkparser Csv.IN_FIELD [c] 1 fs)).
      { assert (E0 : Csv.start_field (Csv.mkparser s0 [] 0 fs) c
                     = Ok (Csv.mkparser Csv.IN_FIELD [c] 1 fs)).
        { unfold Csv.start_field, Csv.is_newline. rewrite H4, H3, H2, H1.
          cbn [orb]. now rewrite add_char_ok by (unfold Csv.field_limit; lia). }
        destruct Hs as [-> | [-> _]]; unfold Csv.process_char; cbn [Csv.st];
          [exact E0|].
        unfold Csv.is_newline. rewrite H4, H3. cbn [orb]. exact E0. }
      cbn [append scan]. rewrite E. cbn [bind]. rewrite H4.
      rewrite in_field; [|exact Ht | exact Hsp | lia].
      f_equal. f_equal.
      change (rev (list_ascii_of_string f) ++ [c])%list
        with (rev (list_ascii_of_string (String c f))).
      apply string_of_rev_rev.
Qed.

Lemma concat_cons2 (sep x y : string) (l : list string) :
  String.concat sep (x :: y :: l) = x ++ sep ++ String.concat sep (y :: l).
Proof. reflexivity. Qed.

Lemma scan_fields (l : list string) :
  forall f fs b r,
    Forall fits (f :: l) ->
    scan (Csv.mkparser Csv.START_FIELD [] 0 fs) b
         (String.concat "," (map Csv.write_field (f :: l))
          ++ String PyStr.LF r)
    = (rs <- scan Csv.parse_reset false r ;; Ok ((rev fs ++ f :: l)%list :: rs)).
Proof.
  induction l as [|g l IH]; intros f fs b r Hf.
  - cbn [map String.concat].
    rewrite start_field_reads;
      [| now left | now right | now inversion Hf].
    reflexivity.
  - cbn [map]. rewrite concat_cons2, !append_assoc. cbn [append].
    rewrite start_field_reads; [| now left | now left | now inversion Hf].
    rewrite close_comma.
    change (Csv.write_field g :: map Csv.write_field l)
      with (map Csv.write_field (g :: l)).
    rewrite IH by (now inversion Hf).
    cbn [rev]. now rewrite <- app_assoc.
Qed.

Lemma scan_row (f g : string) (l : list string) (b : bool) (r : string) :
  Forall fits (f :: g :: l) ->
  scan Csv.parse_reset b
       (String.concat "," (map Csv.write_field (f :: g :: l))
        ++ String PyStr.LF r)
  = (rs <- scan Csv.parse_reset false r ;; Ok ((f :: g :: l) :: rs)).
Proof.
  intros Hf. cbn [map]. rewrite concat_cons2, !append_assoc. cbn [append].
  unfold Csv.parse_reset at 1.
  rewrite start_field_reads; [| right; now split | now left | now inversion Hf].
  rewrite close_comma.
  change (Csv.write_field g :: map Csv.write_field l)
    with (map Csv.write_field (g :: l)).
  rewrite scan_fields by (now inversion Hf). reflexivity.
Qed.

Lemma any_char_app (p : ascii -> bool) (a b : string) :
  Csv.any_char p (a ++ b) = Csv.any_char p a || Csv.any_char p b.
Proof.
  induction a as [|c a IH]; [reflexivity|].
  cbn [append Csv.any_char]. now rewrite IH, orb_assoc.
Qed.

Lemma no_return_app (a b : string) :
  no_return a -> no_return b -> no_return (a ++ b).
Proof.
  unfold no_return. intros Ha Hb. now rewrite any_char_app, Ha, Hb.
Qed.

Lemma no_return_double_quotes (s : string) :
  no_return s -> no_return (Csv.double_quotes s).
Proof.
  unfold no_return. induction s as [|c s IH]; [trivial|].
  cbn [Csv.any_char Csv.double_quotes]. intros H.
  apply orb_false_iff in H. destruct H as [Hc Hs].
  destruct (Ascii.eqb c PyStr.quote) eqn:E.
  - cbn [Csv.any_char]. now rewrite (IH Hs).
  - cbn [Csv.any_char]. now rewrite Hc, (IH Hs).
Qed.

Lemma no_return_write_field (s : string) :
  no_return s -> no_return (Csv.write_field s).
Proof.
  intros H. unfold Csv.write_field.
  destruct (Csv.any_char Csv.special s); [|exact H].
  change (no_return (String PyStr.quote EmptyString
                     ++ (Csv.double_quotes s ++ String PyStr.quote EmptyString))).
  apply no_return_app; [reflexivity|].
  apply no_return_app; [now apply no_return_double_quotes | reflexivity].
Qed.

Lemma no_return_concat (l : list string) :
  Forall no_return l ->
  no_return (String.concat "," (map Csv.write_field l)).
Proof.
  induction l as [|x l IH]; intros H; [reflexivity|].
  inversion H as [|? ? Hx Hl]; subst.
  destruct l as [|y l]; [now apply no_return_write_field|].
  cbn [map]. rewrite concat_cons2.
  apply no_return_app; [now apply no_return_write_field|].
  apply no_return_app; [reflexivity | exact (IH Hl)].
Qed.

Lemma universal_newlines_line (a b : string) :
  no_return a ->
  Csv.universal_newlines (a ++ Csv.CRLF ++ b)
  = a ++ String PyStr.LF (Csv.universal_newlines b).
Proof.
  unfold no_return. induction a as [|c a IH]; intros H.
  - reflexivity.
  - cbn [Csv.any_char] in H. apply orb_false_iff in H. destruct H as [Hc Ha].
    cbn [append Csv.universal_newlines]. rewrite Hc. now rewrite (IH Ha).
Qed.

Lemma writerow_many (f g : string) (l : list string) :
  Csv.writerow (f :: g :: l)
  = String.concat "," (map Csv.write_field (f :: g :: l)) ++ Csv.CRLF.
Proof. now destruct f. Qed.

Lemma scan_written (rows : list (list string)) :
  Forall plain_record rows ->
  scan Csv.parse_reset false
       (Csv.universal_newlines (String.concat "" (map Csv.writerow rows)))
  = Ok rows.
Proof.
  induction rows as [|row rows IH]; intros H; [reflexivity|].
  inversion H as [|? ? [Hlen [Hnr Hfit]] Hrows]; subst.
  destruct row as [|f [|g l]]; cbn [List.length] in Hlen; try lia.
  assert (E : String.concat "" (map Csv.writerow ((f :: g :: l) :: rows))
              = Csv.writerow (f :: g :: l)
                ++ String.concat "" (map Csv.writerow rows)).
  { cbn [map]. destruct rows as [|row' rows'].
    - cbn [map String.concat]. clear. generalize (Csv.writerow (f :: g :: l)).
      intros s. induction s as [|c s IHs]; [reflexivity|].
      cbn [append]. now rewrite <- IHs.
    - reflexivity. }
  rewrite E, writerow_many, append_assoc.
  rewrite universal_newlines_line by (now apply no_return_concat).
  rewrite scan_row by exact Hfit.
  now rewrite (IH Hrows).
Qed.

Lemma reader_written (rows : list (list string)) :
  Forall plain_record rows ->
  Csv.reader
    (Csv.file_lines
       (Csv.universal_newlines (String.concat "" (map Csv.writerow rows))))
  = Ok rows.
Proof.
  intros H. unfold Csv.reader, Csv.file_lines.
  apply (scan_sound _ Csv.parse_reset EmptyString Csv.parse_reset rows
           eq_refl).
  now apply scan_written.
Qed.

(** The digits and the point of a number hold no carriage return. *)
Lemma no_return_uint (d : Decimal.uint) :
  no_return (NilEmpty.string_of_uint d).
Proof.
  unfold no_return.
  induction d as [|d IH|d IH|d IH|d IH|d IH|d IH|d IH|d IH|d IH|d IH];
    cbn [NilEmpty.string_of_uint Csv.any_char]; [reflexivity|..];
    now rewrite IH.
Qed.

Lemma no_return_of_N (n : N) : no_return (PyStr.of_N n).
Proof.
  unfold PyStr.of_N, NilZero.string_of_uint.
  destruct (N.to_uint n) eqn:E; try (rewrite <- E; apply no_return_uint);
    reflexivity.
Qed.

Lemma no_return_frac_digits (fuel : nat) :
  forall num den, no_return (PyFloat.frac_digits fuel num den).
Proof.
  induction fuel as [|fuel IH]; intros num den; [reflexivity|].
  cbn [PyFloat.frac_digits]. destruct (num =? 0); [reflexivity|].
  apply no_return_app; [apply no_return_of_N | apply IH].
Qed.

Lemma no_return_repr (x : Q) : no_return (PyFloat.repr x).
Proof.
  unfold PyFloat.repr.
  apply no_return_app; [destruct (PyFloat.Qlt_bool x 0); reflexivity|].
  apply no_return_app; [apply no_return_of_N|].
  apply no_return_app; [reflexivity|].
  destruct (String.eqb _ _); [reflexivity | apply no_return_frac_digits].
Qed.

Lemma csv_safe_plain (t : Transaction) :
  csv_safe t -> plain_record (csv_row_of t).
Proof.
  intros [H1 [H2 [H3 [H4 [Hf _]]]]]. split; [cbn; lia|]. split; [|exact Hf].
  unfold csv_row_of. repeat constructor; trivial; apply no_return_repr.
Qed.

Lemma header_plain : plain_record csv_fieldnames.
Proof.
  split; [cbn; lia|].
  split; repeat constructor; vm_compute; congruence.
Qed.

Lemma csv_rows_of_transactions (l : list Transaction) :
  forall acc,
    Forall csv_safe l ->
    csv_rows (map (fun t => Csv.zip_row csv_fieldnames (csv_row_of t)) l)
             (Some acc)
    = Ok (Some (acc
                ++ renumber_from (Z.of_nat (List.length acc) + 1) l)%list).
Proof.
  induction l as [|t l IH]; intros acc H.
  - cbn. now rewrite app_nil_r.
  - inversion H as [|? ? Ht Hl]; subst.
    destruct Ht as [_ [_ [_ [_ [_ Ha]]]]].
    cbn [map csv_rows].
    replace (forallb _ required_fields) with true by reflexivity.
    cbn [negb]. unfold csv_transaction.
    replace (cell "amount" (Csv.zip_row csv_fieldnames (csv_row_of t)))
      with (Some (PyFloat.repr (tx_amount t))) by reflexivity.
    cbn [float_of_cell]. unfold float_of_text. rewrite Ha. cbn [bind].
    replace (Csv.get "currency" (Csv.zip_row csv_fieldnames (csv_row_of t)))
      with (Some (Some (tx_currency t))) by reflexivity.
    replace (cell "date" (Csv.zip_row csv_fieldnames (csv_row_of t)))
      with (Some (tx_date t)) by reflexivity.
    replace (cell "category" (Csv.zip_row csv_fieldnames (csv_row_of t)))
      with (Some (tx_category t)) by reflexivity.
    replace (cell "type" (Csv.zip_row csv_fieldnames (csv_row_of t)))
      with (Some (tx_type t)) by reflexivity.
    cbn [mk_loaded loaded_append loaded_len].
    rewrite (IH _ Hl), <- app_assoc, length_app. cbn [List.length app].
    cbn [renumber_from]. repeat f_equal. lia.
Qed.

(** X25.  What [save_to_csv] writes, [load_from_csv] reads back, for a
    ledger without carriage returns: when no date, currency, category or
    type holds a carriage return, every written cell is within the
    reader's field limit of 131072 characters and every amount is read
    back from its text, the import returns [True] and installs the
    transactions of the exported ledger in their order, with all of date,
    amount, currency, category and type, numbered 1, 2, ...  Commas, quote
    characters and line feeds inside the fields come back as they were,
    and the usd_value column is not read. *)
Theorem csv_export_import_round_trip :
  forall self other,
    Forall csv_safe (transactions self) ->
    load_from_csv other (Content (save_to_csv self))
    = Some (true, set_transactions other (renumber (transactions self))).
Proof.
  intros self other H. unfold load_from_csv, save_to_csv.
  assert (E : Csv.writerow csv_fieldnames
              ++ String.concat ""
                   (map (fun t => Csv.writerow (csv_row_of t))
                        (transactions self))
            = String.concat ""
                (map Csv.writerow
                     (csv_fieldnames :: map csv_row_of (transactions self)))).
  { rewrite <- map_map with (g := Csv.writerow) (f := csv_row_of).
    generalize (map csv_row_of (transactions self)). intros rows.
    cbn [map]. destruct rows as [|row rows]; [|reflexivity].
    cbn [map String.concat]. generalize (Csv.writerow csv_fieldnames).
    intros s. induction s as [|c s IHs]; [reflexivity|].
    cbn [append]. now rewrite IHs. }
  rewrite E. unfold Csv.dict_reader. rewrite reader_written.
  - cbn [bind].
    assert (Ef : filter (fun r => negb (Csv.is_empty_record r))
                        (map csv_row_of (transactions self))
                 = map csv_row_of (transactions self)).
    { clear. induction (transactions self) as [|t l IHl]; [reflexivity|].
      cbn [map filter]. unfold csv_row_of at 1.
      cbn [Csv.is_empty_record negb]. now rewrite IHl. }
    rewrite Ef, map_map, (csv_rows_of_transactions _ [] H). reflexivity.
  - constructor; [exact header_plain|].
    apply Forall_map. eapply Forall_impl; [|exact H].
    exact csv_safe_plain.
Qed.

Lemma csv_export_import_round_trip_witness :
  Forall csv_safe (transactions specials_ledger)
  /\ load_from_csv init (Content (save_to_csv specials_ledger))
     = Some (true, specials_ledger).
Proof.
  assert (H : Forall csv_safe (transactions specials_ledger)).
  { repeat constructor; try reflexivity; vm_compute; discriminate. }
  split; [exact H|].
  rewrite (csv_export_import_round_trip specials_ledger init H).
  reflexivity.
Defined.

(** ** [models/budget.py] *)

Lemma fold_left_Qplus (l : list Q) :
  forall a, (fold_left Qplus l a == a + Qsum l)%Q.
Proof.
  induction l as [|x l IH]; intros a.
  - unfold Qsum. simpl. ring.
  - cbn [fold_left]. rewrite IH, Qsum_cons. ring.
Qed.

Lemma Qsum_split (A : Type) (f : A -> Q) (p : A -> bool) (l : list A) :
  (Qsum (map f l)
   == Qsum (map f (filter (fun x => negb (p x)) l))
      + Qsum (map f (filter p l)))%Q.
Proof.
  induction l as [|x l IH]; [unfold Qsum; simpl; ring|].
  cbn [map filter]. destruct (p x); cbn [negb map];
    rewrite !Qsum_cons, IH; ring.
Qed.

(** X26.  In [models/budget.py] the balance is the sum of the recorded
    amounts.  [add_expense] raises it by the amount.  [remove_expense]
    removes every expense recorded under the description, not only one:
    the balance falls by their total, the other expenses stay, and a
    second removal changes nothing.  Adding an expense under a
    description not used so far and removing it again gives back the
    budget. *)
Theorem budget_balance_follows_edits :
  forall self amount descr,
    (get_balance self == Qsum (map expense_amount (expenses self)))%Q
    /\ (get_balance (add_expense self amount descr)
        == get_balance self + amount)%Q
    /\ (get_balance (remove_expense self descr)
        == get_balance self
           - Qsum (map expense_amount (recorded_under descr self)))%Q
    /\ (forall e, In e (expenses (remove_expense self descr))
                  <-> In e (expenses self) /\ description e <> descr)
    /\ remove_expense (remove_expense self descr) descr
       = remove_expense self descr
    /\ ((forall e, In e (expenses self) -> description e <> descr) ->
        remove_expense (add_expense self amount descr) descr = self).
Proof.
  intros self amount descr. unfold get_balance.
  split; [|split; [|split; [|split; [|split]]]].
  - rewrite fold_left_Qplus. ring.
  - rewrite !fold_left_Qplus. unfold add_expense. cbn [expenses].
    rewrite map_app, Qsum_app. cbn [map expense_amount].
    rewrite Qsum_cons. change (Qsum []) with 0%Q. ring.
  - rewrite !fold_left_Qplus. unfold remove_expense, recorded_under.
    cbn [expenses].
    rewrite (Qsum_split _ expense_amount
               (fun expense => String.eqb (description expense) descr)
               (expenses self)).
    ring.
  - intros e. unfold remove_expense. cbn [expenses].
    rewrite filter_In, negb_true_iff.
    split; intros [H1 H2]; (split; [exact H1|]).
    + intros E. apply String.eqb_eq in E. congruence.
    + now apply String.eqb_neq.
  - unfold remove_expense. cbn [expenses]. f_equal.
    induction (expenses self) as [|x l IH]; [reflexivity|].
    cbn [filter].
    destruct (negb (String.eqb (description x) descr)) eqn:E;
      [cbn [filter]; rewrite E; now f_equal | exact IH].
  - intros Hfresh. destruct self as [l]. unfold remove_expense, add_expense.
    cbn [expenses] in *. f_equal. rewrite filter_app.
    cbn [filter description]. rewrite String.eqb_refl. cbn [negb].
    rewrite app_nil_r.
    induction l as [|x l IH]; [reflexivity|].
    cbn [filter].
    assert (Hx : String.eqb (description x) descr = false).
    { apply String.eqb_neq. apply Hfresh. now left. }
    rewrite Hx. cbn [negb]. f_equal. apply IH.
    intros e He. apply Hfresh. now right.
Qed.

Lemma budget_balance_follows_edits_witness :
  (forall e, In e (expenses lunches) -> description e <> "rent")
  /\ remove_expense (add_expense lunches 900 "rent") "rent" = lunches
  /\ (get_balance (remove_expense lunches "lunch") == 40)%Q.
Proof.
  assert (H : forall e, In e (expenses lunches) -> description e <> "rent").
  { intros e [<- | [<- | [<- | []]]]; discriminate. }
  split; [exact H|]. split; [|reflexivity].
  exact (proj2 (proj2 (proj2 (proj2 (proj2
           (budget_balance_follows_edits lunches 900 "rent"))))) H).
Defined.

(** ** Dates written and read; the calendar *)

Lemma append_nil_r (a : string) : a ++ EmptyString = a.
Proof. induction a as [|x a IH]; [reflexivity|]. cbn. now rewrite IH. Qed.

Lemma digits_uint_acc (u : Decimal.uint) :
  forall acc rest,
    PyDate.digits (Decimal.nb_digits u) (Z.pos acc)
                  (NilEmpty.string_of_uint u ++ rest)
    = Some (Z.pos (Pos.of_uint_acc u acc), rest).
Proof.
  induction u as [|u IH|u IH|u IH|u IH|u IH|u IH|u IH|u IH|u IH|u IH];
    intros acc rest; [reflexivity|..];
    cbn [Decimal.nb_digits NilEmpty.string_of_uint append PyDate.digits
         Pos.of_uint_acc];
    (replace (PyStr.is_digit _) with true by reflexivity);
    match goal with
    | |- PyDate.digits _ ?a _ = Some (Z.pos (Pos.of_uint_acc _ ?b), _) =>
        replace a with (Z.pos b)
          by (unfold PyStr.digit_val; cbn [N_of_ascii N_of_digits]; lia)
    end; apply IH.
Qed.

Lemma digits_uint (u : Decimal.uint) :
  forall rest,
    PyDate.digits (Decimal.nb_digits u) 0 (NilEmpty.string_of_uint u ++ rest)
    = Some (Z.of_N (Pos.of_uint u), rest).
Proof.
  induction u as [|u IH|u IH|u IH|u IH|u IH|u IH|u IH|u IH|u IH|u IH];
    intros rest; [reflexivity|..];
    cbn [Decimal.nb_digits NilEmpty.string_of_uint append PyDate.digits
         Pos.of_uint];
    (replace (PyStr.is_digit _) with true by reflexivity);
    [exact (IH rest)|..];
    cbn [Z.of_N];
    match goal with
    | |- PyDate.digits _ ?a _ = Some (Z.pos (Pos.of_uint_acc _ ?b), _) =>
        replace a with (Z.pos b) by reflexivity
    end; apply digits_uint_acc.
Qed.

Lemma of_uint_acc_lower (u : Decimal.uint) :
  forall acc,
    Z.pos acc * 10 ^ Z.of_nat (Decimal.nb_digits u)
    <= Z.pos (Pos.of_uint_acc u acc).
Proof.
  induction u as [|u IH|u IH|u IH|u IH|u IH|u IH|u IH|u IH|u IH|u IH];
    intros acc; cbn [Decimal.nb_digits Pos.of_uint_acc];
    [cbn; lia|..];
    rewrite Nat2Z.inj_succ, Z.pow_succ_r by lia;
    (eapply Z.le_trans; [|apply IH]); nia.
Qed.

Lemma nzhead_not_D0 (u v : Decimal.uint) : Decimal.nzhead u <> Decimal.D0 v.
Proof. induction u; cbn; try discriminate; assumption. Qed.

Lemma to_uint_head (n : N) :
  N.to_uint n = Decimal.D0 Decimal.Nil
  \/ (N.to_uint n <> Decimal.Nil
      /\ forall v, N.to_uint n <> Decimal.D0 v).
Proof.
  destruct n as [|p]; [now left | right].
  cbn [N.to_uint]. split; [apply DecimalPos.Unsigned.to_uint_nonnil|].
  intros v E.
  pose proof (DecimalPos.Unsigned.to_of (Pos.to_uint p)) as H.
  rewrite DecimalPos.Unsigned.of_to in H. cbn [N.to_uint] in H.
  rewrite E in H. unfold Decimal.unorm in H. cbn [Decimal.nzhead] in H.
  destruct (Decimal.nzhead v) eqn:Ev;
    try (symmetry in H; discriminate).
  - injection H as ->. exact (DecimalPos.Unsigned.to_uint_nonzero p E).
  - exact (nzhead_not_D0 v _ (eq_trans Ev (eq_sym H))).
Qed.

Lemma to_uint_digits (n : N) (k : nat) :
  (1 <= k)%nat -> Z.of_N n < 10 ^ Z.of_nat k ->
  (Decimal.nb_digits (N.to_uint n) <= k)%nat.
Proof.
  intros Hk Hn. destruct (to_uint_head n) as [E | [Hnil Hz]].
  - rewrite E. exact Hk.
  - pose proof (DecimalN.Unsigned.of_to n) as Hof. unfold N.of_uint in Hof.
    destruct (N.to_uint n) as [|u|u|u|u|u|u|u|u|u|u];
      [congruence | exfalso; exact (Hz u eq_refl) |..];
      cbn [Pos.of_uint] in Hof; rewrite <- Hof in Hn; cbn [Z.of_N] in Hn;
      cbn [Decimal.nb_digits];
      match type of Hn with
      | Z.pos (Pos.of_uint_acc _ ?a) < _ =>
          pose proof (of_uint_acc_lower u a) as Hl
      end;
      assert (Hp : 10 ^ Z.of_nat (Decimal.nb_digits u) < 10 ^ Z.of_nat k)
        by nia;
      apply Z.pow_lt_mono_r_iff in Hp; lia.
Qed.

Lemma of_N_string (n : N) :
  PyStr.of_N n = NilEmpty.string_of_uint (N.to_uint n)
  /\ String.length (PyStr.of_N n) = Decimal.nb_digits (N.to_uint n).
Proof.
  assert (H : PyStr.of_N n = NilEmpty.string_of_uint (N.to_uint n)).
  { unfold PyStr.of_N, NilZero.string_of_uint.
    destruct (to_uint_head n) as [E | [Hnil _]]; [now rewrite E|].
    destruct (N.to_uint n); [congruence | reflexivity ..]. }
  split; [exact H|]. rewrite H. clear H.
  generalize (N.to_uint n). intros u.
  induction u; cbn [NilEmpty.string_of_uint String.length Decimal.nb_digits];
    congruence.
Qed.

Lemma digits_zeros (j : nat) :
  forall m x,
    PyDate.digits (j + m) 0 (PyStr.zeros j ++ x) = PyDate.digits m 0 x.
Proof.
  induction j as [|j IH]; intros m x; [reflexivity|].
  cbn [Nat.add PyStr.zeros append PyDate.digits].
  replace (PyStr.is_digit "0") with true by reflexivity. apply IH.
Qed.

(** A number below [10 ^ k], written with [k] digits, is read back. *)
Lemma digits_pad (k : nat) (z : Z) (rest : string) :
  (1 <= k)%nat -> 0 <= z < 10 ^ Z.of_nat k ->
  PyDate.digits k 0 (PyDate.pad k z ++ rest) = Some (z, rest).
Proof.
  intros Hk Hz. unfold PyDate.pad, PyStr.zfill.
  destruct (of_N_string (Z.to_N z)) as [Es El]. rewrite El, Es.
  assert (Hd : (Decimal.nb_digits (N.to_uint (Z.to_N z)) <= k)%nat).
  { apply to_uint_digits; [exact Hk|]. rewrite Z2N.id; lia. }
  rewrite append_assoc.
  replace k with ((k - Decimal.nb_digits (N.to_uint (Z.to_N z)))
                  + Decimal.nb_digits (N.to_uint (Z.to_N z)))%nat at 1 by lia.
  rewrite digits_zeros, digits_uint.
  change (Pos.of_uint (N.to_uint (Z.to_N z)))
    with (N.of_uint (N.to_uint (Z.to_N z))).
  rewrite DecimalN.Unsigned.of_to, Z2N.id; [reflexivity | lia].
Qed.

Lemma replace_char_app (old : ascii) (new a b : string) :
  PyStr.replace_char old new (a ++ b)
  = PyStr.replace_char old new a ++ PyStr.replace_char old new b.
Proof.
  induction a as [|c a IH]; [reflexivity|].
  cbn [append PyStr.replace_char]. rewrite IH.
  destruct (Ascii.eqb c old); [now rewrite append_assoc | reflexivity].
Qed.

Lemma replace_char_pad (new : string) (k : nat) (z : Z) :
  PyStr.replace_char "Z" new (PyDate.pad k z) = PyDate.pad k z.
Proof.
  unfold PyDate.pad, PyStr.zfill. rewrite replace_char_app. f_equal.
  - induction (k - _)%nat as [|j IH]; [reflexivity|].
    cbn [PyStr.zeros PyStr.replace_char].
    replace (Ascii.eqb "0" "Z") with false by reflexivity. now rewrite IH.
  - destruct (of_N_string (Z.to_N z)) as [-> _].
    induction (N.to_uint (Z.to_N z)) as
      [|u IH|u IH|u IH|u IH|u IH|u IH|u IH|u IH|u IH|u IH];
      [reflexivity|..];
      cbn [NilEmpty.string_of_uint PyStr.replace_char];
      (replace (Ascii.eqb _ "Z") with false by reflexivity); now rewrite IH.
Qed.

Lemma replace_char_isoformat (new : string) (d : PyDate.datetime) :
  PyStr.replace_char "Z" new (PyDate.isoformat d) = PyDate.isoformat d.
Proof.
  unfold PyDate.isoformat.
  repeat (rewrite replace_char_app, ?replace_char_pad).
  repeat f_equal. destruct (PyDate.microsecond d =? 0); [reflexivity|].
  change ("." ++ PyDate.pad 6 (PyDate.microsecond d))
    with (String "." (PyDate.pad 6 (PyDate.microsecond d))).
  cbn [PyStr.replace_char].
  replace (Ascii.eqb "." "Z") with false by reflexivity.
  now rewrite replace_char_pad.
Qed.

Lemma valid_bounds (d : PyDate.datetime) :
  PyDate.valid d = true ->
  1 <= PyDate.year d /\ 1 <= PyDate.month d <= 12
  /\ 1 <= PyDate.day d <= 31
  /\ PyDate.hour d < 24 /\ PyDate.minute d < 60 /\ PyDate.second d < 60.
Proof.
  unfold PyDate.valid. intros H.
  repeat (apply andb_true_iff in H; destruct H as [H ?]).
  repeat match goal with
         | H : (_ <=? _) = true |- _ => apply Z.leb_le in H
         | H : (_ <? _) = true |- _ => apply Z.ltb_lt in H
         end.
  assert (Hd : PyDate.days_in_month (PyDate.year d) (PyDate.month d) <= 31).
  { unfold PyDate.days_in_month.
    destruct (_ && _); [lia|].
    assert (Hm : PyDate.month d = 1 \/ PyDate.month d = 2
                 \/ PyDate.month d = 3 \/ PyDate.month d = 4
                 \/ PyDate.month d = 5 \/ PyDate.month d = 6
                 \/ PyDate.month d = 7 \/ PyDate.month d = 8
                 \/ PyDate.month d = 9 \/ PyDate.month d = 10
                 \/ PyDate.month d = 11 \/ PyDate.month d = 12) by lia.
    repeat (destruct Hm as [-> | Hm]; [vm_compute; discriminate|]).
    rewrite Hm. vm_compute. discriminate. }
  lia.
Qed.

(** What [isoformat] writes, [fromisoformat] reads back. *)
Lemma fromisoformat_isoformat (d : PyDate.datetime) :
  is_datetime d -> PyDate.fromisoformat (PyDate.isoformat d) = PyDate.Naive d.
Proof.
  intros [Hv [Hy [Hh [Hmi [Hs Hus]]]]].
  destruct (valid_bounds d Hv) as [Hy1 [Hm [Hd [Hh' [Hmi' Hs']]]]].
  destruct d as [y m dd h mi s us]. cbn [PyDate.year PyDate.month PyDate.day
    PyDate.hour PyDate.minute PyDate.second PyDate.microsecond] in *.
  unfold PyDate.fromisoformat, PyDate.parse_date, PyDate.isoformat.
  cbn [PyDate.year PyDate.month PyDate.day
    PyDate.hour PyDate.minute PyDate.second PyDate.microsecond].
  rewrite digits_pad by (cbn; lia).
  change ("-" ++ ?x) with (String "-" x). cbn [PyDate.expect].
  replace (Ascii.eqb "-" "-") with true by reflexivity.
  rewrite digits_pad by (cbn; lia).
  change ("-" ++ ?x) with (String "-" x). cbn [PyDate.expect].
  replace (Ascii.eqb "-" "-") with true by reflexivity.
  rewrite digits_pad by (cbn; lia).
  change ("T" ++ ?x) with (String "T" x). cbv iota beta.
  unfold PyDate.parse_time.
  rewrite digits_pad by (cbn; lia).
  change (":" ++ ?x) with (String ":" x). cbn [PyDate.expect].
  replace (Ascii.eqb ":" ":") with true by reflexivity.
  rewrite digits_pad by (cbn; lia).
  change (":" ++ ?x) with (String ":" x). cbn [PyDate.expect].
  replace (Ascii.eqb ":" ":") with true by reflexivity.
  rewrite digits_pad by (cbn; lia).
  destruct (Z.eqb_spec us 0) as [-> | Hne].
  - cbn [PyDate.expect]. rewrite Hv. reflexivity.
  - change ("." ++ ?x) with (String "." x). cbn [PyDate.expect].
    replace (Ascii.eqb "." ".") with true by reflexivity.
    unfold PyDate.parse_fraction.
    rewrite <- (append_nil_r (PyDate.pad 6 us)) at 1.
    rewrite digits_pad by (cbn; lia).
    rewrite Hv. reflexivity.
Qed.

Lemma lex_leb_refl (a : list Z) : PyDate.lex_leb a a = true.
Proof.
  induction a as [|x a IH]; [reflexivity|].
  cbn [PyDate.lex_leb]. now rewrite Z.eqb_refl, IH, orb_true_r.
Qed.

Lemma leb_refl (d : PyDate.datetime) : PyDate.leb d d = true.
Proof. apply lex_leb_refl. Qed.

Lemma lex_leb_zeros (a : list Z) :
  Forall (fun x => 0 <= x) a ->
  PyDate.lex_leb (map (fun _ => 0) a) a = true.
Proof.
  induction 1 as [|x a Hx _ IH]; [reflexivity|].
  cbn [map PyDate.lex_leb]. rewrite IH.
  destruct (Z.ltb_spec 0 x); [reflexivity|].
  destruct (Z.eqb_spec 0 x); [reflexivity | lia].
Qed.

Lemma month_start_leb (d : PyDate.datetime) :
  is_datetime d -> PyDate.leb (PyDate.month_start d) d = true.
Proof.
  intros [Hv [Hy [Hh [Hmi [Hs Hus]]]]].
  destruct (valid_bounds d Hv) as [_ [_ [Hd _]]].
  unfold PyDate.leb, PyDate.month_start, PyDate.fields.
  cbn [PyDate.year PyDate.month PyDate.day PyDate.hour PyDate.minute
       PyDate.second PyDate.microsecond PyDate.lex_leb].
  rewrite !Z.eqb_refl, !Z.ltb_irrefl. cbn [orb andb].
  destruct (Z.ltb_spec 1 (PyDate.day d)); [reflexivity|].
  destruct (Z.eqb_spec 1 (PyDate.day d)); [|lia]. cbn [orb andb].
  apply (lex_leb_zeros [PyDate.hour d; PyDate.minute d; PyDate.second d;
                        PyDate.microsecond d]).
  repeat constructor; lia.
Qed.

Lemma expenses_in_period_app (l1 l2 : list Transaction) s e :
  forall total,
    expenses_in_period (l1 ++ l2) s e total
    = (m <- expenses_in_period l1 s e total ;; expenses_in_period l2 s e m).
Proof.
  induction l1 as [|t l1 IH]; intros total; [reflexivity|].
  cbn [app expenses_in_period].
  destruct (String.eqb (tx_type t) "Expense"); [|apply IH].
  destruct (transaction_datetime t); cbn [bind]; [|reflexivity].
  destruct (_ && _); apply IH.
Qed.

Lemma category_expenses_from_app (l1 l2 : list Transaction) s :
  forall totals,
    category_expenses_from (l1 ++ l2) s totals
    = (ce <- category_expenses_from l1 s totals ;;
       category_expenses_from l2 s ce).
Proof.
  induction l1 as [|t l1 IH]; intros totals; [reflexivity|].
  cbn [app category_expenses_from].
  destruct (String.eqb (tx_type t) "Expense"); [|apply IH].
  destruct (transaction_datetime t) as [d|err]; cbn [bind]; [|reflexivity].
  destruct (PyDate.leb s d); apply IH.
Qed.

Lemma month_day_table (leapyear : bool) (n : Z) :
  0 <= n < 365 -> month_day_fits leapyear n = true.
Proof.
  intros Hn.
  assert (H : forallb (month_day_fits leapyear) (map Z.of_nat (seq 0 365))
              = true) by (destruct leapyear; vm_compute; reflexivity).
  rewrite forallb_forall in H. apply H.
  apply in_map_iff. exists (Z.to_nat n). split; [lia|].
  apply in_seq. lia.
Qed.

Lemma ord2ymd_parts (n0 : Z) :
  let n := n0 - 1 in
  let n100 := n mod 146097 / 36524 in
  let n4 := n mod 146097 mod 36524 / 1461 in
  let n1 := n mod 146097 mod 36524 mod 1461 / 365 in
  let r1 := n mod 146097 mod 36524 mod 1461 mod 365 in
  let y := n / 146097 * 400 + 1 + n100 * 100 + n4 * 4 + n1 in
  PyDate.ord2ymd n0
  = if (n1 =? 4) || (n100 =? 4) then (y - 1, 12, 31)
    else let '(m, d) :=
           month_day r1 ((n1 =? 3) && (negb (n4 =? 24) || (n100 =? 3))) in
         (y, m, d).
Proof.
  cbv zeta. unfold PyDate.ord2ymd, month_day. cbv zeta.
  destruct (_ || _); [reflexivity|].
  destruct (_ <? _); reflexivity.
Qed.

Lemma days_before_year_form (a b c e : Z) :
  0 <= b <= 3 -> 0 <= c <= 24 -> 0 <= e <= 3 ->
  PyDate.days_before_year (400 * a + 100 * b + 4 * c + e + 1)
  = 146097 * a + 36524 * b + 1461 * c + 365 * e.
Proof.
  intros Hb Hc He. unfold PyDate.days_before_year.
  replace (400 * a + 100 * b + 4 * c + e + 1 - 1)
    with (400 * a + 100 * b + 4 * c + e) by lia.
  Z.div_mod_to_equations. lia.
Qed.

Lemma is_leap_form (a b c e : Z) :
  0 <= b <= 3 -> 0 <= c <= 24 -> 0 <= e <= 3 ->
  PyDate.is_leap (400 * a + 100 * b + 4 * c + e + 1)
  = (e =? 3) && (negb (c =? 24) || (b =? 3)).
Proof.
  intros Hb Hc He. unfold PyDate.is_leap.
  destruct (Z.eqb_spec e 3), (Z.eqb_spec c 24), (Z.eqb_spec b 3);
    repeat match goal with
           | |- context [?x mod ?k =? 0] =>
               destruct (Z.eqb_spec (x mod k) 0)
           end; cbn [andb orb negb]; try reflexivity; exfalso;
    Z.div_mod_to_equations; lia.
Qed.

Lemma last_day_of_leap_year (a b c : Z) :
  0 <= a -> 0 <= b <= 3 -> 0 <= c <= 24 ->
  (negb (c =? 24) || (b =? 3)) = true ->
  let y := 400 * a + 100 * b + 4 * c + 3 + 1 in
  is_date y 12 31
  /\ PyDate.ymd2ord y 12 31
     = 146097 * a + 36524 * b + 1461 * c + 365 * 3 + 366.
Proof.
  intros Ha Hb Hc Hleap y. subst y.
  unfold is_date, PyDate.ymd2ord, PyDate.days_before_month,
    PyDate.days_in_month.
  rewrite is_leap_form, days_before_year_form, Hleap by lia.
  change (PyDate.days_before_month_tbl 12) with 334.
  change (12 =? 2) with false. change (2 <? 12) with true.
  change (3 =? 3) with true. change (Z.to_nat 12) with 12%nat.
  cbn [andb nth]. lia.
Qed.

Lemma day_within_year (a b c e r : Z) :
  0 <= a -> 0 <= b <= 3 -> 0 <= c <= 24 -> 0 <= e <= 3 -> 0 <= r < 365 ->
  let y := 400 * a + 100 * b + 4 * c + e + 1 in
  let leap := (e =? 3) && (negb (c =? 24) || (b =? 3)) in
  is_date y (fst (month_day r leap)) (snd (month_day r leap))
  /\ PyDate.ymd2ord y (fst (month_day r leap)) (snd (month_day r leap))
     = 146097 * a + 36524 * b + 1461 * c + 365 * e + r + 1.
Proof.
  intros Ha Hb Hc He Hr y leap.
  pose proof (month_day_table leap r Hr) as Hmd.
  unfold month_day_fits in Hmd.
  destruct (month_day r leap) as [m d]. cbn [fst snd].
  repeat (apply andb_true_iff in Hmd; destruct Hmd as [Hmd ?]).
  repeat match goal with
         | H : (_ <=? _) = true |- _ => apply Z.leb_le in H
         | H : (_ =? _) = true |- _ => apply Z.eqb_eq in H
         end.
  subst y. unfold is_date, PyDate.ymd2ord, PyDate.days_before_month,
    PyDate.days_in_month.
  rewrite is_leap_form, days_before_year_form by lia.
  fold leap. lia.
Qed.

Lemma ord2ymd_date (n0 : Z) :
  1 <= n0 ->
  exists y m d,
    PyDate.ord2ymd n0 = (y, m, d) /\ is_date y m d
    /\ PyDate.ymd2ord y m d = n0.
Proof.
  intros Hn0. rewrite ord2ymd_parts. cbv zeta.
  pose proof (Z.div_mod (n0 - 1) 146097 ltac:(lia)) as E400.
  pose proof (Z.mod_pos_bound (n0 - 1) 146097 ltac:(lia)) as B400.
  assert (Hn400 : 0 <= (n0 - 1) / 146097) by (apply Z.div_pos; lia).
  generalize dependent ((n0 - 1) / 146097). intros n400 E400 Hn400.
  generalize dependent ((n0 - 1) mod 146097). intros r400 E400 B400.
  pose proof (Z.div_mod r400 36524 ltac:(lia)) as E100.
  pose proof (Z.mod_pos_bound r400 36524 ltac:(lia)) as B100.
  generalize dependent (r400 / 36524). intros n100 E100.
  generalize dependent (r400 mod 36524). intros r100 E100 B100.
  pose proof (Z.div_mod r100 1461 ltac:(lia)) as E4.
  pose proof (Z.mod_pos_bound r100 1461 ltac:(lia)) as B4.
  generalize dependent (r100 / 1461). intros n4 E4.
  generalize dependent (r100 mod 1461). intros r4 E4 B4.
  pose proof (Z.div_mod r4 365 ltac:(lia)) as E1.
  pose proof (Z.mod_pos_bound r4 365 ltac:(lia)) as B1.
  generalize dependent (r4 / 365). intros n1 E1.
  generalize dependent (r4 mod 365). intros r1 E1 B1.
  destruct ((n1 =? 4) || (n100 =? 4)) eqn:Elast.
  - eexists _, 12, 31. split; [reflexivity|].
    apply orb_true_iff in Elast.
    assert (Hform : exists b c,
               0 <= b <= 3 /\ 0 <= c <= 24
               /\ n400 * 400 + 1 + n100 * 100 + n4 * 4 + n1 - 1
                  = 400 * n400 + 100 * b + 4 * c + 3 + 1
               /\ (negb (c =? 24) || (b =? 3)) = true
               /\ n0 = 146097 * n400 + 36524 * b + 1461 * c + 365 * 3 + 366).
    { destruct Elast as [E|E]; apply Z.eqb_eq in E.
      - exists n100, n4. repeat split; lia.
      - exists 3, 24. repeat split; lia. }
    destruct Hform as [b [c [Hb [Hc [-> [Hleap ->]]]]]].
    now apply last_day_of_leap_year.
  - apply orb_false_iff in Elast. destruct Elast as [El1 El2].
    apply Z.eqb_neq in El1, El2.
    destruct (day_within_year n400 n100 n4 n1 r1) as [Hd Ho]; try lia.
    cbv zeta in Hd, Ho.
    destruct (month_day r1 _) as [m d]. cbn [fst snd] in Hd, Ho.
    exists (n400 * 400 + 1 + n100 * 100 + n4 * 4 + n1), m, d.
    split; [reflexivity|].
    replace (n400 * 400 + 1 + n100 * 100 + n4 * 4 + n1)
      with (400 * n400 + 100 * n100 + 4 * n4 + n1 + 1) by lia.
    split; [exact Hd|]. rewrite Ho. lia.
Qed.

Lemma months_in_order (leap : bool) (m m' : Z) :
  1 <= m -> m < m' -> m' <= 12 ->
  0 <= PyDate.days_before_month_tbl m
       + (if (2 <? m) && leap then 1 else 0)
  /\ PyDate.days_before_month_tbl m + (if (2 <? m) && leap then 1 else 0)
     + (if (m =? 2) && leap then 29
        else nth (Z.to_nat m)
                 [0; 31; 28; 31; 30; 31; 30; 31; 31; 30; 31; 30; 31] 0)
     <= PyDate.days_before_month_tbl m'
        + (if (2 <? m') && leap then 1 else 0).
Proof.
  intros H1 H2 H3.
  assert (H : forallb
                (fun a =>
                   forallb
                     (fun b =>
                        (b <=? a)
                        || ((0 <=? PyDate.days_before_month_tbl a
                                   + (if (2 <? a) && leap then 1 else 0))
                            && (PyDate.days_before_month_tbl a
                                + (if (2 <? a) && leap then 1 else 0)
                                + (if (a =? 2) && leap then 29
                                   else nth (Z.to_nat a)
                                            [0; 31; 28; 31; 30; 31; 30; 31;
                                             31; 30; 31; 30; 31] 0)
                                <=? PyDate.days_before_month_tbl b
                                    + (if (2 <? b) && leap then 1 else 0))))
                     (map Z.of_nat (seq 1 12)))
                (map Z.of_nat (seq 1 12)) = true)
    by (destruct leap; vm_compute; reflexivity).
  rewrite forallb_forall in H.
  assert (Hin : forall k, 1 <= k <= 12 -> In k (map Z.of_nat (seq 1 12))).
  { intros k Hk. apply in_map_iff. exists (Z.to_nat k). split; [lia|].
    apply in_seq. lia. }
  specialize (H m (Hin m ltac:(lia))). rewrite forallb_forall in H.
  specialize (H m' (Hin m' ltac:(lia))). cbv beta in H.
  apply orb_true_iff in H. destruct H as [H | H]; [lia|].
  apply andb_true_iff in H. lia.
Qed.

Lemma year_length (leap : bool) (m : Z) :
  1 <= m <= 12 ->
  0 <= PyDate.days_before_month_tbl m + (if (2 <? m) && leap then 1 else 0)
  /\ PyDate.days_before_month_tbl m + (if (2 <? m) && leap then 1 else 0)
     + (if (m =? 2) && leap then 29
        else nth (Z.to_nat m)
                 [0; 31; 28; 31; 30; 31; 30; 31; 31; 30; 31; 30; 31] 0)
     <= 365 + (if leap then 1 else 0).
Proof.
  intros Hm.
  assert (H : forallb
                (fun a =>
                   (0 <=? PyDate.days_before_month_tbl a
                          + (if (2 <? a) && leap then 1 else 0))
                   && (PyDate.days_before_month_tbl a
                       + (if (2 <? a) && leap then 1 else 0)
                       + (if (a =? 2) && leap then 29
                          else nth (Z.to_nat a)
                                   [0; 31; 28; 31; 30; 31; 30; 31;
                                    31; 30; 31; 30; 31] 0)
                       <=? 365 + (if leap then 1 else 0)))
                (map Z.of_nat (seq 1 12)) = true)
    by (destruct leap; vm_compute; reflexivity).
  rewrite forallb_forall in H.
  assert (Hin : In m (map Z.of_nat (seq 1 12))).
  { apply in_map_iff. exists (Z.to_nat m). split; [lia|]. apply in_seq. lia. }
  specialize (H m Hin). cbv beta in H. apply andb_true_iff in H. lia.
Qed.

Lemma days_before_year_step (y : Z) :
  PyDate.days_before_year (y + 1)
  = PyDate.days_before_year y + 365 + (if PyDate.is_leap y then 1 else 0).
Proof.
  unfold PyDate.days_before_year, PyDate.is_leap.
  replace (y + 1 - 1) with y by lia.
  destruct (Z.eqb_spec (y mod 4) 0), (Z.eqb_spec (y mod 100) 0),
    (Z.eqb_spec (y mod 400) 0); cbn [andb orb negb];
    Z.div_mod_to_equations; lia.
Qed.

Lemma days_before_year_mono (y y' : Z) :
  y <= y' -> PyDate.days_before_year y <= PyDate.days_before_year y'.
Proof.
  intros H. unfold PyDate.days_before_year. Z.div_mod_to_equations. lia.
Qed.

(** Later dates have later ordinals. *)
Lemma ymd2ord_lt (y m d y' m' d' : Z) :
  is_date y m d -> is_date y' m' d' ->
  y < y' \/ (y = y' /\ (m < m' \/ (m = m' /\ d < d'))) ->
  PyDate.ymd2ord y m d < PyDate.ymd2ord y' m' d'.
Proof.
  intros [Hy [Hm Hd]] [Hy' [Hm' Hd']] Hlt.
  unfold PyDate.ymd2ord, PyDate.days_before_month, PyDate.days_in_month in *.
  destruct Hlt as [Hlt | [<- [Hlt | [<- Hlt]]]].
  - pose proof (year_length (PyDate.is_leap y) m Hm) as [_ H1].
    pose proof (year_length (PyDate.is_leap y') m' Hm') as [H2 _].
    pose proof (days_before_year_step y) as H3.
    pose proof (days_before_year_mono (y + 1) y' ltac:(lia)) as H4.
    lia.
  - pose proof (months_in_order (PyDate.is_leap y) m m'
                  ltac:(lia) Hlt ltac:(lia)) as [_ H1].
    lia.
  - lia.
Qed.

Lemma ymd2ord_positive (y m d : Z) :
  is_date y m d -> 1 <= PyDate.ymd2ord y m d.
Proof.
  intros [Hy [Hm Hd]].
  unfold PyDate.ymd2ord, PyDate.days_before_month.
  pose proof (year_length (PyDate.is_leap y) m Hm) as [H2 _].
  pose proof (days_before_year_mono 1 y Hy) as H1.
  change (PyDate.days_before_year 1) with 0 in H1. lia.
Qed.

Lemma is_datetime_date (d : PyDate.datetime) :
  is_datetime d -> is_date (PyDate.year d) (PyDate.month d) (PyDate.day d).
Proof.
  intros [Hv _]. unfold PyDate.valid in Hv.
  repeat (apply andb_true_iff in Hv; destruct Hv as [Hv ?]).
  unfold is_date. lia.
Qed.

(** The week's window starts on the Monday of the current week. *)
Lemma week_start_monday (now : PyDate.datetime) :
  is_datetime now ->
  exists y m d,
    week_start now = PyDate.mkdt y m d 0 0 0 0
    /\ is_date y m d
    /\ PyDate.ymd2ord y m d
       = PyDate.ymd2ord (PyDate.year now) (PyDate.month now) (PyDate.day now)
         - PyDate.weekday now
    /\ 0 <= PyDate.weekday now <= 6
    /\ PyDate.weekday (week_start now) = 0
    /\ PyDate.leb (week_start now) now = true.
Proof.
  intros Hnow. pose proof (is_datetime_date now Hnow) as Hdate.
  pose proof (ymd2ord_positive _ _ _ Hdate) as Hpos.
  unfold week_start, PyDate.minus_days.
  remember (PyDate.ymd2ord (PyDate.year now) (PyDate.month now)
                           (PyDate.day now)) as o eqn:Eo.
  assert (Hwd : PyDate.weekday now = (o + 6) mod 7)
    by (rewrite Eo; reflexivity).
  assert (Hw : 0 <= PyDate.weekday now <= 6
               /\ 1 <= o - PyDate.weekday now
               /\ (o - PyDate.weekday now + 6) mod 7 = 0).
  { rewrite Hwd. Z.div_mod_to_equations. lia. }
  destruct Hw as [Hw [Hge Hmon]].
  destruct (ord2ymd_date _ Hge) as [y [m [d [E [Hd Ho]]]]].
  rewrite E. unfold PyDate.at_midnight.
  cbn [PyDate.year PyDate.month PyDate.day].
  exists y, m, d. split; [reflexivity|]. split; [exact Hd|].
  split; [exact Ho|]. split; [exact Hw|].
  split.
  - unfold PyDate.weekday. cbn [PyDate.year PyDate.month PyDate.day].
    now rewrite Ho.
  - destruct Hnow as [_ [_ [Hh [Hmi [Hs Hus]]]]].
    unfold PyDate.leb, PyDate.fields.
    cbn [PyDate.year PyDate.month PyDate.day PyDate.hour PyDate.minute
         PyDate.second PyDate.microsecond PyDate.lex_leb].
    assert (Hle : ~ (PyDate.year now < y
                     \/ (PyDate.year now = y
                         /\ (PyDate.month now < m
                             \/ (PyDate.month now = m
                                 /\ PyDate.day now < d))))).
    { intros Hlt. pose proof (ymd2ord_lt _ _ _ _ _ _ Hdate Hd Hlt) as Hc.
      rewrite <- Eo in Hc. lia. }
    pose proof (lex_leb_zeros [PyDate.hour now; PyDate.minute now;
                               PyDate.second now; PyDate.microsecond now])
      as Hz.
    cbn [map PyDate.lex_leb] in Hz. rewrite Hz by (repeat constructor; lia).
    lia.
Qed.

(** X27.  An expense added without a date counts at once.  The date that
    [add_transaction] writes for it is read back by the budget status as
    the very [now] of the call, so that the month's spending, the week's
    spending and the month's spending of its category each grow by the
    converted amount, in the period functions and in what
    [get_budget_status] returns. *)
Theorem dateless_expense_counts_at_once :
  forall now self amount category currency,
    is_datetime now ->
    fst (add_transaction now self amount category "Expense" currency None)
    = true ->
    let self' :=
      snd (add_transaction now self amount category "Expense" currency None) in
    let name := PyStr.strip category in
    let spent := convert_to_usd amount currency in
    (exists t, transactions self' = (transactions self ++ [t])%list
               /\ tx_date t = PyDate.isoformat now
               /\ transaction_datetime t = Ok now)
    /\ (forall m,
           _get_expenses_in_period self (PyDate.month_start now) now = Ok m ->
           _get_expenses_in_period self' (PyDate.month_start now) now
           = Ok (m + spent)%Q)
    /\ (forall w,
           _get_expenses_in_period self (week_start now) now = Ok w ->
           _get_expenses_in_period self' (week_start now) now
           = Ok (w + spent)%Q)
    /\ (forall ce,
           _get_category_expenses_current_month now self = Ok ce ->
           _get_category_expenses_current_month now self'
           = Ok (dict_set name (get_default name ce + spent)%Q ce))
    /\ (forall st st',
           get_budget_status now self = Ok st ->
           get_budget_status now self' = Ok st' ->
           monthly_spent st' = (monthly_spent st + spent)%Q
           /\ weekly_spent st' = (weekly_spent st + spent)%Q
           /\ get_default name (category_expenses st')
              = (get_default name (category_expenses st) + spent)%Q).
Proof.
  intros now self amount category currency Hnow Hadd self' name spent.
  set (t := {| tx_amount := amount; tx_category := name;
               tx_type := "Expense"; tx_currency := currency;
               tx_date := PyDate.isoformat now;
               tx_id := Z.of_nat (List.length (transactions self)) + 1 |}).
  assert (Hself' : transactions self' = (transactions self ++ [t])%list).
  { subst self'. unfold add_transaction in *.
    destruct (Qle_bool amount 0); [discriminate|].
    destruct (String.eqb category EmptyString
              || String.eqb (PyStr.strip category) EmptyString);
      [discriminate|].
    destruct (negb (str_in "Expense" ["Income"; "Expense"]));
      [discriminate|].
    reflexivity. }
  assert (Hdate : transaction_datetime t = Ok now).
  { unfold transaction_datetime. cbn [tx_date t].
    now rewrite replace_char_isoformat, fromisoformat_isoformat. }
  assert (Hperiod : forall start m,
             PyDate.leb start now = true ->
             _get_expenses_in_period self start now = Ok m ->
             _get_expenses_in_period self' start now = Ok (m + spent)%Q).
  { intros start m Hstart Hm. unfold _get_expenses_in_period in *.
    rewrite Hself', expenses_in_period_app, Hm. cbn [bind expenses_in_period].
    cbn [tx_type t]. rewrite String.eqb_refl, Hdate. cbn [bind].
    now rewrite Hstart, leb_refl. }
  assert (Hweek : PyDate.leb (week_start now) now = true).
  { destruct (week_start_monday now Hnow) as [y [m [d [_ [_ [_ [_ [_ H]]]]]]]].
    exact H. }
  assert (Hc : forall ce,
             _get_category_expenses_current_month now self = Ok ce ->
             _get_category_expenses_current_month now self'
             = Ok (dict_set name (get_default name ce + spent)%Q ce)).
  { intros ce Hce. unfold _get_category_expenses_current_month in *.
    rewrite Hself', category_expenses_from_app, Hce.
    cbn [bind category_expenses_from]. cbn [tx_type t].
    rewrite String.eqb_refl, Hdate. cbn [bind].
    now rewrite month_start_leb. }
  split; [exists t; repeat split; assumption|].
  split; [intros m; apply Hperiod; now apply month_start_leb|].
  split; [intros w; now apply Hperiod|].
  split; [exact Hc|].
  intros st st' Hst Hst'.
  destruct (get_budget_status_periods now self st Hst) as [H1 [H2 H3]].
  destruct (get_budget_status_periods now self' st' Hst') as [H1' [H2' H3']].
  rewrite (Hperiod _ _ (month_start_leb now Hnow) H1) in H1'.
  rewrite (Hperiod _ _ Hweek H2) in H2'. rewrite (Hc _ H3) in H3'.
  injection H1' as <-. injection H2' as <-. injection H3' as <-.
  split; [reflexivity|]. split; [reflexivity|].
  unfold get_default at 1. now rewrite dict_get_set_same.
Qed.

Lemma is_datetime_noon : is_datetime noon.
Proof.
  unfold is_datetime. split; [reflexivity|].
  repeat split; vm_compute; congruence.
Qed.

Lemma dateless_expense_counts_at_once_witness :
  is_datetime noon
  /\ fst (add_transaction noon init 50 "Food" "Expense" "EUR" None) = true
  /\ _get_expenses_in_period
       (snd (add_transaction noon init 50 "Food" "Expense" "EUR" None))
       (week_start noon) noon
     = Ok (0 + convert_to_usd 50 "EUR")%Q.
Proof.
  assert (H : fst (add_transaction noon init 50 "Food" "Expense" "EUR" None)
              = true) by reflexivity.
  split; [exact is_datetime_noon|]. split; [exact H|].
  exact (proj1 (proj2 (proj2
           (dateless_expense_counts_at_once noon init 50 "Food" "EUR"
              is_datetime_noon H))) 0%Q eq_refl).
Defined.

(** X28.  The week of [get_budget_status] starts on Monday: the window
    whose expenses it reports as the week's spending begins at 00:00 on a
    Monday that is a date of the calendar, the Monday on or before the day
    of [now] and at most six days before it, and it begins no later than
    [now]. *)
Theorem week_window_starts_on_monday :
  forall now,
    is_datetime now ->
    let start := week_start now in
    let ordinal d :=
      PyDate.ymd2ord (PyDate.year d) (PyDate.month d) (PyDate.day d) in
    PyDate.weekday start = 0
    /\ is_date (PyDate.year start) (PyDate.month start) (PyDate.day start)
    /\ (PyDate.hour start = 0 /\ PyDate.minute start = 0
        /\ PyDate.second start = 0 /\ PyDate.microsecond start = 0)
    /\ ordinal now - ordinal start = PyDate.weekday now
    /\ 0 <= ordinal now - ordinal start <= 6
    /\ PyDate.leb start now = true
    /\ (forall self st,
           get_budget_status now self = Ok st ->
           _get_expenses_in_period self start now = Ok (weekly_spent st)).
Proof.
  intros now Hnow start ordinal.
  destruct (week_start_monday now Hnow)
    as [y [m [d [E [Hd [Ho [Hw [Hmon Hle]]]]]]]].
  subst start ordinal. cbv beta. split; [exact Hmon|].
  rewrite E. cbn [PyDate.year PyDate.month PyDate.day PyDate.hour
                  PyDate.minute PyDate.second PyDate.microsecond].
  split; [exact Hd|]. split; [repeat split|].
  rewrite Ho. split; [lia|]. split; [lia|].
  rewrite <- E. split; [exact Hle|].
  intros self st Hst.
  now destruct (get_budget_status_periods now self st Hst) as [_ [H _]].
Qed.

Lemma week_window_starts_on_monday_witness :
  is_datetime noon
  /\ week_start noon = PyDate.mkdt 2024 5 13 0 0 0 0
  /\ PyDate.weekday (week_start noon) = 0.
Proof.
  split; [exact is_datetime_noon|]. split; [reflexivity|].
  exact (proj1 (week_window_starts_on_monday noon is_datetime_noon)).
Defined.

(** ** Dates from the entry forms *)

Lemma is_datetime_midnight (d : PyDate.datetime) :
  is_datetime d -> is_datetime (PyDate.at_midnight d).
Proof.
  intros [Hv [Hy _]]. unfold is_datetime, PyDate.at_midnight.
  cbn [PyDate.year PyDate.hour PyDate.minute PyDate.second
       PyDate.microsecond].
  split; [|lia].
  unfold PyDate.valid in *.
  cbn [PyDate.year PyDate.month PyDate.day PyDate.hour PyDate.minute
       PyDate.second].
  repeat (apply andb_true_iff in Hv; destruct Hv as [Hv ?]).
  repeat (apply andb_true_iff; split); trivial.
Qed.

Lemma fromisoformat_strftime (d : PyDate.datetime) :
  is_datetime d ->
  PyDate.fromisoformat (strftime_date d) = PyDate.Naive (PyDate.at_midnight d).
Proof.
  intros Hd. pose proof (is_datetime_midnight d Hd) as [Hv _].
  destruct Hd as [Hv0 [Hy _]].
  destruct (valid_bounds d Hv0) as [Hy1 [Hm [Hdd _]]].
  unfold PyDate.fromisoformat, PyDate.parse_date, strftime_date.
  rewrite digits_pad by (cbn; lia).
  change ("-" ++ ?x) with (String "-" x). cbn [PyDate.expect].
  replace (Ascii.eqb "-" "-") with true by reflexivity.
  rewrite digits_pad by (cbn; lia).
  change ("-" ++ ?x) with (String "-" x). cbn [PyDate.expect].
  replace (Ascii.eqb "-" "-") with true by reflexivity.
  rewrite <- (append_nil_r (PyDate.pad 2 (PyDate.day d))).
  rewrite digits_pad by (cbn; lia).
  unfold PyDate.at_midnight in Hv. now rewrite Hv.
Qed.

Lemma replace_char_strftime (new : string) (d : PyDate.datetime) :
  PyStr.replace_char "Z" new (strftime_date d) = strftime_date d.
Proof.
  unfold strftime_date.
  repeat (rewrite replace_char_app, ?replace_char_pad).
  reflexivity.
Qed.

Lemma written_date_readable (t : Transaction) :
  written_date (tx_date t) -> exists d, transaction_datetime t = Ok d.
Proof.
  intros [d [Hd [E | [E | [_ E]]]]]; unfold transaction_datetime; rewrite E.
  - exists d. now rewrite replace_char_isoformat, fromisoformat_isoformat.
  - exists (PyDate.at_midnight d). unfold combined_date.
    rewrite replace_char_isoformat, fromisoformat_isoformat;
      [reflexivity | now apply is_datetime_midnight].
  - exists (PyDate.at_midnight d).
    now rewrite replace_char_strftime, fromisoformat_strftime.
Qed.

Lemma form_date_read (t : Transaction) (day : PyDate.datetime) :
  is_datetime day -> form_date (tx_date t) day ->
  transaction_datetime t = Ok (PyDate.at_midnight day).
Proof.
  intros Hd [E | [_ E]]; unfold transaction_datetime; rewrite E.
  - unfold combined_date.
    rewrite replace_char_isoformat, fromisoformat_isoformat;
      [reflexivity | now apply is_datetime_midnight].
  - now rewrite replace_char_strftime, fromisoformat_strftime.
Qed.

Lemma week_start_midnight (now : PyDate.datetime) :
  week_start (PyDate.at_midnight now) = week_start now.
Proof.
  unfold week_start, PyDate.minus_days, PyDate.weekday, PyDate.at_midnight.
  cbn [PyDate.year PyDate.month PyDate.day PyDate.hour PyDate.minute
       PyDate.second PyDate.microsecond].
  destruct (PyDate.ord2ymd _) as [[y m] d]. reflexivity.
Qed.

Lemma midnight_leb (d : PyDate.datetime) :
  is_datetime d -> PyDate.leb (PyDate.at_midnight d) d = true.
Proof.
  intros [_ [_ [Hh [Hmi [Hs Hus]]]]].
  unfold PyDate.leb, PyDate.at_midnight, PyDate.fields.
  cbn [PyDate.year PyDate.month PyDate.day PyDate.hour PyDate.minute
       PyDate.second PyDate.microsecond PyDate.lex_leb].
  rewrite !Z.eqb_refl, !Z.ltb_irrefl. cbn [orb andb].
  apply (lex_leb_zeros [PyDate.hour d; PyDate.minute d; PyDate.second d;
                        PyDate.microsecond d]).
  repeat constructor; lia.
Qed.

Lemma same_day_midnight (day now : PyDate.datetime) :
  PyDate.year day = PyDate.year now -> PyDate.month day = PyDate.month now ->
  PyDate.day day = PyDate.day now ->
  PyDate.at_midnight day = PyDate.at_midnight now.
Proof. unfold PyDate.at_midnight. now intros -> -> ->. Qed.

(** X29.  An expense entered through a form counts in the windows that
    hold its day.  The date text that the forms pass for the day picked
    is read by the budget status as 00:00 of that day; the expense is then
    added to the spending of a period exactly when that instant lies
    between the start of the period and [now].  For the day of [now]
    itself it does: the month's spending, the week's spending and the
    month's spending of the category each grow by the converted
    amount. *)
Theorem form_dated_expense_counts_in_its_window :
  forall now self amount category currency day text,
    is_datetime day -> form_date text day ->
    fst (add_transaction now self amount category "Expense" currency
                         (Some text)) = true ->
    let self' :=
      snd (add_transaction now self amount category "Expense" currency
                           (Some text)) in
    let name := PyStr.strip category in
    let spent := convert_to_usd amount currency in
    let at_day := PyDate.at_midnight day in
    (exists t, transactions self' = (transactions self ++ [t])%list
               /\ tx_date t = text
               /\ transaction_datetime t = Ok at_day)
    /\ (forall start m,
           _get_expenses_in_period self start now = Ok m ->
           _get_expenses_in_period self' start now
           = Ok (if PyDate.leb start at_day && PyDate.leb at_day now
                 then (m + spent)%Q else m))
    /\ (is_datetime now ->
        PyDate.year day = PyDate.year now ->
        PyDate.month day = PyDate.month now ->
        PyDate.day day = PyDate.day now ->
        forall st st',
          get_budget_status now self = Ok st ->
          get_budget_status now self' = Ok st' ->
          monthly_spent st' = (monthly_spent st + spent)%Q
          /\ weekly_spent st' = (weekly_spent st + spent)%Q
          /\ get_default name (category_expenses st')
             = (get_default name (category_expenses st) + spent)%Q).
Proof.
  intros now self amount category currency day text Hday Htext Hadd
    self' name spent at_day.
  set (t := {| tx_amount := amount; tx_category := name;
               tx_type := "Expense"; tx_currency := currency;
               tx_date := text;
               tx_id := Z.of_nat (List.length (transactions self)) + 1 |}).
  assert (Hself' : transactions self' = (transactions self ++ [t])%list).
  { subst self'. unfold add_transaction in *.
    destruct (Qle_bool amount 0); [discriminate|].
    destruct (String.eqb category EmptyString
              || String.eqb (PyStr.strip category) EmptyString);
      [discriminate|].
    destruct (negb (str_in "Expense" ["Income"; "Expense"]));
      [discriminate|].
    reflexivity. }
  assert (Hdate : transaction_datetime t = Ok at_day)
    by (now apply form_date_read).
  assert (Hperiod : forall start m,
             _get_expenses_in_period self start now = Ok m ->
             _get_expenses_in_period self' start now
             = Ok (if PyDate.leb start at_day && PyDate.leb at_day now
                   then (m + spent)%Q else m)).
  { intros start m Hm. unfold _get_expenses_in_period in *.
    rewrite Hself', expenses_in_period_app, Hm. cbn [bind expenses_in_period].
    cbn [tx_type t]. rewrite String.eqb_refl, Hdate. cbn [bind].
    now destruct (_ && _). }
  split; [exists t; repeat split; assumption|].
  split; [exact Hperiod|].
  intros Hnow Ey Em Ed st st' Hst Hst'.
  assert (Eat : at_day = PyDate.at_midnight now)
    by (now apply same_day_midnight).
  assert (Hle : PyDate.leb at_day now = true)
    by (rewrite Eat; now apply midnight_leb).
  assert (Hmonth : PyDate.leb (PyDate.month_start now) at_day = true).
  { rewrite Eat.
    change (PyDate.month_start now)
      with (PyDate.month_start (PyDate.at_midnight now)).
    apply month_start_leb. now apply is_datetime_midnight. }
  assert (Hweek : PyDate.leb (week_start now) at_day = true).
  { rewrite Eat, <- week_start_midnight.
    destruct (week_start_monday _ (is_datetime_midnight now Hnow))
      as [y [m [d [_ [_ [_ [_ [_ H]]]]]]]].
    exact H. }
  destruct (get_budget_status_periods now self st Hst) as [H1 [H2 H3]].
  destruct (get_budget_status_periods now self' st' Hst') as [H1' [H2' H3']].
  rewrite (Hperiod _ _ H1), Hmonth, Hle in H1'.
  rewrite (Hperiod _ _ H2), Hweek, Hle in H2'.
  unfold _get_category_expenses_current_month in H3, H3'.
  rewrite Hself', category_expenses_from_app, H3 in H3'.
  cbn [bind category_expenses_from] in H3'. cbn [tx_type t] in H3'.
  rewrite String.eqb_refl, Hdate in H3'. cbn [bind] in H3'.
  rewrite Hmonth in H3'.
  cbn [andb] in H1', H2'.
  injection H1' as <-. injection H2' as <-. injection H3' as <-.
  split; [reflexivity|]. split; [reflexivity|].
  cbn [tx_category t]. unfold get_default at 1.
  now rewrite dict_get_set_same.
Qed.

Lemma form_dated_expense_counts_in_its_window_witness :
  is_datetime noon
  /\ form_date "2024-05-15" noon
  /\ fst (add_transaction noon init 50 "Food" "Expense" "EUR"
                          (Some "2024-05-15")) = true
  /\ _get_expenses_in_period
       (snd (add_transaction noon init 50 "Food" "Expense" "EUR"
                             (Some "2024-05-15")))
       (week_start noon) noon
     = Ok (0 + convert_to_usd 50 "EUR")%Q.
Proof.
  assert (Hf : form_date "2024-05-15" noon).
  { right. split; [vm_compute; congruence | reflexivity]. }
  assert (H : fst (add_transaction noon init 50 "Food" "Expense" "EUR"
                                   (Some "2024-05-15")) = true)
    by reflexivity.
  split; [exact is_datetime_noon|]. split; [exact Hf|]. split; [exact H|].
  exact (proj1 (proj2
           (form_dated_expense_counts_in_its_window noon init 50 "Food" "EUR"
              noon "2024-05-15" is_datetime_noon Hf H))
           (week_start noon) 0%Q eq_refl).
Defined.

(** X30.  [get_budget_status] does not fail on the ledgers that the
    program writes: when the date of every Expense was written by
    [add_transaction] for a call without a date or by an entry form, and
    no category limit is 0, it returns a status. *)
Theorem status_returns_for_written_dates :
  forall now self,
    Forall (fun t => tx_type t = "Expense" -> written_date (tx_date t))
           (transactions self) ->
    limits_nonzero self ->
    exists st, get_budget_status now self = Ok st.
Proof.
  intros now self Hd Hl. apply get_budget_status_returns; [|exact Hl].
  unfold dates_readable. eapply Forall_impl; [|exact Hd].
  intros t Ht He. apply written_date_readable. exact (Ht He).
Qed.

Lemma status_returns_for_written_dates_witness :
  Forall (fun t => tx_type t = "Expense" -> written_date (tx_date t))
         (transactions salary_and_rent)
  /\ limits_nonzero salary_and_rent
  /\ exists st, get_budget_status noon salary_and_rent = Ok st.
Proof.
  assert (Hd : Forall (fun t => tx_type t = "Expense" ->
                                written_date (tx_date t))
                      (transactions salary_and_rent)).
  { repeat constructor; intros _; exists noon;
      (split; [exact is_datetime_noon | left; reflexivity]). }
  assert (Hl : limits_nonzero salary_and_rent) by constructor.
  split; [exact Hd|]. split; [exact Hl|].
  exact (status_returns_for_written_dates noon salary_and_rent Hd Hl).
Defined.
